(** * zod-request: request-shape validation over wire-level HTTP data

    A shallow embedding of the library's validators
    (packages/zod-request/src) and the properties of its specification.

    - [Js]: the JavaScript string and object operations the code calls.
    - [Zod]: the rules of the validation engine the code builds on.
    - [Constants], [HttpMethod], [Protocol], [RequestMode]: closed sets
      and their eager literal builders.
    - [Utils]: extraction from multi-valued and single-valued sources.
    - [Host]: the request abstraction of the host runtime, as a state
      and error monad over the observable state of one request.
    - [BodySchema], [RequestSchema]: the body dispatcher and the
      composite validator. *)

From Stdlib Require Import Ascii String ZArith Lia.
From stdpp Require Import base strings list gmap.

Local Open Scope string_scope.

(** ** JavaScript values and string operations *)

Module Js.

(** References to host objects (streams) are compared by identity. *)
Definition Ref := nat.

(** The parts of a parsed [URL] the library reads. *)
Record URL := mkURL {
  href : string;
  protocol : string;
  hostname : string;
  pathname : string;
  search : string
}.

(** A headers-like object: anything with a [get] method. *)
Record Headers := mkHeaders { get : string -> option string }.

#[warnings="-register-all"]
Inductive value :=
| VUndef
| VNull
| VBool (b : bool)
| VNum (n : Z)
| VStr (s : string)
| VArr (l : list value)
| VObj (o : gmap string value)
| VStream (r : Ref)
| VHeaders (h : Headers)
| VURL (u : URL)
| VFile (name : string).

(** One entry of a structured validation error. *)
Record ZodIssue := mkIssue {
  code : string;
  path : list string;
  message : string
}.

(** Thrown values: a plain [Error] or the engine's structured error. *)
Inductive exn :=
| Error (msg : string)
| TypeError (msg : string)
| ZodError (issues : list ZodIssue).

Definition dquote : string := String "034"%char EmptyString.

(** [s.startsWith(p)] *)
Definition startsWith (s p : string) : bool := String.prefix p s.

(** [s.includes(p)] *)
Fixpoint includes (s p : string) : bool :=
  String.prefix p s ||
  match s with
  | EmptyString => false
  | String _ s' => includes s' p
  end.

(** [arr.includes(x)] on an array of strings *)
Definition arr_includes (arr : list string) (x : string) : bool :=
  existsb (String.eqb x) arr.

(** [arr.join(sep)] *)
Definition join (sep : string) (arr : list string) : string :=
  String.concat sep arr.

Fixpoint drop (n : nat) (s : string) : string :=
  match n, s with
  | O, _ => s
  | S n', String _ s' => drop n' s'
  | S _, EmptyString => EmptyString
  end.

(** The first occurrence of [p] in [s]: the text before and after it. *)
Fixpoint split_first (s p : string) : option (string * string) :=
  if String.prefix p s then Some (EmptyString, drop (String.length p) s)
  else match s with
       | EmptyString => None
       | String c s' =>
           match split_first s' p with
           | Some (b, a) => Some (String c b, a)
           | None => None
           end
       end.

(** The replacement template of [replace] with a string pattern (no
    capture groups): [$$], [$&], [$`] and [$'] are expanded, every other
    character stands for itself. *)
Fixpoint getSubstitution (matched before after tmpl : string) : string :=
  match tmpl with
  | EmptyString => EmptyString
  | String c tl =>
      if Ascii.eqb c "$" then
        match tl with
        | String d rest =>
            if Ascii.eqb d "$" then
              String "$" (getSubstitution matched before after rest)
            else if Ascii.eqb d "&" then
              matched ++ getSubstitution matched before after rest
            else if Ascii.eqb d "`" then
              before ++ getSubstitution matched before after rest
            else if Ascii.eqb d "'" then
              after ++ getSubstitution matched before after rest
            else String c (getSubstitution matched before after tl)
        | EmptyString => String c EmptyString
        end
      else String c (getSubstitution matched before after tl)
  end.

(** [s.replace(p, r)] with a string pattern: the first occurrence only. *)
Definition replace (s p r : string) : string :=
  match split_first s p with
  | Some (b, a) => b ++ getSubstitution p b a r ++ a
  | None => s
  end.

(** [x || d] on strings: the empty string is falsy. *)
Definition or_else (x d : string) : string :=
  if String.eqb x "" then d else x.

(** ASCII lower-casing, as header names are compared. *)
Definition lower_ascii (c : ascii) : ascii :=
  let n := nat_of_ascii c in
  if (65 <=? n)%nat && (n <=? 90)%nat then ascii_of_nat (n + 32) else c.

Fixpoint toLowerCase (s : string) : string :=
  match s with
  | EmptyString => EmptyString
  | String c s' => String (lower_ascii c) (toLowerCase s')
  end.

(** A copy of [h] after [delete(name)]. *)
Definition headers_delete (h : Headers) (name : string) : Headers :=
  mkHeaders (fun k =>
    if String.eqb (toLowerCase k) (toLowerCase name) then None else get h k).

(** [o[k]]: a missing property reads as [undefined]. *)
Definition prop (o : gmap string value) (k : string) : value :=
  default VUndef (o !! k).

(** [k in o] *)
Definition has_key (o : gmap string value) (k : string) : bool :=
  bool_decide (is_Some (o !! k)).


(** [v.k]: reading a property of [undefined] or [null] throws; values
    other than plain objects have no such property. *)
Definition member (v : value) (k : string) : exn + value :=
  match v with
  | VUndef => inl (TypeError "Cannot read properties of undefined")
  | VNull => inl (TypeError "Cannot read properties of null")
  | VObj o => inr (prop o k)
  | _ => inr VUndef
  end.

End Js.

Import Js.

(** ** The validation engine

    The engine is an external collaborator.  A schema is used through
    its parse entry point only; the rules below are the ones the library
    itself instantiates. *)

Module Zod.

(** A schema, seen through [parse]: a value or a thrown error. *)
Definition ZodType := value -> exn + value.

Definition invalid (expected : string) : exn :=
  ZodError [mkIssue "invalid_type" [] ("Invalid input: expected " ++ expected)].

(** [z.literal(s)] for a string [s]: strict equality with [s]. *)
Record ZodLiteral := mkLiteral { literal_value : string }.

Definition parse_literal (l : ZodLiteral) : ZodType := fun v =>
  match v with
  | VStr s =>
      if String.eqb s (literal_value l) then inr v
      else inl (ZodError [mkIssue "invalid_value" []
                            ("Invalid input: expected " ++ dquote ++ literal_value l ++ dquote)])
  | _ => inl (ZodError [mkIssue "invalid_value" []
                          ("Invalid input: expected " ++ dquote ++ literal_value l ++ dquote)])
  end.

Definition z_literal (s : string) : ZodLiteral := mkLiteral s.

(** [z.unknown()] *)
Definition z_unknown : ZodType := fun v => inr v.

(** [t.optional()] *)
Definition optional (t : ZodType) : ZodType := fun v =>
  match v with
  | VUndef => inr VUndef
  | _ => t v
  end.

(** [t.nullable()] *)
Definition nullable (t : ZodType) : ZodType := fun v =>
  match v with
  | VNull => inr VNull
  | _ => t v
  end.

(** [z.instanceof(URL)], [z.instanceof(Headers)],
    [z.instanceof(ReadableStream)] *)
Definition instanceof_URL : ZodType := fun v =>
  match v with VURL _ => inr v | _ => inl (invalid "URL") end.

Definition instanceof_Headers : ZodType := fun v =>
  match v with VHeaders _ => inr v | _ => inl (invalid "Headers") end.

Definition instanceof_ReadableStream : ZodType := fun v =>
  match v with VStream _ => inr v | _ => inl (invalid "ReadableStream") end.

(** One property of [z.object]: the field's schema runs on [input[k]];
    an [undefined] result is stored only when [k] is a key of the
    input, any other result is always stored. *)
Definition handlePropertyResult (input : gmap string value) (k : string)
    (t : ZodType) (final : exn + gmap string value) : exn + gmap string value :=
  match final with
  | inl e => inl e
  | inr out =>
      match t (prop input k) with
      | inl e => inl e
      | inr VUndef => if has_key input k then inr (<[k := VUndef]> out) else inr out
      | inr v => inr (<[k := v]> out)
      end
  end.

(** [z.object(fields)]: the declared fields in order; unknown keys of
    the input are dropped. *)
Definition z_object (fields : list (string * ZodType)) : ZodType := fun v =>
  match v with
  | VObj input =>
      match foldl (fun acc kt => handlePropertyResult input kt.1 kt.2 acc)
                  (inr ∅) fields with
      | inl e => inl e
      | inr out => inr (VObj out)
      end
  | _ => inl (invalid "object")
  end.

(** [z.enum(members)]: a string that is one of the members. *)
Definition z_enum (members : list string) : ZodType := fun v =>
  match v with
  | VStr s =>
      if arr_includes members s then inr v
      else inl (ZodError [mkIssue "invalid_value" []
                            ("Invalid option: expected one of " ++ join "|" members)])
  | _ => inl (ZodError [mkIssue "invalid_value" []
                          ("Invalid option: expected one of " ++ join "|" members)])
  end.

(** [z.string()] *)
Definition z_string : ZodType := fun v =>
  match v with VStr _ => inr v | _ => inl (invalid "string") end.

End Zod.

(** ** Error message constants (constants.ts) *)

Module Constants.

Definition ERROR_EXPECTED_REQUEST : string := "Expected Request".
Definition ERROR_EXPECTED_HEADERS : string := "Expected Headers".
Definition ERROR_EXPECTED_URL_SEARCH_PARAMS : string :=
  "Expected URLSearchParams or string".
Definition ERROR_UNABLE_TO_EXTRACT_BASE_SCHEMA : string :=
  "Unable to extract base schema from preprocessed {name} schema. This may be a Zod v4 compatibility issue.".
Definition ERROR_MULTIPLE_VALUES_SINGLE_SCHEMA : string :=
  "Multiple values found for parameter " ++ dquote ++ "{key}" ++ dquote ++
  " but schema expects a single value. Use an array schema (e.g., z.array(z.string())) to accept multiple values.".

End Constants.

(** ** Closed sets and their literal builders *)

Module HttpMethod.

Definition HTTP_METHODS : list string :=
  ["GET"; "POST"; "PUT"; "PATCH"; "DELETE"; "HEAD"; "OPTIONS"].

Definition httpMethodSchema (method : string) : exn + Zod.ZodLiteral :=
  if negb (arr_includes HTTP_METHODS method) then
    inl (Error ("Invalid HTTP method: " ++ dquote ++ method ++ dquote ++
                ". Must be one of: " ++ join ", " HTTP_METHODS))
  else inr (Zod.z_literal method).

Definition httpMethodEnumSchema : Zod.ZodType := Zod.z_enum HTTP_METHODS.

End HttpMethod.

Module Protocol.

Definition PROTOCOLS : list string := ["http"; "https"].

Definition protocolSchema (protocol : string) : exn + Zod.ZodLiteral :=
  if negb (arr_includes PROTOCOLS protocol) then
    inl (Error ("Invalid protocol: " ++ dquote ++ protocol ++ dquote ++
                ". Must be one of: " ++ join ", " PROTOCOLS))
  else inr (Zod.z_literal protocol).

Definition protocolEnumSchema : Zod.ZodType := Zod.z_enum PROTOCOLS.

End Protocol.

Module RequestMode.

Definition REQUEST_MODES : list string :=
  ["same-origin"; "no-cors"; "cors"; "navigate"].

Definition requestModeSchema (mode : string) : exn + Zod.ZodLiteral :=
  if negb (arr_includes REQUEST_MODES mode) then
    inl (Error ("Invalid Request mode: " ++ dquote ++ mode ++ dquote ++
                ". Must be one of: " ++ join ", " REQUEST_MODES))
  else inr (Zod.z_literal mode).

Definition requestModeEnumSchema : Zod.ZodType := Zod.z_enum REQUEST_MODES.

End RequestMode.

(** ** Value extractors (utils.ts) *)

Module Utils.

(** What extraction inspects of a field rule: [_def?.type] and
    [_def?.typeName]; [None] stands for an absent property or [_def]. *)
Record FieldSchema := mkField {
  def_type : option string;
  def_typeName : option string
}.

(** A declared shape in [for ... in] order; a falsy entry is [None]. *)
Definition Shape := list (string * option FieldSchema).

(** A multi-valued source: a native [URLSearchParams] (its entries in
    order), or any object with [get] and possibly [getAll]. *)
Inductive Params :=
| URLSearchParams (entries : list (string * string))
| ParamsLike (get : string -> option string)
             (getAll : option (string -> list string)).

Definition isArraySchema (fieldSchema : option FieldSchema) : bool :=
  match fieldSchema with
  | None => false
  | Some f =>
      bool_decide (def_type f = Some "array") ||
      bool_decide (def_typeName f = Some "ZodArray")
  end.

(** The base schema of a preprocessed schema: [def.out], when it has
    an object [shape]. *)
Record OutSchema := mkOut {
  out_shape : option Shape;
  out_parse : Zod.ZodType
}.

Record Preprocessed := mkPreprocessed { def_out : option OutSchema }.

Record ZodObject := mkZodObject {
  shape : Shape;
  parseAsync : Zod.ZodType
}.

Definition extractBaseSchema (preprocessedSchema : Preprocessed) : option ZodObject :=
  match def_out preprocessedSchema with
  | Some baseSchema =>
      match out_shape baseSchema with
      | Some sh => Some (mkZodObject sh (out_parse baseSchema))
      | None => None
      end
  | None => None
  end.

(** [URLSearchParams.prototype.getAll] *)
Definition native_getAll (entries : list (string * string)) (key : string) : list string :=
  snd <$> filter (fun e => e.1 = key) entries.

(** All values of [key], by the three cases of the source. *)
Definition allValuesOf (params : Params) (key : string) : list string :=
  match params with
  | URLSearchParams entries => native_getAll entries key
  | ParamsLike get (Some getAll) => getAll key
  | ParamsLike get None =>
      match get key with
      | Some value => [value]
      | None => []
      end
  end.

Definition multipleValuesError (key : string) : exn :=
  ZodError [mkIssue "custom" [key]
              (replace Constants.ERROR_MULTIPLE_VALUES_SINGLE_SCHEMA "{key}" key)].

Definition first (allValues : list string) : value :=
  match allValues with
  | v :: _ => VStr v
  | [] => VUndef
  end.

(** The body of the loop for one declared key with rule [fieldSchema]:
    the value stored under the key, or the thrown error. *)
Definition extractField (params : Params) (key : string)
    (fieldSchema : FieldSchema) : exn + value :=
  let isArray := isArraySchema (Some fieldSchema) in
  let allValues := allValuesOf params key in
  if (1 <? length allValues)%nat && negb isArray then
    inl (multipleValuesError key)
  else if isArray then
    inr (if (0 <? length allValues)%nat then VArr (VStr <$> allValues) else VUndef)
  else
    inr (if (0 <? length allValues)%nat then first allValues else VUndef).

(** The loop over the keys of the shape, threading [obj]. *)
Fixpoint extractLoop (params : Params) (keys : Shape)
    (obj : gmap string value) : exn + gmap string value :=
  match keys with
  | [] => inr obj
  | (key, None) :: rest => extractLoop params rest obj
  | (key, Some fieldSchema) :: rest =>
      match extractField params key fieldSchema with
      | inl e => inl e
      | inr v => extractLoop params rest (<[key := v]> obj)
      end
  end.

Definition extractSearchParamsObject (params : Params) (shape : Shape)
    : exn + gmap string value :=
  extractLoop params shape ∅.

Definition extractHeadersObject (headers : Headers) (shape : Shape)
    : gmap string value :=
  foldl (fun obj kf =>
           <[kf.1 := match get headers kf.1 with
                     | Some value => VStr value
                     | None => VUndef
                     end]> obj)
        ∅ shape.

End Utils.

(** ** The host runtime's request

    The state of one validation is the set of streams already read.
    Decoding capabilities are arbitrary computations over that state:
    nothing is assumed of the host beyond the interface. *)

Module Host.

Record World := mkWorld { consumed : gset Ref }.

Definition M (A : Type) : Type := World -> (exn + A) * World.

Definition ret {A} (a : A) : M A := fun w => (inr a, w).

Definition throw {A} (e : exn) : M A := fun w => (inl e, w).

Definition lift {A} (r : exn + A) : M A := fun w => (r, w).

Definition bind {A B} (c : M A) (k : A -> M B) : M B := fun w =>
  match c w with
  | (inl e, w') => (inl e, w')
  | (inr a, w') => k a w'
  end.

(** [try { c } catch (e) { h e }] *)
Definition try_catch {A} (c : M A) (h : exn -> M A) : M A := fun w =>
  match c w with
  | (inl e, w') => h e w'
  | (inr a, w') => (inr a, w')
  end.

(** Reading a property that depends on the current state. *)
Definition read {A} (f : World -> A) : M A := fun w => (inr (f w), w).

(** A [Request]: its fixed properties, the [body] getter, and the
    decoding capabilities, each consumable as the host decides. *)
#[warnings="-register-all"]
Inductive Request := mkRequest {
  url : string;
  method : string;
  mode : string;
  headers : Headers;
  body : World -> option Ref;
  json : M value;
  formData : M (list (string * value));
  text : M string;
  clone : M Request
}.

(** The value handed to a request validator. *)
Inductive input :=
| IsRequest (val : Request)
| NotRequest (val : value).

(** [stream-or-null] as a value *)
Definition of_body (b : option Ref) : value :=
  match b with
  | Some r => VStream r
  | None => VNull
  end.

End Host.

Declare Scope host_scope.
Delimit Scope host_scope with host.
Notation "'let*' x ':=' c 'in' k" := (Host.bind c (fun x => k))
  (at level 10, x name, c at level 200, k at level 200) : host_scope.

(** ** The body sub-validator (body-schema.ts) *)

Module BodySchema.

Local Open Scope host_scope.

Record Schemas := mkSchemas {
  s_json : option Zod.ZodType;
  s_formData : option Zod.ZodType;
  s_text : option Zod.ZodType
}.

Section Callback.

(** [new URLSearchParams(text)]: the decoded entries in order. *)
Variable URLSearchParams_new : string -> list (string * string).

(** [new Request(url, { method, headers, body, duplex })] *)
Variable Request_new :
  string -> string -> Headers -> option Ref -> Host.M Host.Request.

(** [{ body: v }] *)
Definition wrapper (v : value) : value := VObj {[ "body" := v ]}.

(** [obj[key] = typeof value === "string" ? value : undefined] over the
    entries of a decoded form. *)
Definition assignFormData (formData : list (string * value))
    (obj : gmap string value) : gmap string value :=
  foldl (fun o kv => <[kv.1 := match kv.2 with
                              | VStr s => VStr s
                              | _ => VUndef
                              end]> o) obj formData.

(** [obj[key] = value] over the entries of parsed parameters. *)
Definition assignParams (params : list (string * string))
    (obj : gmap string value) : gmap string value :=
  foldl (fun o kv => <[kv.1 := VStr kv.2]> o) obj params.

Definition jsonBranch (schema : Zod.ZodType) (val : Host.Request)
    (hasBody : bool) : Host.M value :=
  if negb hasBody then
    Host.throw (Error "Request body is required for JSON schema")
  else
    let* json := Host.json val in
    let* parsed := Host.lift (schema json) in
    Host.ret (wrapper parsed).

(** The url-encoded decoding: [formData()] first, then the text of a
    clone parsed as parameters. *)
Definition decodeUrlencoded (val : Host.Request) (obj : gmap string value)
    : Host.M (gmap string value) :=
  Host.try_catch
    (let* formData := Host.formData val in
     Host.ret (assignFormData formData obj))
    (fun formDataError =>
       Host.try_catch
         (let* clonedRequest := Host.clone val in
          let* text := Host.text clonedRequest in
          Host.ret (assignParams (URLSearchParams_new text) obj))
         (fun textError => Host.throw formDataError)).

(** The multipart decoding, with the retry for a content-type that
    names no boundary. *)
Definition decodeMultipart (val : Host.Request) (obj : gmap string value)
    : Host.M (gmap string value) :=
  let contentTypeHeader := get (Host.headers val) "content-type" in
  let* formData :=
    (if match contentTypeHeader with
        | Some h => negb (String.eqb h "") &&
                    includes h "multipart/form-data" &&
                    negb (includes h "boundary=")
        | None => false
        end
     then
       Host.try_catch
         (let* clonedRequest := Host.clone val in
          let headers := headers_delete (Host.headers clonedRequest) "content-type" in
          let* body := Host.read (Host.body clonedRequest) in
          let* requestWithoutContentType :=
            Request_new (Host.url clonedRequest) (Host.method clonedRequest)
                        headers body in
          Host.formData requestWithoutContentType)
         (fun cloneError =>
            Host.try_catch (Host.formData val)
                           (fun originalError => Host.throw originalError))
     else Host.formData val) in
  Host.ret (assignFormData formData obj).

Definition formDataBranch (schema : Zod.ZodType) (val : Host.Request)
    (hasBody : bool) (contentType : string) : Host.M value :=
  if negb hasBody then
    Host.throw (Error "Request body is required for FormData schema")
  else
    let* obj := (if includes contentType "application/x-www-form-urlencoded"
            then decodeUrlencoded val ∅
            else decodeMultipart val ∅) in
    let* parsed := Host.lift (schema (VObj obj)) in
    Host.ret (wrapper parsed).

Definition textBranch (schema : Zod.ZodType) (val : Host.Request)
    (hasBody : bool) : Host.M value :=
  if negb hasBody then
    Host.throw (Error "Request body is required for text schema")
  else
    let* text := Host.text val in
    let* parsed := Host.lift (schema (VStr text)) in
    Host.ret (wrapper parsed).

Definition expectedTypes (schemas : Schemas) : list string :=
  (if s_json schemas is Some _ then ["application/json"] else []) ++
  (if s_formData schemas is Some _
   then ["multipart/form-data"; "application/x-www-form-urlencoded"]
   else []) ++
  (if s_text schemas is Some _ then ["text/*"] else []).

(** No branch matched although a schema is declared. *)
Definition mismatch (schemas : Schemas) (hasBody : bool)
    (contentType : string) : Host.M value :=
  if negb hasBody then
    Host.throw (Error "Request body is required")
  else
    Host.throw (Error ("Content-Type mismatch. Expected one of: " ++
                       join ", " (expectedTypes schemas) ++
                       ", but got: " ++
                       or_else contentType "(no content-type header)")).

(** The conditions of the three [if] statements, in source order. *)
Definition jsonMatches (schemas : Schemas) (contentType : string) : option Zod.ZodType :=
  match s_json schemas with
  | Some schema =>
      if includes contentType "application/json" then Some schema else None
  | None => None
  end.

Definition formDataMatches (schemas : Schemas) (contentType : string) : option Zod.ZodType :=
  match s_formData schemas with
  | Some schema =>
      if includes contentType "multipart/form-data" ||
         includes contentType "application/x-www-form-urlencoded"
      then Some schema else None
  | None => None
  end.

Definition textMatches (schemas : Schemas) (contentType : string) : option Zod.ZodType :=
  match s_text schemas with
  | Some schema =>
      if startsWith contentType "text/" || String.eqb contentType ""
      then Some schema else None
  | None => None
  end.

(** The function given to [z.preprocess]. *)
Definition preprocess (schemas : Schemas) (val : Host.input) : Host.M value :=
  match val with
  | Host.NotRequest _ => Host.throw (Error Constants.ERROR_EXPECTED_REQUEST)
  | Host.IsRequest val =>
      let contentType := default "" (get (Host.headers val) "content-type") in
      let hasAnySchema :=
        bool_decide (is_Some (s_json schemas)) ||
        bool_decide (is_Some (s_formData schemas)) ||
        bool_decide (is_Some (s_text schemas)) in
      let* hasBody := Host.read (fun w => bool_decide (Host.body val w <> None)) in
      match jsonMatches schemas contentType with
      | Some schema => jsonBranch schema val hasBody
      | None =>
      match formDataMatches schemas contentType with
      | Some schema => formDataBranch schema val hasBody contentType
      | None =>
      match textMatches schemas contentType with
      | Some schema => textBranch schema val hasBody
      | None =>
          if hasAnySchema then mismatch schemas hasBody contentType
          else Host.ret (wrapper VUndef)
      end end end
  end.

(** [z.preprocess(callback, z.object({ body: z.unknown().optional() }))] *)
Definition bodySchema (schemas : Schemas) (val : Host.input) : Host.M value :=
  let* out := preprocess schemas val in
  Host.lift (Zod.z_object [("body", Zod.optional Zod.z_unknown)] out).

End Callback.

End BodySchema.

(** ** The composite request validator (request-schema.ts) *)

Module RequestSchema.

Local Open Scope host_scope.

(** The declared facets.  The body sub-validator receives the request
    itself and may read it; the others are schemas over plain values. *)
Record SchemaConfig := mkConfig {
  searchParams : option Utils.Preprocessed;
  body : option (Host.input -> Host.M value);
  headers : option Utils.Preprocessed;
  method : option Zod.ZodType;
  mode : option Zod.ZodType;
  protocol : option Zod.ZodType;
  hostname : option Zod.ZodType;
  pathname : option Zod.ZodType
}.

(** What [processBody] returns. *)
Record BodyResult := mkBodyResult {
  parsed : value;
  bodyValue : value;
  originalBody : value
}.

Definition baseOrUnknown (schema : Utils.Preprocessed) : Zod.ZodType :=
  match Utils.extractBaseSchema schema with
  | Some baseSchema => Utils.parseAsync baseSchema
  | None => Zod.z_unknown
  end.

Definition orUnknownOptional (schema : option Zod.ZodType) : Zod.ZodType :=
  match schema with
  | Some s => s
  | None => Zod.optional Zod.z_unknown
  end.

(** The fields of the result schema, in the order they are set. *)
Definition resultFields (config : SchemaConfig) : list (string * Zod.ZodType) :=
  [ ("url", Zod.instanceof_URL);
    ("searchParamsObject",
       match searchParams config with
       | Some sp => baseOrUnknown sp
       | None => Zod.optional Zod.z_unknown
       end);
    ("body",
       if body config is Some _
       then Zod.nullable Zod.instanceof_ReadableStream
       else Zod.optional Zod.z_unknown);
    ("bodyObject",
       if body config is Some _
       then Zod.z_unknown
       else Zod.optional Zod.z_unknown);
    ("headers",
       if headers config is Some _
       then Zod.instanceof_Headers
       else Zod.optional Zod.z_unknown);
    ("headersObj",
       match headers config with
       | Some h => baseOrUnknown h
       | None => Zod.optional Zod.z_unknown
       end);
    ("method", orUnknownOptional (method config));
    ("mode", orUnknownOptional (mode config));
    ("protocol", orUnknownOptional (protocol config));
    ("hostname", orUnknownOptional (hostname config));
    ("pathname", orUnknownOptional (pathname config)) ].

Definition buildResultSchema (config : SchemaConfig) : Zod.ZodType :=
  Zod.z_object (resultFields config).

Section Validator.

(** [new URL(s)] *)
Variable URL_new : string -> exn + URL.

(** [new URLSearchParams(s)]: the decoded entries in order. *)
Variable URLSearchParams_new : string -> list (string * string).

Definition processSearchParams (searchParams : Utils.Preprocessed)
    (urlObj : URL) : Host.M value :=
  let searchString := search urlObj in
  let params := Utils.URLSearchParams (URLSearchParams_new searchString) in
  match Utils.extractBaseSchema searchParams with
  | None =>
      Host.throw (Error (replace Constants.ERROR_UNABLE_TO_EXTRACT_BASE_SCHEMA
                                 "{name}" "searchParams"))
  | Some baseSchema =>
      let* obj := Host.lift (Utils.extractSearchParamsObject params
                               (Utils.shape baseSchema)) in
      Host.lift (Utils.parseAsync baseSchema (VObj obj))
  end.

Definition processHeaders (headers : Utils.Preprocessed)
    (requestHeaders : Headers) : Host.M value :=
  match Utils.extractBaseSchema headers with
  | None =>
      Host.throw (Error (replace Constants.ERROR_UNABLE_TO_EXTRACT_BASE_SCHEMA
                                 "{name}" "headers"))
  | Some baseSchema =>
      let obj := Utils.extractHeadersObject requestHeaders
                   (Utils.shape baseSchema) in
      Host.lift (Utils.parseAsync baseSchema (VObj obj))
  end.

(** The stream reference is read first, then the request is parsed. *)
Definition processBody (body : Host.input -> Host.M value)
    (request : Host.Request) : Host.M BodyResult :=
  let* originalBody := Host.read (Host.body request) in
  let* parsed := body (Host.IsRequest request) in
  let* bodyValue := Host.lift (member parsed "body") in
  Host.ret (mkBodyResult parsed bodyValue (Host.of_body originalBody)).

Definition processSimpleField (schema : Zod.ZodType) (value : string)
    : Host.M Js.value :=
  Host.lift (schema (VStr value)).

Definition simpleField (schema : option Zod.ZodType) (value : string)
    : Host.M Js.value :=
  match schema with
  | Some s => processSimpleField s value
  | None => Host.ret VUndef
  end.

(** The function given to [z.preprocess]. *)
Definition preprocess (config : SchemaConfig) (val : Host.input)
    : Host.M value :=
  match val with
  | Host.NotRequest _ => Host.throw (Error Constants.ERROR_EXPECTED_REQUEST)
  | Host.IsRequest val =>
      let* urlObj := Host.lift (URL_new (Host.url val)) in
      let* searchParamsObject :=
        match searchParams config with
        | Some sp => processSearchParams sp urlObj
        | None => Host.ret VUndef
        end in
      let* bodyResult :=
        match body config with
        | Some b => processBody b val
        | None => Host.ret (mkBodyResult VUndef VUndef VUndef)
        end in
      let* headersObject :=
        match headers config with
        | Some h => processHeaders h (Host.headers val)
        | None => Host.ret VUndef
        end in
      let originalHeaders :=
        if headers config is Some _ then VHeaders (Host.headers val) else VUndef in
      let* methodValue := simpleField (method config) (Host.method val) in
      let* modeValue := simpleField (mode config) (Host.mode val) in
      let* protocolValue :=
        simpleField (protocol config) (replace (Js.protocol urlObj) ":" "") in
      let* hostnameValue := simpleField (hostname config) (Js.hostname urlObj) in
      let* pathnameValue := simpleField (pathname config) (Js.pathname urlObj) in
      Host.ret (VObj
        (<["url" := VURL urlObj]>
        (<["searchParamsObject" := searchParamsObject]>
        (<["body" := originalBody bodyResult]>
        (<["bodyObject" := bodyValue bodyResult]>
        (<["headers" := originalHeaders]>
        (<["headersObj" := headersObject]>
        (<["method" := methodValue]>
        (<["mode" := modeValue]>
        (<["protocol" := protocolValue]>
        (<["hostname" := hostnameValue]>
        (<["pathname" := pathnameValue]> ∅))))))))))))
  end.

(** [z.preprocess(callback, resultSchema)] *)
Definition requestSchema (config : SchemaConfig) (val : Host.input)
    : Host.M value :=
  let* out := preprocess config val in
  Host.lift (buildResultSchema config out).

End Validator.

(** The keys of the object the callback returns. *)
Definition resultKeys : list string :=
  [ "url"; "searchParamsObject"; "body"; "bodyObject"; "headers";
    "headersObj"; "method"; "mode"; "protocol"; "hostname"; "pathname" ].

End RequestSchema.

(** ** The search-params and headers sub-validators
    (search-params-schema.ts, headers-schema.ts) *)

Module SubValidators.

(** What a caller may hand to these validators: a plain value, a native
    [URLSearchParams], or any other object with a callable [get] (and
    possibly [getAll]).  Among the plain values only a [Headers]
    instance has a callable [get]. *)
Inductive raw :=
| RawValue (v : value)
| RawURLSearchParams (entries : list (string * string))
| RawLike (get : string -> option string)
          (getAll : option (string -> list string)).

(** [z.preprocess(fn, schema)] keeps [schema] as its [def.out]. *)
Definition pipe (schema : Utils.ZodObject) : Utils.Preprocessed :=
  Utils.mkPreprocessed
    (Some (Utils.mkOut (Some (Utils.shape schema)) (Utils.parseAsync schema))).

(** [URLSearchParams.prototype.get]: the first value of the key. *)
Definition native_get (entries : list (string * string)) (key : string)
    : option string :=
  head (Utils.native_getAll entries key).

Section SearchParams.

(** [new URLSearchParams(s)]: the decoded entries in order. *)
Variable URLSearchParams_new : string -> list (string * string).

(** The normalisation of the input, first match first. *)
Definition toParams (val : raw) : exn + Utils.Params :=
  match val with
  | RawValue VNull | RawValue VUndef =>
      inl (Error Constants.ERROR_EXPECTED_URL_SEARCH_PARAMS)
  | RawValue (VStr s) => inr (Utils.URLSearchParams (URLSearchParams_new s))
  | RawURLSearchParams entries => inr (Utils.URLSearchParams entries)
  | RawLike get getAll => inr (Utils.ParamsLike get getAll)
  | RawValue (VHeaders h) => inr (Utils.ParamsLike (get h) None)
  | RawValue (VArr _) | RawValue (VObj _) | RawValue (VStream _)
  | RawValue (VURL _) | RawValue (VFile _) =>
      (* an object without a callable [get] *)
      inl (Error Constants.ERROR_EXPECTED_URL_SEARCH_PARAMS)
  | RawValue (VBool _) | RawValue (VNum _) =>
      inl (Error Constants.ERROR_EXPECTED_URL_SEARCH_PARAMS)
  end.

Definition searchParamsSchema (schema : Utils.ZodObject) (val : raw)
    : exn + value :=
  match toParams val with
  | inl e => inl e
  | inr params =>
      match Utils.extractSearchParamsObject params (Utils.shape schema) with
      | inl e => inl e
      | inr obj => Utils.parseAsync schema (VObj obj)
      end
  end.

End SearchParams.

(** The normalisation of the input of the headers validator. *)
Definition toHeaders (val : raw) : exn + Headers :=
  match val with
  | RawValue VNull | RawValue VUndef =>
      inl (Error Constants.ERROR_EXPECTED_HEADERS)
  | RawValue (VHeaders h) => inr h
  | RawURLSearchParams entries => inr (mkHeaders (native_get entries))
  | RawLike get _ => inr (mkHeaders get)
  | RawValue (VArr _) | RawValue (VObj _) | RawValue (VStream _)
  | RawValue (VURL _) | RawValue (VFile _) =>
      (* an object without a callable [get] *)
      inl (Error Constants.ERROR_EXPECTED_HEADERS)
  | RawValue (VBool _) | RawValue (VNum _) | RawValue (VStr _) =>
      inl (Error Constants.ERROR_EXPECTED_HEADERS)
  end.

Definition headersSchema (schema : Utils.ZodObject) (val : raw)
    : exn + value :=
  match toHeaders val with
  | inl e => inl e
  | inr headers =>
      Utils.parseAsync schema
        (VObj (Utils.extractHeadersObject headers (Utils.shape schema)))
  end.

End SubValidators.

(** ** Statements *)

Module Law.

(** An eager literal builder over the closed set [members]: a value
    outside the set makes the builder throw a plain error that lists
    every member; a value inside yields the schema of that literal,
    which accepts that string only. *)
Definition eager_literal_builder (what : string) (members : list string)
    (builder : string -> exn + Zod.ZodLiteral) : Prop :=
  forall value : string,
    (value ∉ members ->
     exists msg,
       builder value = inl (Error msg) /\
       msg = what ++ dquote ++ value ++ dquote ++
             ". Must be one of: " ++ join ", " members /\
       forall m, m ∈ members -> includes msg m = true) /\
    (value ∈ members ->
     exists schema,
       builder value = inr schema /\
       forall v, (exists r, Zod.parse_literal schema v = inr r) <-> v = VStr value).

(** A declared key whose source holds several values under a rule that
    is not an array rule. *)
Definition offends (params : Utils.Params)
    (entry : string * option Utils.FieldSchema) : bool :=
  match entry.2 with
  | Some f =>
      (1 <? length (Utils.allValuesOf params entry.1))%nat &&
      negb (Utils.isArraySchema (Some f))
  | None => false
  end.

(** What the cardinality law prescribes for the values [vs] of a key. *)
Definition prescribed (isArray : bool) (vs : list string) : value :=
  if isArray then
    match vs with
    | [] => VUndef
    | _ => VArr (VStr <$> vs)
    end
  else
    match vs with
    | [] => VUndef
    | v :: _ => VStr v
    end.

(** The content type the dispatcher reads, and its [hasBody]. *)
Definition contentTypeOf (val : Host.Request) : string :=
  default "" (get (Host.headers val) "content-type").

Definition hasBodyIn (val : Host.Request) (w : Host.World) : bool :=
  bool_decide (Host.body val w <> None).

(** The branches of the body dispatcher. *)
Inductive Branch := Json | Form | Text | Mismatch | NoSchema.

(** The one branch selected for a content type, by priority. *)
Definition selected (schemas : BodySchema.Schemas) (contentType : string) : Branch :=
  if BodySchema.jsonMatches schemas contentType is Some _ then Json
  else if BodySchema.formDataMatches schemas contentType is Some _ then Form
  else if BodySchema.textMatches schemas contentType is Some _ then Text
  else if bool_decide (is_Some (BodySchema.s_json schemas)) ||
          bool_decide (is_Some (BodySchema.s_formData schemas)) ||
          bool_decide (is_Some (BodySchema.s_text schemas))
       then Mismatch
       else NoSchema.

(** A computation is the run of branch [b] on a request. *)
Definition runs (URLSearchParams_new : string -> list (string * string))
    (Request_new : string -> string -> Headers -> option Ref -> Host.M Host.Request)
    (schemas : BodySchema.Schemas) (val : Host.Request) (w : Host.World)
    (b : Branch) (outcome : (exn + value) * Host.World) : Prop :=
  let ct := contentTypeOf val in
  let hb := hasBodyIn val w in
  match b with
  | Json => exists schema, BodySchema.s_json schemas = Some schema /\
              outcome = BodySchema.jsonBranch schema val hb w
  | Form => exists schema, BodySchema.s_formData schemas = Some schema /\
              outcome = BodySchema.formDataBranch URLSearchParams_new Request_new
                          schema val hb ct w
  | Text => exists schema, BodySchema.s_text schemas = Some schema /\
              outcome = BodySchema.textBranch schema val hb w
  | Mismatch => outcome = BodySchema.mismatch schemas hb ct w
  | NoSchema => outcome = (inr (BodySchema.wrapper VUndef), w)
  end.

End Law.

(** ** Sample data *)

Module Sample.

Definition scalar : Utils.FieldSchema := Utils.mkField (Some "string") None.
Definition array : Utils.FieldSchema := Utils.mkField (Some "array") None.

(** [?a=1&a=2&b=3&b=4] against [{ a: string, b: string }] *)
Definition twice_ab : Utils.Params :=
  Utils.URLSearchParams [("a", "1"); ("a", "2"); ("b", "3"); ("b", "4")].
Definition shape_ab : Utils.Shape :=
  [("a", Some scalar); ("b", Some scalar)].

(** [?tag=first&tag=second&q=&extra=x] against
    [{ tag: array, q: string, page: string }] *)
Definition tags : Utils.Params :=
  Utils.URLSearchParams
    [("tag", "first"); ("tag", "second"); ("q", ""); ("extra", "x")].
Definition shape_tags : Utils.Shape :=
  [("tag", Some array); ("q", Some scalar); ("page", Some scalar)].

(** Host pieces for sample requests. *)
Definition headers_of (contentType : option string) : Headers :=
  mkHeaders (fun k =>
    if String.eqb (toLowerCase k) "content-type" then contentType else None).

(** A decoding step that reads stream [r] and ends with [result]. *)
Definition consuming {A} (r : Ref) (result : exn + A) : Host.M A := fun w =>
  (result, Host.mkWorld ({[r]} ∪ Host.consumed w)).

Definition unusable {A} : Host.M A :=
  Host.throw (TypeError "Body is unusable").

Definition nowhere : Host.World := Host.mkWorld ∅.

Definition no_params (text : string) : list (string * string) := [].

Definition no_request (url method : string) (h : Headers) (b : option Ref)
    : Host.M Host.Request :=
  Host.throw (TypeError "Request is not constructible").

Definition accept_all : Zod.ZodType := Zod.z_unknown.

(** A POST whose content type names both JSON and multipart. *)
Definition ambiguous : Host.Request :=
  Host.mkRequest "https://example.com/" "POST" "cors"
    (headers_of (Some "application/json; multipart/form-data"))
    (fun _ => Some 7)
    (consuming 7 (inr (VObj {[ "name" := VStr "John" ]})))
    (consuming 7 (inl (TypeError "Failed to parse body as FormData")))
    (consuming 7 (inr "{}"))
    unusable.

(** A GET without body that announces XML. *)
Definition xml_get : Host.Request :=
  Host.mkRequest "https://example.com/" "GET" "cors"
    (headers_of (Some "application/xml"))
    (fun _ => None) unusable unusable unusable unusable.

(** A POST with an XML body. *)
Definition xml_post : Host.Request :=
  Host.mkRequest "https://example.com/" "POST" "cors"
    (headers_of (Some "application/xml"))
    (fun _ => Some 3)
    (consuming 3 (inl (Error "Unexpected token")))
    (consuming 3 (inl (TypeError "Failed to parse body as FormData")))
    (consuming 3 (inr "<xml></xml>"))
    unusable.

(** A url-encoded POST whose [formData()] fails and whose clone cannot
    be read either. *)
Definition urlencoded_broken : Host.Request :=
  Host.mkRequest "https://example.com/" "POST" "cors"
    (headers_of (Some "application/x-www-form-urlencoded"))
    (fun _ => Some 5)
    unusable
    (consuming 5 (inl (TypeError "Failed to parse body as FormData")))
    unusable
    (Host.throw (TypeError "Request body is already used")).

Definition json_only : BodySchema.Schemas :=
  BodySchema.mkSchemas (Some accept_all) None None.
Definition all_three : BodySchema.Schemas :=
  BodySchema.mkSchemas (Some accept_all) (Some accept_all) (Some accept_all).
Definition form_and_text : BodySchema.Schemas :=
  BodySchema.mkSchemas None (Some accept_all) (Some accept_all).

(** A form POST whose content type also starts like text. *)
Definition textish_form : Host.Request :=
  Host.mkRequest "https://example.com/" "POST" "cors"
    (headers_of (Some "text/plain; application/x-www-form-urlencoded"))
    (fun _ => Some 9)
    unusable
    (consuming 9 (inr [("name", VStr "John"); ("photo", VFile "a.png")]))
    (consuming 9 (inr "name=John"))
    unusable.

(** A stand-in for the host's URL parser on the sample requests. *)
Definition url_of (s : string) : exn + URL :=
  inr (mkURL s "https:" "example.com" "/" "").

(** A JSON POST on a host whose [body] getter answers [null] once the
    stream has been read. *)
Definition draining : Host.Request :=
  Host.mkRequest "https://example.com/" "POST" "cors"
    (headers_of (Some "application/json"))
    (fun w => if bool_decide (7 ∈ Host.consumed w) then None else Some 7)
    (consuming 7 (inr (VObj {[ "name" := VStr "John" ]})))
    unusable unusable unusable.

Definition no_facets : RequestSchema.SchemaConfig :=
  RequestSchema.mkConfig None None None None None None None None.

Definition body_only : RequestSchema.SchemaConfig :=
  RequestSchema.mkConfig None
    (Some (BodySchema.bodySchema no_params no_request json_only))
    None None None None None None.

End Sample.

(** ** Header extraction from a [get] that may throw (utils.ts)

    A native [Headers] throws a [TypeError] from [get] for a key that
    is not a valid header name, and a duck-typed [get] may throw
    anything.  [Utils.extractHeadersObject] is the extraction from a
    [get] that answers; this is the same loop with the throw. *)

Module HeaderAccess.

Record ThrowingHeaders := mkThrowing {
  get_or_throw : string -> exn + option string
}.

(** A headers object whose [get] answers for every key. *)
Definition answering (h : Headers) : ThrowingHeaders :=
  mkThrowing (fun key => inr (get h key)).

(** [value ?? undefined] *)
Definition orUndefined (value : option string) : Js.value :=
  match value with
  | Some s => VStr s
  | None => VUndef
  end.

Fixpoint extractHeadersLoop (headers : ThrowingHeaders) (keys : Utils.Shape)
    (obj : gmap string value) : exn + gmap string value :=
  match keys with
  | [] => inr obj
  | (key, _) :: rest =>
      match get_or_throw headers key with
      | inl e => inl e
      | inr value =>
          extractHeadersLoop headers rest (<[key := orUndefined value]> obj)
      end
  end.

Definition extractHeadersObject (headers : ThrowingHeaders)
    (shape : Utils.Shape) : exn + gmap string value :=
  extractHeadersLoop headers shape ∅.

End HeaderAccess.

(** ** Further statements and sample data *)

Module More.

(** The last entry of a decoded form under key [k]. *)
Definition last_entry (k : string) (entries : list (string * value))
    : option (string * value) :=
  last (filter (fun e => e.1 = k) entries).

(** What a form entry becomes in the field map. *)
Definition form_field (v : value) : value :=
  match v with
  | VStr s => VStr s
  | _ => VUndef
  end.

(** The retry of the multipart decoding: the request is cloned and
    rebuilt without its content type, and the rebuilt request decoded. *)
Definition rebuilt_formData
    (Request_new : string -> string -> Headers -> option Ref -> Host.M Host.Request)
    (val : Host.Request) : Host.M (list (string * value)) :=
  Host.bind (Host.clone val) (fun clonedRequest =>
    Host.bind (Host.read (Host.body clonedRequest)) (fun body =>
      Host.bind
        (Request_new (Host.url clonedRequest) (Host.method clonedRequest)
           (headers_delete (Host.headers clonedRequest) "content-type") body)
        (fun requestWithoutContentType =>
           Host.formData requestWithoutContentType))).

(** The content type names multipart but no boundary. *)
Definition lacks_boundary (val : Host.Request) : bool :=
  match get (Host.headers val) "content-type" with
  | Some h => negb (String.eqb h "") &&
              includes h "multipart/form-data" &&
              negb (includes h "boundary=")
  | None => false
  end.

(** A schema over [{ tag, q, page }] that accepts every object. *)
Definition tags_schema : Utils.ZodObject :=
  Utils.mkZodObject Sample.shape_tags Zod.z_unknown.

(** A multipart POST without boundary whose clone fails and whose own
    decoding fails as well. *)
Definition multipart_broken : Host.Request :=
  Host.mkRequest "https://example.com/" "POST" "cors"
    (Sample.headers_of (Some "multipart/form-data"))
    (fun _ => Some 4)
    Sample.unusable
    (Sample.consuming 4 (inl (TypeError "Failed to parse body as FormData")))
    Sample.unusable
    (Host.throw (TypeError "Request body is already used")).

(** A text POST. *)
Definition text_post : Host.Request :=
  Host.mkRequest "https://example.com/" "POST" "cors"
    (Sample.headers_of (Some "text/plain; charset=utf-8"))
    (fun _ => Some 2)
    Sample.unusable Sample.unusable
    (Sample.consuming 2 (inr "  hello world  "))
    Sample.unusable.

Definition text_only : BodySchema.Schemas :=
  BodySchema.mkSchemas None None (Some Zod.z_string).

(** A parser for the query strings of the sample requests. *)
Definition query_of (s : string) : list (string * string) :=
  if String.eqb s "?tag=a&q=1&q=2" then [("tag", "a"); ("q", "1"); ("q", "2")]
  else if String.eqb s "?tag=a&q=1" then [("tag", "a"); ("q", "1")]
  else [].

Definition url_with (query : string) (s : string) : exn + URL :=
  inr (mkURL s "https:" "example.com" "/items" query).

(** A POST without content type. *)
Definition bare_post : Host.Request :=
  Host.mkRequest "https://example.com/" "POST" "cors"
    (Sample.headers_of None)
    (fun _ => Some 6)
    Sample.unusable Sample.unusable
    (Sample.consuming 6 (inr "hi"))
    Sample.unusable.

(** A schema over [{ content-type }] that accepts every object. *)
Definition content_type_schema : Utils.ZodObject :=
  Utils.mkZodObject [("content-type", Some Sample.scalar)] Zod.z_unknown.

(** Search params, headers, a literal method and a literal protocol. *)
Definition pinned : RequestSchema.SchemaConfig :=
  RequestSchema.mkConfig
    (Some (SubValidators.pipe tags_schema))
    None
    (Some (SubValidators.pipe content_type_schema))
    (Some (Zod.parse_literal (Zod.z_literal "POST")))
    None
    (Some (Zod.parse_literal (Zod.z_literal "https")))
    None None.

(** Search params and a body validator. *)
Definition params_and_body : RequestSchema.SchemaConfig :=
  RequestSchema.mkConfig
    (Some (SubValidators.pipe tags_schema))
    (Some (BodySchema.bodySchema Sample.no_params Sample.no_request
             Sample.json_only))
    None None None None None None.

(** A native-like headers object: [get] throws for a name with a
    space, answers the content type, and [null] otherwise. *)
Definition strict_headers : HeaderAccess.ThrowingHeaders :=
  HeaderAccess.mkThrowing (fun key =>
    if includes key " " then inl (TypeError "Invalid header name")
    else if String.eqb (toLowerCase key) "content-type"
         then inr (Some "text/plain")
         else inr None).

(** A decoded form with a repeated field and a file. *)
Definition profile_form : list (string * value) :=
  [("name", VStr "John"); ("photo", VFile "a.png"); ("name", VStr "Jane")].

End More.

(** * Properties *)

(** Closed decidable facts are settled by evaluation. *)
Ltac by_compute := refine (bool_decide_unpack _ _); vm_compute; exact I.

(** Membership in an explicit list. *)
Ltac in_list := repeat first [apply list_elem_of_here | apply list_elem_of_further].

(** ** Strings *)

Lemma append_cons (c : ascii) (s t : string) :
  String c s ++ t = String c (s ++ t).
Proof. reflexivity. Qed.

Lemma append_empty_l (t : string) : "" ++ t = t.
Proof. reflexivity. Qed.

Lemma append_empty_r (s : string) : s ++ "" = s.
Proof.
  induction s as [|c s IH]; [done|]. by rewrite append_cons, IH.
Qed.

Lemma prefix_app (p t : string) : String.prefix p (p ++ t) = true.
Proof.
  induction p as [|c p IH].
  - rewrite append_empty_l. by destruct t.
  - rewrite append_cons. simpl.
    destruct (ascii_dec c c); [apply IH | congruence].
Qed.

Lemma includes_unfold (s p : string) :
  includes s p =
  String.prefix p s ||
  match s with
  | EmptyString => false
  | String _ s' => includes s' p
  end.
Proof. by destruct s. Qed.

Lemma includes_here (p t : string) : includes (p ++ t) p = true.
Proof. by rewrite includes_unfold, prefix_app. Qed.

Lemma includes_refl (p : string) : includes p p = true.
Proof.
  pose proof (includes_here p "") as H. by rewrite append_empty_r in H.
Qed.

Lemma includes_app_r (s t p : string) :
  includes t p = true -> includes (s ++ t) p = true.
Proof.
  intros H. induction s as [|c s IH]; [done|].
  rewrite append_cons, includes_unfold, IH. apply orb_true_r.
Qed.

Lemma prefix_app_l (p s t : string) :
  String.prefix p s = true -> String.prefix p (s ++ t) = true.
Proof.
  revert s. induction p as [|c p IH]; intros s.
  { intros _. by destruct (s ++ t). }
  destruct s as [|d s]; [done|]. rewrite append_cons. simpl.
  destruct (ascii_dec c d); [apply IH | done].
Qed.

Lemma includes_app_l (s t p : string) :
  includes s p = true -> includes (s ++ t) p = true.
Proof.
  induction s as [|c s IH]; rewrite (includes_unfold _ p).
  - rewrite orb_false_r. intros H. rewrite includes_unfold.
    by rewrite (prefix_app_l p "" t H).
  - intros [H|H]%orb_true_iff; rewrite append_cons, includes_unfold.
    + by rewrite <- append_cons, (prefix_app_l _ _ t H).
    + rewrite IH by done. apply orb_true_r.
Qed.

Lemma includes_join (sep m : string) (arr : list string) :
  m ∈ arr -> includes (join sep arr) m = true.
Proof.
  unfold join. induction arr as [|x arr IH]; [by intros ?%elem_of_nil|].
  intros [->|Hin]%elem_of_cons; simpl.
  - destruct arr; [apply includes_refl | apply includes_here].
  - destruct arr as [|y arr]; [by apply elem_of_nil in Hin|].
    do 2 apply includes_app_r. by apply IH.
Qed.

Lemma arr_includes_elem_of (arr : list string) (x : string) :
  arr_includes arr x = true <-> x ∈ arr.
Proof.
  unfold arr_includes. rewrite existsb_exists. split.
  - intros (y & Hy & ->%String.eqb_eq). by apply list_elem_of_In.
  - intros H. exists x. split; [by apply list_elem_of_In | apply String.eqb_refl].
Qed.

Lemma parse_literal_accepts (s : string) (v : value) :
  (exists r, Zod.parse_literal (Zod.z_literal s) v = inr r) <-> v = VStr s.
Proof.
  unfold Zod.parse_literal, Zod.z_literal; simpl. split.
  - intros [r H]. destruct v; try discriminate.
    destruct (String.eqb_spec s0 s); [by subst | discriminate].
  - intros ->. rewrite String.eqb_refl. by eexists.
Qed.

(** ** The operations on small inputs *)

Example replace_first_only :
  replace "a{key}b{key}" "{key}" "tag" = "atagb{key}".
Proof. reflexivity. Qed.

Example replace_dollar_patterns :
  replace "<{key}>" "{key}" "$$1-$&" = "<$1-{key}>".
Proof. reflexivity. Qed.

Example protocol_without_colon : replace "https:" ":" "" = "https".
Proof. reflexivity. Qed.

Example multiple_values_message :
  Utils.multipleValuesError "tag" =
  ZodError [mkIssue "custom" ["tag"]
    ("Multiple values found for parameter " ++ dquote ++ "tag" ++ dquote ++
     " but schema expects a single value. Use an array schema (e.g., z.array(z.string())) to accept multiple values.")].
Proof. reflexivity. Qed.

Example valid_search_params :
  Utils.extractSearchParamsObject
    (Utils.URLSearchParams [("name", "John"); ("age", "30"); ("extra", "x")])
    [("name", Some Sample.scalar); ("age", Some Sample.scalar)] =
  inr {[ "name" := VStr "John"; "age" := VStr "30" ]}.
Proof. vm_compute. reflexivity. Qed.

Example duplicate_array_param :
  Utils.extractSearchParamsObject
    (Utils.URLSearchParams [("tag", "first"); ("tag", "second")])
    [("tag", Some Sample.array)] =
  inr {[ "tag" := VArr [VStr "first"; VStr "second"] ]}.
Proof. vm_compute. reflexivity. Qed.

Example duplicate_scalar_param :
  Utils.extractSearchParamsObject
    (Utils.URLSearchParams [("tag", "first"); ("tag", "second")])
    [("tag", Some Sample.scalar)] =
  inl (Utils.multipleValuesError "tag").
Proof. reflexivity. Qed.

Example headers_extraction :
  Utils.extractHeadersObject (Sample.headers_of (Some "text/plain"))
    [("Content-Type", None); ("authorization", None)] =
  {[ "Content-Type" := VStr "text/plain"; "authorization" := VUndef ]}.
Proof. vm_compute. reflexivity. Qed.

Example invalid_method_message :
  HttpMethod.httpMethodSchema "invalid" =
  inl (Error ("Invalid HTTP method: " ++ dquote ++ "invalid" ++ dquote ++
              ". Must be one of: GET, POST, PUT, PATCH, DELETE, HEAD, OPTIONS")).
Proof. reflexivity. Qed.

(** ** Literal builders *)

Lemma eager_literal_builder_intro (what : string) (members : list string)
    (builder : string -> exn + Zod.ZodLiteral) :
  (forall value,
     builder value =
     if negb (arr_includes members value) then
       inl (Error (what ++ dquote ++ value ++ dquote ++
                   ". Must be one of: " ++ join ", " members))
     else inr (Zod.z_literal value)) ->
  Law.eager_literal_builder what members builder.
Proof.
  intros Hb value. rewrite Hb. split; intros Hin.
  - destruct (arr_includes members value) eqn:E.
    { by apply arr_includes_elem_of in E. }
    simpl. eexists. split; [done|]. split; [done|].
    intros m Hm. do 5 apply includes_app_r. by apply includes_join.
  - apply arr_includes_elem_of in Hin. rewrite Hin. simpl.
    eexists. split; [done|]. apply parse_literal_accepts.
Qed.

(** C8: the literal builders of the three closed sets validate eagerly.
    A value outside the set makes the builder itself throw a plain
    [Error] whose message lists every member of the set; a value inside
    the set yields a schema that accepts exactly that string. *)
Theorem literal_builders_eager :
  Law.eager_literal_builder "Invalid HTTP method: "
    HttpMethod.HTTP_METHODS HttpMethod.httpMethodSchema /\
  Law.eager_literal_builder "Invalid protocol: "
    Protocol.PROTOCOLS Protocol.protocolSchema /\
  Law.eager_literal_builder "Invalid Request mode: "
    RequestMode.REQUEST_MODES RequestMode.requestModeSchema.
Proof.
  split; [|split]; apply eager_literal_builder_intro; reflexivity.
Qed.

Lemma literal_builders_eager_witness :
  (exists msg,
     HttpMethod.httpMethodSchema "TRACE" = inl (Error msg) /\
     msg = "Invalid HTTP method: " ++ dquote ++ "TRACE" ++ dquote ++
           ". Must be one of: GET, POST, PUT, PATCH, DELETE, HEAD, OPTIONS") /\
  (exists schema,
     HttpMethod.httpMethodSchema "PATCH" = inr schema /\
     Zod.parse_literal schema (VStr "PATCH") = inr (VStr "PATCH")).
Proof.
  destruct literal_builders_eager as [H _]. split.
  - assert (Hout : "TRACE" ∉ HttpMethod.HTTP_METHODS).
    { intros Hin. by apply arr_includes_elem_of in Hin. }
    destruct (proj1 (H "TRACE") Hout) as (msg & E & -> & _).
    eexists. split; [exact E | reflexivity].
  - assert (Hin : "PATCH" ∈ HttpMethod.HTTP_METHODS).
    { by apply arr_includes_elem_of. }
    destruct (proj2 (H "PATCH") Hin) as (schema & E & _).
    exists schema. split; [done|]. by injection E as <-.
Defined.

(** ** Multi-valued extraction *)

Section Extraction.

Variable params : Utils.Params.

Lemma extractField_ok (key : string) (f : Utils.FieldSchema) :
  Law.offends params (key, Some f) = false ->
  Utils.extractField params key f =
  inr (Law.prescribed (Utils.isArraySchema (Some f))
                      (Utils.allValuesOf params key)).
Proof.
  unfold Law.offends, Utils.extractField, Law.prescribed. cbn [fst snd].
  intros ->.
  destruct (Utils.isArraySchema (Some f)), (Utils.allValuesOf params key);
    reflexivity.
Qed.

Lemma extractField_err (key : string) (f : Utils.FieldSchema) :
  Law.offends params (key, Some f) = true ->
  Utils.extractField params key f = inl (Utils.multipleValuesError key).
Proof.
  unfold Law.offends, Utils.extractField. cbn [fst snd]. by intros ->.
Qed.

Lemma offends_prescribed_scalar (key : string) (f : Utils.FieldSchema) :
  Utils.isArraySchema (Some f) = false ->
  Law.offends params (key, Some f) = false ->
  Utils.allValuesOf params key = [] \/
  exists v, Utils.allValuesOf params key = [v].
Proof.
  unfold Law.offends. cbn [fst snd]. intros ->.
  destruct (Utils.allValuesOf params key) as [|v [|v' vs]]; simpl;
    [by left | by right; exists v | done].
Qed.

(** The loop on a shape without offending key: every declared key with
    a rule receives the prescribed value, the other keys are kept. *)
Lemma extractLoop_ok (keys : Utils.Shape) (obj : gmap string value) :
  (forall e, e ∈ keys -> Law.offends params e = false) ->
  exists obj',
    Utils.extractLoop params keys obj = inr obj' /\
    (forall k, k ∉ keys.*1 -> obj' !! k = obj !! k) /\
    (NoDup keys.*1 ->
     forall key f, (key, Some f) ∈ keys ->
       obj' !! key =
       Some (Law.prescribed (Utils.isArraySchema (Some f))
                            (Utils.allValuesOf params key))).
Proof.
  revert obj. induction keys as [|[k [f|]] keys IH]; intros obj Hok.
  - exists obj. split; [done|]. split; [done|].
    intros _ key f Hin. by apply elem_of_nil in Hin.
  - simpl. rewrite extractField_ok by (apply Hok; left).
    destruct (IH (<[k := Law.prescribed (Utils.isArraySchema (Some f))
                          (Utils.allValuesOf params k)]> obj))
      as (obj' & E & Hkeep & Hset).
    { intros e He. apply Hok. by right. }
    exists obj'. split; [done|]. split.
    + intros k' Hk'. rewrite ?fmap_cons in Hk'. rewrite not_elem_of_cons in Hk'.
      destruct Hk' as [Hne Hk']. rewrite Hkeep by done.
      by rewrite lookup_insert_ne.
    + rewrite ?fmap_cons. intros [Hk Hnd]%NoDup_cons key f' Hin.
      apply elem_of_cons in Hin as [Heq|Hin].
      * injection Heq as -> ->. rewrite Hkeep by done.
        by rewrite lookup_insert_eq.
      * by apply Hset.
  - simpl. destruct (IH obj) as (obj' & E & Hkeep & Hset).
    { intros e He. apply Hok. by right. }
    exists obj'. split; [done|]. split.
    + intros k' Hk'. rewrite ?fmap_cons in Hk'. rewrite not_elem_of_cons in Hk'.
      apply Hkeep. by destruct Hk'.
    + rewrite ?fmap_cons. intros [Hk Hnd]%NoDup_cons key f' Hin.
      apply elem_of_cons in Hin as [Heq|Hin]; [done|]. by apply Hset.
Qed.

(** The loop stops at the first offending key, with the error of that
    key. *)
Lemma extractLoop_err (pre post : Utils.Shape) (key : string)
    (f : Utils.FieldSchema) (obj : gmap string value) :
  (forall e, e ∈ pre -> Law.offends params e = false) ->
  Law.offends params (key, Some f) = true ->
  Utils.extractLoop params (pre ++ (key, Some f) :: post)%list obj =
  inl (Utils.multipleValuesError key).
Proof.
  revert obj. induction pre as [|[k [g|]] pre IH]; intros obj Hpre Hbad; simpl.
  - by rewrite extractField_err.
  - rewrite extractField_ok by (apply Hpre; left).
    apply IH; [|done]. intros e He. apply Hpre. by right.
  - apply IH; [|done]. intros e He. apply Hpre. by right.
Qed.

Lemma extractLoop_inr_inv (keys : Utils.Shape) (obj obj' : gmap string value) :
  Utils.extractLoop params keys obj = inr obj' ->
  forall e, e ∈ keys -> Law.offends params e = false.
Proof.
  revert obj. induction keys as [|[k [f|]] keys IH]; intros obj E e He.
  - by apply elem_of_nil in He.
  - simpl in E. destruct (Law.offends params (k, Some f)) eqn:Hk.
    { by rewrite extractField_err in E. }
    rewrite extractField_ok in E by done.
    apply elem_of_cons in He as [->|He]; [done|]. by eapply IH.
  - simpl in E. apply elem_of_cons in He as [->|He]; [done|]. by eapply IH.
Qed.

Lemma extract_succeeds_iff (shape : Utils.Shape) :
  (exists obj, Utils.extractSearchParamsObject params shape = inr obj) <->
  (forall e, e ∈ shape -> Law.offends params e = false).
Proof.
  unfold Utils.extractSearchParamsObject. split.
  - intros [obj E]. by eapply extractLoop_inr_inv.
  - intros Hok. destruct (extractLoop_ok shape ∅ Hok) as (obj & E & _).
    by exists obj.
Qed.

Lemma extract_lookup (shape : Utils.Shape) (obj : gmap string value)
    (key : string) (f : Utils.FieldSchema) :
  NoDup shape.*1 ->
  Utils.extractSearchParamsObject params shape = inr obj ->
  (key, Some f) ∈ shape ->
  Law.offends params (key, Some f) = false /\
  obj !! key = Some (Law.prescribed (Utils.isArraySchema (Some f))
                                    (Utils.allValuesOf params key)).
Proof.
  unfold Utils.extractSearchParamsObject. intros Hnd E Hin.
  pose proof (extractLoop_inr_inv _ _ _ E) as Hok.
  destruct (extractLoop_ok shape ∅ Hok) as (obj' & E' & _ & Hset).
  rewrite E in E'. injection E' as <-. split; [by apply Hok | by apply Hset].
Qed.

End Extraction.

(** C1 (amended): extraction fails exactly when some declared key
    holds several values under a rule that is not an array rule, and the
    structured error then carries the path of the first such key in the
    order of the shape.  When extraction succeeds every declared key
    obeys the cardinality law: a scalar rule gives [undefined] for no
    value and the value itself for one; an array rule gives [undefined]
    for no value, a one-element array for one, and all values in source
    order for several.  The shape is an object: its keys are distinct. *)
Theorem cardinality_law (params : Utils.Params) (shape : Utils.Shape) :
  NoDup shape.*1 ->
  (* failure: the first offending key is reported *)
  (forall pre key f post,
     shape = (pre ++ (key, Some f) :: post)%list ->
     (forall e, e ∈ pre -> Law.offends params e = false) ->
     Utils.isArraySchema (Some f) = false ->
     (1 < length (Utils.allValuesOf params key))%nat ->
     exists msg,
       Utils.extractSearchParamsObject params shape =
       inl (ZodError [mkIssue "custom" [key] msg])) /\
  (* success: exactly when no key offends *)
  ((exists obj, Utils.extractSearchParamsObject params shape = inr obj) <->
   (forall e, e ∈ shape -> Law.offends params e = false)) /\
  (* success: the law for every declared key *)
  (forall obj key f,
     Utils.extractSearchParamsObject params shape = inr obj ->
     (key, Some f) ∈ shape ->
     let vs := Utils.allValuesOf params key in
     if Utils.isArraySchema (Some f) then
       (vs = [] -> obj !! key = Some VUndef) /\
       (forall v, vs = [v] -> obj !! key = Some (VArr [VStr v])) /\
       ((1 < length vs)%nat -> obj !! key = Some (VArr (VStr <$> vs)))
     else
       (vs = [] -> obj !! key = Some VUndef) /\
       (forall v, vs = [v] -> obj !! key = Some (VStr v)) /\
       (length vs <= 1)%nat).
Proof.
  intros Hnd. split; [|split].
  - intros pre key f post -> Hpre Hscalar Hmany.
    eexists. apply extractLoop_err; [done|].
    unfold Law.offends. cbn [fst snd]. rewrite Hscalar.
    by apply andb_true_iff; split; [apply Nat.ltb_lt|].
  - apply extract_succeeds_iff.
  - intros obj key f E Hin. set (vs := Utils.allValuesOf params key).
    destruct (extract_lookup params shape obj key f Hnd E Hin) as [Hok Hset].
    unfold Law.offends in Hok. cbn [fst snd] in Hok.
    fold vs in Hok, Hset. rewrite Hset.
    destruct (Utils.isArraySchema (Some f)); simpl in *.
    + repeat split.
      * by intros ->.
      * by intros v ->.
      * intros Hlen. destruct vs; [simpl in Hlen; lia | done].
    + rewrite andb_true_r in Hok. apply Nat.ltb_ge in Hok.
      repeat split; [by intros -> | by intros v -> | done].
Qed.

Lemma cardinality_law_witness :
  (exists msg,
     Utils.extractSearchParamsObject Sample.twice_ab Sample.shape_ab =
     inl (ZodError [mkIssue "custom" ["a"] msg])) /\
  (forall obj,
     Utils.extractSearchParamsObject Sample.tags Sample.shape_tags = inr obj ->
     obj !! "tag" = Some (VArr [VStr "first"; VStr "second"]) /\
     obj !! "q" = Some (VStr "") /\
     obj !! "page" = Some VUndef).
Proof.
  assert (Hnd1 : NoDup Sample.shape_ab.*1) by by_compute.
  assert (Hnd2 : NoDup Sample.shape_tags.*1) by by_compute.
  split.
  - destruct (cardinality_law Sample.twice_ab Sample.shape_ab Hnd1) as [H _].
    apply (H [] "a" Sample.scalar [("b", Some Sample.scalar)]).
    + reflexivity.
    + intros e He. by apply elem_of_nil in He.
    + reflexivity.
    + simpl. lia.
  - intros obj E.
    destruct (cardinality_law Sample.tags Sample.shape_tags Hnd2) as (_ & _ & H).
    assert (Hin1 : ("tag", Some Sample.array) ∈ Sample.shape_tags) by in_list.
    assert (Hin2 : ("q", Some Sample.scalar) ∈ Sample.shape_tags) by in_list.
    assert (Hin3 : ("page", Some Sample.scalar) ∈ Sample.shape_tags) by in_list.
    pose proof (H obj "tag" Sample.array E Hin1) as H1.
    pose proof (H obj "q" Sample.scalar E Hin2) as H2.
    pose proof (H obj "page" Sample.scalar E Hin3) as H3.
    change (Utils.isArraySchema (Some Sample.array)) with true in H1.
    change (Utils.isArraySchema (Some Sample.scalar)) with false in H2, H3.
    cbv zeta in H1, H2, H3.
    destruct H1 as (_ & _ & H1), H2 as (_ & H2 & _), H3 as (H3 & _).
    split; [|split].
    + apply H1. simpl. lia.
    + by apply H2.
    + by apply H3.
Defined.

(** C1, as stated, fails on [?a=1&a=2&b=3&b=4] against
    [{ a: string, b: string }]: key [b] is declared with a scalar rule
    and holds two values, yet the error carries the path [a]. *)
Lemma cardinality_path_counterexample :
  ("b", Some Sample.scalar) ∈ Sample.shape_ab /\
  Utils.isArraySchema (Some Sample.scalar) = false /\
  Utils.allValuesOf Sample.twice_ab "b" = ["3"; "4"] /\
  (exists msg,
     Utils.extractSearchParamsObject Sample.twice_ab Sample.shape_ab =
     inl (ZodError [mkIssue "custom" ["a"] msg])) /\
  ~ (exists msg,
       Utils.extractSearchParamsObject Sample.twice_ab Sample.shape_ab =
       inl (ZodError [mkIssue "custom" ["b"] msg])).
Proof.
  split; [in_list|].
  split; [reflexivity|]. split; [reflexivity|]. split.
  - eexists. reflexivity.
  - intros [msg H]. vm_compute in H. discriminate H.
Qed.

(** C9: presence is kept apart from emptiness.  For a declared key with
    a scalar rule, one source value equal to the empty string is
    extracted as the empty string, and no source value as [undefined];
    the two results differ.  The key itself never makes the extraction
    fail, so the extraction succeeds whenever no other key offends.  The
    shape is an object: its keys are distinct. *)
Theorem empty_string_is_present (params : Utils.Params) (shape : Utils.Shape)
    (key : string) (f : Utils.FieldSchema) :
  NoDup shape.*1 ->
  (key, Some f) ∈ shape ->
  Utils.isArraySchema (Some f) = false ->
  (Utils.allValuesOf params key = [""] ->
   Utils.extractField params key f = inr (VStr "") /\
   (forall obj, Utils.extractSearchParamsObject params shape = inr obj ->
                obj !! key = Some (VStr "")) /\
   ((forall e, e ∈ shape -> e.1 <> key -> Law.offends params e = false) ->
    exists obj, Utils.extractSearchParamsObject params shape = inr obj /\
                obj !! key = Some (VStr ""))) /\
  (Utils.allValuesOf params key = [] ->
   Utils.extractField params key f = inr VUndef /\
   (forall obj, Utils.extractSearchParamsObject params shape = inr obj ->
                obj !! key = Some VUndef)) /\
  VStr "" <> VUndef.
Proof.
  intros Hnd Hin Hscalar.
  pose proof (extract_succeeds_iff params shape) as Hsucc.
  assert (Hone : forall obj,
             Utils.extractSearchParamsObject params shape = inr obj ->
             (Utils.allValuesOf params key = [] -> obj !! key = Some VUndef) /\
             (forall v, Utils.allValuesOf params key = [v] ->
                        obj !! key = Some (VStr v))).
  { intros obj E.
    destruct (extract_lookup params shape obj key f Hnd E Hin) as [_ ->].
    rewrite Hscalar. split; [by intros -> | by intros v ->]. }
  split; [|split; [|done]].
  - intros Hvs. split; [|split].
    + unfold Utils.extractField. by rewrite Hvs, Hscalar.
    + intros obj E. by apply (Hone obj E).
    + intros Hothers.
      destruct (proj2 Hsucc) as [obj E].
      { intros [k g] He. destruct (decide (k = key)) as [->|Hne].
        - destruct g as [g|]; [|done].
          unfold Law.offends. cbn [fst snd]. by rewrite Hvs.
        - by apply Hothers. }
      exists obj. split; [done|]. by apply (Hone obj E).
  - intros Hvs. split.
    + unfold Utils.extractField. by rewrite Hvs, Hscalar.
    + intros obj E. by apply (Hone obj E).
Qed.

Lemma empty_string_is_present_witness :
  Utils.extractField Sample.tags "q" Sample.scalar = inr (VStr "") /\
  exists obj,
    Utils.extractSearchParamsObject Sample.tags Sample.shape_tags = inr obj /\
    obj !! "q" = Some (VStr "").
Proof.
  assert (Hnd : NoDup Sample.shape_tags.*1) by by_compute.
  assert (Hin : ("q", Some Sample.scalar) ∈ Sample.shape_tags) by in_list.
  destruct (empty_string_is_present Sample.tags Sample.shape_tags "q"
              Sample.scalar Hnd Hin eq_refl) as (H & _).
  destruct (H eq_refl) as (H1 & _ & H3). split; [exact H1|].
  apply H3. intros e He Hne.
  repeat (apply elem_of_cons in He as [->|He]; [reflexivity || done|]).
  by apply elem_of_nil in He.
Defined.

(** C10: a source that exposes [get] only yields at most one value per
    key: one when [get] returns a value, none when it returns [null].
    The error for several values is therefore never thrown, whatever
    the declared shape. *)
Theorem get_only_source_never_fails (get : string -> option string)
    (shape : Utils.Shape) :
  (forall key,
     Utils.allValuesOf (Utils.ParamsLike get None) key =
     match get key with
     | Some value => [value]
     | None => []
     end /\
     (length (Utils.allValuesOf (Utils.ParamsLike get None) key) <= 1)%nat) /\
  (forall e, Law.offends (Utils.ParamsLike get None) e = false) /\
  (exists obj,
     Utils.extractSearchParamsObject (Utils.ParamsLike get None) shape = inr obj) /\
  (forall e,
     Utils.extractSearchParamsObject (Utils.ParamsLike get None) shape <> inl e).
Proof.
  assert (Hlen : forall key,
             (length (Utils.allValuesOf (Utils.ParamsLike get None) key) <= 1)%nat).
  { intros key. simpl. destruct (get key); simpl; lia. }
  assert (Hoff : forall e, Law.offends (Utils.ParamsLike get None) e = false).
  { intros [k [f|]]; [|done]. unfold Law.offends. cbn [fst snd].
    apply andb_false_iff. left. apply Nat.ltb_ge, Hlen. }
  destruct (extractLoop_ok (Utils.ParamsLike get None) shape ∅) as (obj & E & _).
  { intros e _. apply Hoff. }
  repeat split; try done.
  - by exists obj.
  - intros e. unfold Utils.extractSearchParamsObject. by rewrite E.
Qed.

(** ** The state and error monad *)

Lemma bind_inr_inv {A B} (c : Host.M A) (k : A -> Host.M B)
    (w w' : Host.World) (b : B) :
  Host.bind c k w = (inr b, w') ->
  exists a w1, c w = (inr a, w1) /\ k a w1 = (inr b, w').
Proof.
  unfold Host.bind. destruct (c w) as [[e|a] w1]; [done|]. by exists a, w1.
Qed.

Lemma bind_inl {A B} (c : Host.M A) (k : A -> Host.M B)
    (w w' : Host.World) (e : exn) :
  c w = (inl e, w') -> Host.bind c k w = (inl e, w').
Proof. unfold Host.bind. by intros ->. Qed.

Lemma bind_inr {A B} (c : Host.M A) (k : A -> Host.M B)
    (w w' : Host.World) (a : A) :
  c w = (inr a, w') -> Host.bind c k w = k a w'.
Proof. unfold Host.bind. by intros ->. Qed.

Ltac bind_inv H :=
  let a := fresh "a" in
  let w := fresh "w" in
  let E := fresh "E" in
  apply bind_inr_inv in H as (a & w & E & H).

Tactic Notation "bind_inv_as" hyp(H) ident(a) ident(w) ident(E) :=
  apply bind_inr_inv in H as (a & w & E & H).

(** ** The body dispatcher *)

Section Body.

Variable URLSearchParams_new : string -> list (string * string).
Variable Request_new :
  string -> string -> Headers -> option Ref -> Host.M Host.Request.

Local Abbreviation preprocess :=
  (BodySchema.preprocess URLSearchParams_new Request_new).
Local Abbreviation bodySchema :=
  (BodySchema.bodySchema URLSearchParams_new Request_new).
Local Abbreviation formDataBranch :=
  (BodySchema.formDataBranch URLSearchParams_new Request_new).
Local Abbreviation decodeUrlencoded :=
  (BodySchema.decodeUrlencoded URLSearchParams_new).

Lemma jsonMatches_Some (schemas : BodySchema.Schemas) (ct : string)
    (schema : Zod.ZodType) :
  BodySchema.jsonMatches schemas ct = Some schema <->
  BodySchema.s_json schemas = Some schema /\
  includes ct "application/json" = true.
Proof.
  unfold BodySchema.jsonMatches. split.
  - intros H. repeat case_match; by simplify_eq.
  - by intros [-> ->].
Qed.

Lemma formDataMatches_Some (schemas : BodySchema.Schemas) (ct : string)
    (schema : Zod.ZodType) :
  BodySchema.formDataMatches schemas ct = Some schema <->
  BodySchema.s_formData schemas = Some schema /\
  includes ct "multipart/form-data" ||
  includes ct "application/x-www-form-urlencoded" = true.
Proof.
  unfold BodySchema.formDataMatches. split.
  - intros H. repeat case_match; by simplify_eq.
  - by intros [-> ->].
Qed.

Lemma textMatches_Some (schemas : BodySchema.Schemas) (ct : string)
    (schema : Zod.ZodType) :
  BodySchema.textMatches schemas ct = Some schema <->
  BodySchema.s_text schemas = Some schema /\
  startsWith ct "text/" || String.eqb ct "" = true.
Proof.
  unfold BodySchema.textMatches. split.
  - intros H. repeat case_match; by simplify_eq.
  - by intros [-> ->].
Qed.

(** The callback is the run of the selected branch and of no other. *)
Lemma preprocess_runs_selected (schemas : BodySchema.Schemas)
    (val : Host.Request) (w : Host.World) :
  Law.runs URLSearchParams_new Request_new schemas val w
    (Law.selected schemas (Law.contentTypeOf val))
    (preprocess schemas (Host.IsRequest val) w).
Proof.
  unfold BodySchema.preprocess, Law.selected, Law.runs, Host.bind, Host.read.
  fold (Law.contentTypeOf val). fold (Law.hasBodyIn val w).
  set (ct := Law.contentTypeOf val). set (hb := Law.hasBodyIn val w).
  destruct (BodySchema.jsonMatches schemas ct) as [j|] eqn:Ej.
  { apply jsonMatches_Some in Ej as [Ej _]. by exists j. }
  destruct (BodySchema.formDataMatches schemas ct) as [f|] eqn:Ef.
  { apply formDataMatches_Some in Ef as [Ef _]. by exists f. }
  destruct (BodySchema.textMatches schemas ct) as [t|] eqn:Et.
  { apply textMatches_Some in Et as [Et _]. by exists t. }
  by destruct (_ || _).
Qed.

(** C3: the dispatch follows the priority structured data, form, text.
    A declared structured schema whose media type occurs in the content
    type takes the structured branch, whatever the form and text
    declarations; a declared form schema whose media type occurs takes
    the form branch whenever the structured branch does not apply,
    whether or not a text schema is declared and matches.  The callback
    is the run of exactly the one selected branch. *)
Theorem dispatch_priority (schemas : BodySchema.Schemas)
    (val : Host.Request) (w : Host.World) :
  let ct := Law.contentTypeOf val in
  let hb := Law.hasBodyIn val w in
  let outcome := preprocess schemas (Host.IsRequest val) w in
  (forall j,
     BodySchema.s_json schemas = Some j ->
     includes ct "application/json" = true ->
     Law.selected schemas ct = Law.Json /\
     outcome = BodySchema.jsonBranch j val hb w) /\
  (forall f,
     BodySchema.s_formData schemas = Some f ->
     includes ct "multipart/form-data" ||
     includes ct "application/x-www-form-urlencoded" = true ->
     BodySchema.jsonMatches schemas ct = None ->
     Law.selected schemas ct = Law.Form /\
     outcome = formDataBranch f val hb ct w) /\
  Law.runs URLSearchParams_new Request_new schemas val w
    (Law.selected schemas ct) outcome.
Proof.
  intros ct hb outcome.
  pose proof (preprocess_runs_selected schemas val w) as Hrun.
  fold ct outcome in Hrun. split; [|split; [|done]].
  - intros j Hj Hct.
    assert (Ej : BodySchema.jsonMatches schemas ct = Some j).
    { by apply jsonMatches_Some. }
    unfold Law.selected in *. rewrite Ej in *. split; [done|].
    destruct Hrun as (j' & Hj' & Hout). rewrite Hout.
    rewrite Hj in Hj'. by injection Hj' as <-.
  - intros f Hf Hct Ej.
    assert (Ef : BodySchema.formDataMatches schemas ct = Some f).
    { by apply formDataMatches_Some. }
    unfold Law.selected in *. rewrite Ej, Ef in *. split; [done|].
    destruct Hrun as (f' & Hf' & Hout). rewrite Hout.
    rewrite Hf in Hf'. by injection Hf' as <-.
Qed.

(** A failing callback fails the whole body schema. *)
Lemma bodySchema_inl (schemas : BodySchema.Schemas) (val : Host.input)
    (w w' : Host.World) (e : exn) :
  preprocess schemas val w = (inl e, w') ->
  bodySchema schemas val w = (inl e, w').
Proof. apply bind_inl. Qed.

(** C5 (amended): when a schema is declared, no branch matches the
    content type and the request has a body, the body schema fails with
    the Content-Type mismatch error: its message names the media types
    of every declared category and ends with the content type received,
    or with the placeholder when that is empty or absent.  Without a
    body the failure is the missing-body error instead. *)
Theorem content_type_mismatch (schemas : BodySchema.Schemas)
    (val : Host.Request) (w : Host.World) :
  let ct := Law.contentTypeOf val in
  is_Some (BodySchema.s_json schemas) \/
  is_Some (BodySchema.s_formData schemas) \/
  is_Some (BodySchema.s_text schemas) ->
  BodySchema.jsonMatches schemas ct = None ->
  BodySchema.formDataMatches schemas ct = None ->
  BodySchema.textMatches schemas ct = None ->
  (Host.body val w <> None ->
   exists msg,
     bodySchema schemas (Host.IsRequest val) w = (inl (Error msg), w) /\
     msg = "Content-Type mismatch. Expected one of: " ++
           join ", " (BodySchema.expectedTypes schemas) ++
           ", but got: " ++ or_else ct "(no content-type header)" /\
     startsWith msg "Content-Type mismatch" = true /\
     (is_Some (BodySchema.s_json schemas) ->
      includes msg "application/json" = true) /\
     (is_Some (BodySchema.s_formData schemas) ->
      includes msg "multipart/form-data" = true /\
      includes msg "application/x-www-form-urlencoded" = true) /\
     (is_Some (BodySchema.s_text schemas) -> includes msg "text/*" = true) /\
     (ct <> "" -> includes msg ct = true) /\
     (ct = "" -> includes msg "(no content-type header)" = true)) /\
  (Host.body val w = None ->
   bodySchema schemas (Host.IsRequest val) w =
   (inl (Error "Request body is required"), w)).
Proof.
  intros ct Hany Ej Ef Et.
  pose proof (preprocess_runs_selected schemas val w) as Hrun.
  fold ct in Hrun. unfold Law.selected in Hrun. rewrite Ej, Ef, Et in Hrun.
  assert (Hb : bool_decide (is_Some (BodySchema.s_json schemas)) ||
               bool_decide (is_Some (BodySchema.s_formData schemas)) ||
               bool_decide (is_Some (BodySchema.s_text schemas)) = true).
  { destruct Hany as [H|[H|H]]; rewrite (bool_decide_eq_true_2 _ H);
      by rewrite ?orb_true_r. }
  rewrite Hb in Hrun. unfold Law.runs in Hrun. split.
  - intros Hbody. eexists. split.
    { apply bodySchema_inl. rewrite Hrun.
      unfold BodySchema.mismatch, Law.hasBodyIn.
      rewrite bool_decide_eq_true_2 by done. reflexivity. }
    split; [done|].
    assert (Hin : forall t, t ∈ BodySchema.expectedTypes schemas ->
              includes ("Content-Type mismatch. Expected one of: " ++
                        join ", " (BodySchema.expectedTypes schemas) ++
                        ", but got: " ++ or_else ct "(no content-type header)")
                       t = true).
    { intros t Ht. apply includes_app_r, includes_app_l.
      by apply includes_join. }
    split; [done|].
    split.
    { intros [j Hj]. apply Hin. unfold BodySchema.expectedTypes.
      rewrite Hj. apply elem_of_app. left. in_list. }
    split.
    { intros [f Hf].
      split; apply Hin; unfold BodySchema.expectedTypes; rewrite Hf;
        (apply elem_of_app; right; apply elem_of_app; left; in_list). }
    split.
    { intros [t Ht]. apply Hin. unfold BodySchema.expectedTypes.
      rewrite Ht. apply elem_of_app. right. apply elem_of_app. right. in_list. }
    subst ct. split.
    { intros Hct. do 3 apply includes_app_r. unfold or_else.
      destruct (String.eqb_spec (Law.contentTypeOf val) "");
        [done | apply includes_refl]. }
    intros Hct. do 3 apply includes_app_r. unfold or_else.
    rewrite Hct. apply includes_refl.
  - intros Hbody. apply bodySchema_inl. rewrite Hrun.
    unfold BodySchema.mismatch, Law.hasBodyIn.
    rewrite bool_decide_eq_false_2; [done|]. intros Hne. by apply Hne.
Qed.

Lemma decodeUrlencoded_first_ok (val : Host.Request) (obj : gmap string value)
    (w w1 : Host.World) (formData : list (string * value)) :
  Host.formData val w = (inr formData, w1) ->
  decodeUrlencoded val obj w =
  (inr (BodySchema.assignFormData formData obj), w1).
Proof.
  intros E. unfold BodySchema.decodeUrlencoded, Host.try_catch, Host.bind.
  by rewrite E.
Qed.

(** After a failed first attempt the decoding is the fallback, run from
    the state the first attempt left, with its error replaced. *)
Lemma decodeUrlencoded_fallback (val : Host.Request) (obj : gmap string value)
    (w w1 : Host.World) (formDataError : exn) :
  Host.formData val w = (inl formDataError, w1) ->
  decodeUrlencoded val obj w =
  Host.try_catch
    (Host.bind (Host.clone val) (fun clonedRequest =>
       Host.bind (Host.text clonedRequest) (fun text =>
         Host.ret (BodySchema.assignParams (URLSearchParams_new text) obj))))
    (fun textError => Host.throw formDataError) w1.
Proof.
  intros E. unfold BodySchema.decodeUrlencoded.
  unfold Host.try_catch at 1. unfold Host.bind at 1. by rewrite E.
Qed.

(** C6: the url-encoded decoding is a two-step attempt.  The request's
    own form decoding runs first and its result is used when it
    succeeds.  When it fails, the request is cloned, the text of the
    clone is read and parsed as parameters.  When the fallback fails
    too, at the clone or at the read, the error thrown is the one of
    the first attempt. *)
Theorem urlencoded_two_step (val : Host.Request) (obj : gmap string value)
    (w : Host.World) :
  (forall formData w1,
     Host.formData val w = (inr formData, w1) ->
     decodeUrlencoded val obj w =
     (inr (BodySchema.assignFormData formData obj), w1)) /\
  (forall formDataError w1 clonedRequest w2 text w3,
     Host.formData val w = (inl formDataError, w1) ->
     Host.clone val w1 = (inr clonedRequest, w2) ->
     Host.text clonedRequest w2 = (inr text, w3) ->
     decodeUrlencoded val obj w =
     (inr (BodySchema.assignParams (URLSearchParams_new text) obj), w3)) /\
  (forall formDataError w1 cloneError w2,
     Host.formData val w = (inl formDataError, w1) ->
     Host.clone val w1 = (inl cloneError, w2) ->
     decodeUrlencoded val obj w = (inl formDataError, w2)) /\
  (forall formDataError w1 clonedRequest w2 textError w3,
     Host.formData val w = (inl formDataError, w1) ->
     Host.clone val w1 = (inr clonedRequest, w2) ->
     Host.text clonedRequest w2 = (inl textError, w3) ->
     decodeUrlencoded val obj w = (inl formDataError, w3)) /\
  (forall schema contentType formDataError w1 other w2,
     includes contentType "application/x-www-form-urlencoded" = true ->
     Host.formData val w = (inl formDataError, w1) ->
     decodeUrlencoded val ∅ w = (inl other, w2) ->
     formDataBranch schema val true contentType w = (inl formDataError, w2)).
Proof.
  split; [|split; [|split; [|split]]].
  - intros formData w1 E. by rewrite (decodeUrlencoded_first_ok _ _ _ _ _ E).
  - intros e1 w1 c w2 t w3 E1 E2 E3.
    rewrite (decodeUrlencoded_fallback _ _ _ _ _ E1).
    unfold Host.try_catch, Host.bind. by rewrite E2, E3.
  - intros e1 w1 e2 w2 E1 E2.
    rewrite (decodeUrlencoded_fallback _ _ _ _ _ E1).
    unfold Host.try_catch, Host.bind. by rewrite E2.
  - intros e1 w1 c w2 e3 w3 E1 E2 E3.
    rewrite (decodeUrlencoded_fallback _ _ _ _ _ E1).
    unfold Host.try_catch, Host.bind. by rewrite E2, E3.
  - intros schema ct e1 w1 other w2 Hct E1 E.
    unfold BodySchema.formDataBranch. cbn [negb]. rewrite Hct.
    apply bind_inl. rewrite E.
    rewrite (decodeUrlencoded_fallback _ _ _ _ _ E1) in E.
    unfold Host.try_catch, Host.bind in E.
    destruct (Host.clone val w1) as [[e2|c] w2'].
    + by injection E as <- <-.
    + destruct (Host.text c w2') as [[e3|t] w3]; [|done].
      by injection E as <- <-.
Qed.

Lemma z_object_wrapper (v : value) :
  Zod.z_object [("body", Zod.optional Zod.z_unknown)] (BodySchema.wrapper v) =
  inr (VObj {[ "body" := v ]}).
Proof.
  unfold Zod.z_object, BodySchema.wrapper, Zod.handlePropertyResult.
  cbn [foldl fst snd]. unfold prop, has_key.
  rewrite lookup_singleton_eq. cbn [default].
  rewrite bool_decide_eq_true_2 by by eexists.
  by destruct v.
Qed.

(** Every successful return of the callback is a wrapper. *)
Lemma preprocess_wrapper (schemas : BodySchema.Schemas) (val : Host.input)
    (w w' : Host.World) (out : value) :
  preprocess schemas val w = (inr out, w') ->
  exists v, out = BodySchema.wrapper v.
Proof.
  destruct val as [val|v]; [|done]. intros E.
  pose proof (preprocess_runs_selected schemas val w) as Hrun.
  rewrite E in Hrun. unfold Law.runs in Hrun.
  destruct (Law.selected _ _).
  - destruct Hrun as (j & _ & H). symmetry in H.
    unfold BodySchema.jsonBranch in H. destruct (negb _); [done|].
    bind_inv H. bind_inv H. injection H as <- _. by eexists.
  - destruct Hrun as (f & _ & H). symmetry in H.
    unfold BodySchema.formDataBranch in H. destruct (negb _); [done|].
    bind_inv H. bind_inv H. injection H as <- _. by eexists.
  - destruct Hrun as (t & _ & H). symmetry in H.
    unfold BodySchema.textBranch in H. destruct (negb _); [done|].
    bind_inv H. bind_inv H. injection H as <- _. by eexists.
  - symmetry in Hrun. unfold BodySchema.mismatch in Hrun.
    by destruct (negb _).
  - injection Hrun as -> _. by eexists.
Qed.

(** The value a successful callback wraps: the output of the declared
    schema of the selected branch on what that branch decoded. *)
Lemma preprocess_validated (schemas : BodySchema.Schemas) (r : Host.Request)
    (w w' : Host.World) (v : value) :
  preprocess schemas (Host.IsRequest r) w = (inr (BodySchema.wrapper v), w') ->
  match Law.selected schemas (Law.contentTypeOf r) with
  | Law.Json =>
      exists j d,
        BodySchema.s_json schemas = Some j /\
        Host.json r w = (inr d, w') /\ j d = inr v
  | Law.Form =>
      exists f obj,
        BodySchema.s_formData schemas = Some f /\
        (if includes (Law.contentTypeOf r) "application/x-www-form-urlencoded"
         then decodeUrlencoded r ∅
         else BodySchema.decodeMultipart Request_new r ∅) w = (inr obj, w') /\
        f (VObj obj) = inr v
  | Law.Text =>
      exists t text,
        BodySchema.s_text schemas = Some t /\
        Host.text r w = (inr text, w') /\ t (VStr text) = inr v
  | Law.Mismatch => False
  | Law.NoSchema =>
      v = VUndef /\ w' = w /\
      BodySchema.s_json schemas = None /\
      BodySchema.s_formData schemas = None /\
      BodySchema.s_text schemas = None
  end.
Proof.
  intros E.
  assert (Hinj : forall (a b : value) (w1 w2 : Host.World),
            (inr (BodySchema.wrapper a) : exn + value, w1) =
            (inr (BodySchema.wrapper b), w2) -> a = b /\ w1 = w2).
  { intros a b w1 w2 H. split; [|exact (f_equal snd H)].
    apply (f_equal (fun x : (exn + value) * Host.World =>
                      match x.1 with
                      | inr (VObj m) => m !! "body"
                      | _ => None
                      end)) in H.
    unfold BodySchema.wrapper in H. cbv beta iota in H. cbn [fst] in H.
    rewrite !lookup_singleton_eq in H. by injection H. }
  pose proof (preprocess_runs_selected schemas r w) as Hrun.
  rewrite E in Hrun. unfold Law.runs in Hrun.
  destruct (Law.selected _ _) eqn:Es.
  - destruct Hrun as (j & Hj & H). symmetry in H.
    unfold BodySchema.jsonBranch in H. destruct (negb _); [done|].
    bind_inv_as H d w1 Ed. bind_inv_as H p w2 Ep.
    unfold Host.lift in Ep. assert (Hw := f_equal snd Ep).
    apply (f_equal fst) in Ep. cbn [fst snd] in Ep, Hw. subst w2.
    unfold Host.ret in H. apply Hinj in H as [-> ->]. by exists j, d.
  - destruct Hrun as (f & Hf & H). symmetry in H.
    unfold BodySchema.formDataBranch in H. destruct (negb _); [done|].
    bind_inv_as H obj w1 Eo. bind_inv_as H p w2 Ep.
    unfold Host.lift in Ep. assert (Hw := f_equal snd Ep).
    apply (f_equal fst) in Ep. cbn [fst snd] in Ep, Hw. subst w2.
    unfold Host.ret in H. apply Hinj in H as [-> ->]. by exists f, obj.
  - destruct Hrun as (t & Ht & H). symmetry in H.
    unfold BodySchema.textBranch in H. destruct (negb _); [done|].
    bind_inv_as H text w1 Et. bind_inv_as H p w2 Ep.
    unfold Host.lift in Ep. assert (Hw := f_equal snd Ep).
    apply (f_equal fst) in Ep. cbn [fst snd] in Ep, Hw. subst w2.
    unfold Host.ret in H. apply Hinj in H as [-> ->]. by exists t, text.
  - symmetry in Hrun. unfold BodySchema.mismatch in Hrun.
    by destruct (negb _).
  - symmetry in Hrun. apply Hinj in Hrun as [<- <-].
    unfold Law.selected in Es.
    destruct (BodySchema.jsonMatches _ _); [done|].
    destruct (BodySchema.formDataMatches _ _); [done|].
    destruct (BodySchema.textMatches _ _); [done|].
    destruct (BodySchema.s_json schemas), (BodySchema.s_formData schemas),
      (BodySchema.s_text schemas); try done.
Qed.

(** C7: a body schema without any declared category succeeds on every
    request with [{ body: undefined }], leaving the request untouched;
    and whatever is declared and whichever branch is taken, a
    successful output is the one-field object [{ body: v }] whose [v]
    is the validated value: the output of the declared schema of the
    branch taken on what that branch decoded (the JSON value, the field
    map of the form, the text), or [undefined] when nothing is
    declared. *)
Theorem body_wrapper_shape :
  (forall val w,
     bodySchema (BodySchema.mkSchemas None None None) (Host.IsRequest val) w =
     (inr (VObj {[ "body" := VUndef ]}), w)) /\
  (forall schemas val w out w',
     bodySchema schemas val w = (inr out, w') ->
     exists r v,
       val = Host.IsRequest r /\
       out = VObj {[ "body" := v ]} /\
       match Law.selected schemas (Law.contentTypeOf r) with
       | Law.Json =>
           exists j d,
             BodySchema.s_json schemas = Some j /\
             Host.json r w = (inr d, w') /\ j d = inr v
       | Law.Form =>
           exists f obj,
             BodySchema.s_formData schemas = Some f /\
             (if includes (Law.contentTypeOf r)
                          "application/x-www-form-urlencoded"
              then decodeUrlencoded r ∅
              else BodySchema.decodeMultipart Request_new r ∅) w =
             (inr obj, w') /\
             f (VObj obj) = inr v
       | Law.Text =>
           exists t text,
             BodySchema.s_text schemas = Some t /\
             Host.text r w = (inr text, w') /\ t (VStr text) = inr v
       | Law.Mismatch => False
       | Law.NoSchema =>
           v = VUndef /\ w' = w /\
           BodySchema.s_json schemas = None /\
           BodySchema.s_formData schemas = None /\
           BodySchema.s_text schemas = None
       end).
Proof.
  split.
  - intros val w. unfold BodySchema.bodySchema.
    erewrite bind_inr; [|reflexivity]. unfold Host.lift.
    by rewrite z_object_wrapper.
  - intros schemas val w out w' E. unfold BodySchema.bodySchema in E.
    bind_inv_as E pre w1 Epre.
    destruct val as [r|x]; [|done].
    destruct (preprocess_wrapper _ _ _ _ _ Epre) as [v ->].
    unfold Host.lift in E. rewrite z_object_wrapper in E.
    injection E as <- <-. exists r, v. split; [done|]. split; [done|].
    by apply preprocess_validated.
Qed.

End Body.

Lemma dispatch_priority_witness :
  BodySchema.preprocess Sample.no_params Sample.no_request Sample.all_three
    (Host.IsRequest Sample.ambiguous) Sample.nowhere =
  BodySchema.jsonBranch Sample.accept_all Sample.ambiguous true Sample.nowhere /\
  BodySchema.preprocess Sample.no_params Sample.no_request Sample.form_and_text
    (Host.IsRequest Sample.textish_form) Sample.nowhere =
  BodySchema.formDataBranch Sample.no_params Sample.no_request
    Sample.accept_all Sample.textish_form true
    "text/plain; application/x-www-form-urlencoded" Sample.nowhere.
Proof.
  split.
  - destruct (dispatch_priority Sample.no_params Sample.no_request
                Sample.all_three Sample.ambiguous Sample.nowhere) as (H & _).
    exact (proj2 (H Sample.accept_all eq_refl eq_refl)).
  - destruct (dispatch_priority Sample.no_params Sample.no_request
                Sample.form_and_text Sample.textish_form Sample.nowhere)
      as (_ & H & _).
    exact (proj2 (H Sample.accept_all eq_refl eq_refl eq_refl)).
Defined.

Lemma content_type_mismatch_witness :
  BodySchema.bodySchema Sample.no_params Sample.no_request Sample.json_only
    (Host.IsRequest Sample.xml_post) Sample.nowhere =
  (inl (Error "Content-Type mismatch. Expected one of: application/json, but got: application/xml"),
   Sample.nowhere).
Proof.
  destruct (content_type_mismatch Sample.no_params Sample.no_request
              Sample.json_only Sample.xml_post Sample.nowhere)
    as [H _].
  - left. by eexists.
  - reflexivity.
  - reflexivity.
  - reflexivity.
  - destruct H as (msg & E & -> & _); [done|]. exact E.
Defined.

(** C5, as stated, fails on a GET without body that announces
    [application/xml] to a validator declaring the structured category
    only: a category is declared and no branch matches, yet the error is
    the missing-body one and does not mention a mismatch. *)
Lemma mismatch_without_body_counterexample :
  is_Some (BodySchema.s_json Sample.json_only) /\
  BodySchema.jsonMatches Sample.json_only (Law.contentTypeOf Sample.xml_get) = None /\
  BodySchema.formDataMatches Sample.json_only (Law.contentTypeOf Sample.xml_get) = None /\
  BodySchema.textMatches Sample.json_only (Law.contentTypeOf Sample.xml_get) = None /\
  BodySchema.bodySchema Sample.no_params Sample.no_request Sample.json_only
    (Host.IsRequest Sample.xml_get) Sample.nowhere =
  (inl (Error "Request body is required"), Sample.nowhere) /\
  includes "Request body is required" "Content-Type mismatch" = false.
Proof.
  split; [by eexists|]. repeat split.
Qed.

Lemma urlencoded_two_step_witness :
  BodySchema.decodeUrlencoded Sample.no_params Sample.urlencoded_broken ∅
    Sample.nowhere =
  (inl (TypeError "Failed to parse body as FormData"),
   Host.mkWorld ({[5]} ∪ Host.consumed Sample.nowhere)).
Proof.
  destruct (urlencoded_two_step Sample.no_params Sample.no_request
              Sample.urlencoded_broken ∅ Sample.nowhere)
    as (_ & _ & H & _).
  exact (H (TypeError "Failed to parse body as FormData")
           (Host.mkWorld ({[5]} ∪ Host.consumed Sample.nowhere))
           (TypeError "Request body is already used")
           (Host.mkWorld ({[5]} ∪ Host.consumed Sample.nowhere))
           eq_refl eq_refl).
Defined.

Lemma body_wrapper_shape_witness :
  exists v,
    BodySchema.bodySchema Sample.no_params Sample.no_request Sample.all_three
      (Host.IsRequest Sample.ambiguous) Sample.nowhere =
    (inr (VObj {[ "body" := v ]}),
     Host.mkWorld ({[7]} ∪ Host.consumed Sample.nowhere)).
Proof.
  destruct (body_wrapper_shape Sample.no_params Sample.no_request) as [_ H].
  destruct (H Sample.all_three (Host.IsRequest Sample.ambiguous) Sample.nowhere
              (VObj {[ "body" := VObj {[ "name" := VStr "John" ]} ]})
              (Host.mkWorld ({[7]} ∪ Host.consumed Sample.nowhere)))
    as (r & v & _ & Hv & _).
  - vm_compute. reflexivity.
  - exists v. rewrite <- Hv. vm_compute. reflexivity.
Defined.

(** ** The engine's object rule *)

Lemma handlePropertyResult_inr (input out : gmap string value) (k : string)
    (t : Zod.ZodType) (v : value) :
  is_Some (input !! k) ->
  t (prop input k) = inr v ->
  Zod.handlePropertyResult input k t (inr out) = inr (<[k := v]> out).
Proof.
  intros Hk Ht. unfold Zod.handlePropertyResult, has_key. rewrite Ht.
  rewrite bool_decide_eq_true_2 by done. by destruct v.
Qed.

Lemma handlePropertyResult_inl (input out : gmap string value) (k : string)
    (t : Zod.ZodType) (e : exn) :
  t (prop input k) = inl e ->
  Zod.handlePropertyResult input k t (inr out) = inl e.
Proof. intros Ht. unfold Zod.handlePropertyResult. by rewrite Ht. Qed.

Lemma foldl_handle_inl (input : gmap string value) (e : exn)
    (fields : list (string * Zod.ZodType)) :
  foldl (fun acc kt => Zod.handlePropertyResult input kt.1 kt.2 acc)
        (inl e) fields = inl e.
Proof. by induction fields. Qed.

(** On an input that has every declared key, a successful object parse
    yields every declared key, each with the output of its schema. *)
Lemma foldl_handle_inr (input : gmap string value)
    (fields : list (string * Zod.ZodType)) (out0 out : gmap string value) :
  (forall k, k ∈ fields.*1 -> is_Some (input !! k)) ->
  foldl (fun acc kt => Zod.handlePropertyResult input kt.1 kt.2 acc)
        (inr out0) fields = inr out ->
  (forall k, k ∉ fields.*1 -> out !! k = out0 !! k) /\
  (NoDup fields.*1 ->
   forall k t, (k, t) ∈ fields ->
     exists v, t (prop input k) = inr v /\ out !! k = Some v).
Proof.
  revert out0. induction fields as [|[k t] fields IH]; intros out0 Hkeys E.
  - simpl in E. injection E as <-. split; [done|].
    intros _ k t Hin. by apply elem_of_nil in Hin.
  - cbn [foldl fst snd] in E. destruct (t (prop input k)) as [e|v] eqn:Ht.
    { rewrite (handlePropertyResult_inl _ _ _ _ _ Ht) in E.
      by rewrite foldl_handle_inl in E. }
    rewrite (handlePropertyResult_inr input out0 k t v) in E;
      [|apply Hkeys; simpl; by left|done].
    destruct (IH (<[k := v]> out0)) as [Hkeep Hset]; [|done|].
    { intros k' Hk'. apply Hkeys. simpl. by right. }
    split.
    + intros k' Hk'. simpl in Hk'. apply not_elem_of_cons in Hk' as [Hne Hk'].
      rewrite Hkeep by done. by rewrite lookup_insert_ne.
    + simpl. intros [Hk Hnd]%NoDup_cons k' t' Hin.
      apply elem_of_cons in Hin as [Heq|Hin].
      * injection Heq as -> ->. exists v. split; [done|].
        rewrite Hkeep by done. by rewrite lookup_insert_eq.
      * by apply Hset.
Qed.

Lemma z_object_inr_inv (fields : list (string * Zod.ZodType)) (v res : value) :
  Zod.z_object fields v = inr res ->
  exists input out,
    v = VObj input /\ res = VObj out /\
    foldl (fun acc kt => Zod.handlePropertyResult input kt.1 kt.2 acc)
          (inr ∅) fields = inr out.
Proof.
  unfold Zod.z_object. destruct v; try done.
  destruct (foldl _ _ _) as [e|out] eqn:E; [done|].
  intros [= <-]. by exists o, out.
Qed.

(** ** The composite validator *)

Section Request.

Variable URL_new : string -> exn + URL.
Variable URLSearchParams_new : string -> list (string * string).

Local Abbreviation preprocess :=
  (RequestSchema.preprocess URL_new URLSearchParams_new).
Local Abbreviation requestSchema :=
  (RequestSchema.requestSchema URL_new URLSearchParams_new).

Lemma lift_inv {A} (r x : exn + A) (w w' : Host.World) :
  Host.lift r w = (x, w') -> x = r /\ w' = w.
Proof. by intros [= <- <-]. Qed.

(** Search-params, headers and simple-field processing leave the state
    of the request untouched. *)
Lemma processSearchParams_world (sp : Utils.Preprocessed) (urlObj : URL)
    (w w' : Host.World) (x : exn + value) :
  RequestSchema.processSearchParams URLSearchParams_new sp urlObj w = (x, w') ->
  w' = w.
Proof.
  unfold RequestSchema.processSearchParams, Host.bind, Host.lift, Host.throw.
  destruct (Utils.extractBaseSchema sp); [|by intros [= _ <-]].
  destruct (Utils.extractSearchParamsObject _ _); by intros [= _ <-].
Qed.

Lemma processHeaders_world (h : Utils.Preprocessed) (requestHeaders : Headers)
    (w w' : Host.World) (x : exn + value) :
  RequestSchema.processHeaders h requestHeaders w = (x, w') -> w' = w.
Proof.
  unfold RequestSchema.processHeaders, Host.lift, Host.throw.
  destruct (Utils.extractBaseSchema h); by intros [= _ <-].
Qed.

Lemma simpleField_world (schema : option Zod.ZodType) (s : string)
    (w w' : Host.World) (x : exn + value) :
  RequestSchema.simpleField schema s w = (x, w') -> w' = w.
Proof.
  unfold RequestSchema.simpleField, RequestSchema.processSimpleField,
    Host.lift, Host.ret.
  destruct schema; by intros [= _ <-].
Qed.

Lemma simpleField_None (s : string) (w w' : Host.World) (v : value) :
  RequestSchema.simpleField None s w = (inr v, w') -> v = VUndef.
Proof. by intros [= <- _]. Qed.

(** [processBody] reads the stream reference in the state it starts
    from and only then runs the sub-validator. *)
Lemma processBody_inr_inv (b : Host.input -> Host.M value) (r : Host.Request)
    (w w' : Host.World) (br : RequestSchema.BodyResult) :
  RequestSchema.processBody b r w = (inr br, w') ->
  b (Host.IsRequest r) w = (inr (RequestSchema.parsed br), w') /\
  member (RequestSchema.parsed br) "body" = inr (RequestSchema.bodyValue br) /\
  RequestSchema.originalBody br = Host.of_body (Host.body r w).
Proof.
  unfold RequestSchema.processBody. intros H.
  bind_inv H. injection E as <- <-. bind_inv H. bind_inv H.
  apply lift_inv in E0 as [E0 ->]. injection H as <- <-. by simpl.
Qed.

(** The object the callback returns, from the values of its fields. *)
Lemma preprocess_inr_inv (config : RequestSchema.SchemaConfig)
    (r : Host.Request) (w w' : Host.World) (out : value) :
  preprocess config (Host.IsRequest r) w = (inr out, w') ->
  exists urlObj sp br ho m mo pr hn pn,
    URL_new (Host.url r) = inr urlObj /\
    (RequestSchema.searchParams config = None -> sp = VUndef) /\
    match RequestSchema.body config with
    | Some b => RequestSchema.processBody b r w = (inr br, w')
    | None => br = RequestSchema.mkBodyResult VUndef VUndef VUndef /\ w' = w
    end /\
    (RequestSchema.headers config = None -> ho = VUndef) /\
    (RequestSchema.method config = None -> m = VUndef) /\
    (RequestSchema.mode config = None -> mo = VUndef) /\
    (RequestSchema.protocol config = None -> pr = VUndef) /\
    (RequestSchema.hostname config = None -> hn = VUndef) /\
    (RequestSchema.pathname config = None -> pn = VUndef) /\
    out = VObj
      (<["url" := VURL urlObj]>
      (<["searchParamsObject" := sp]>
      (<["body" := RequestSchema.originalBody br]>
      (<["bodyObject" := RequestSchema.bodyValue br]>
      (<["headers" := if RequestSchema.headers config is Some _
                      then VHeaders (Host.headers r) else VUndef]>
      (<["headersObj" := ho]>
      (<["method" := m]>
      (<["mode" := mo]>
      (<["protocol" := pr]>
      (<["hostname" := hn]>
      (<["pathname" := pn]> ∅))))))))))).
Proof.
  unfold RequestSchema.preprocess. intros H.
  bind_inv_as H urlObj w0 E. apply lift_inv in E as [E ->].
  bind_inv_as H sp w1 Esp.
  bind_inv_as H br w2 Ebr.
  bind_inv_as H ho w3 Eho.
  bind_inv_as H m w4 Em.
  bind_inv_as H mo w5 Emo.
  bind_inv_as H pr w6 Epr.
  bind_inv_as H hn w7 Ehn.
  bind_inv_as H pn w8 Epn.
  injection H as <- <-.
  apply simpleField_world in Epn as Hw; subst w8.
  apply simpleField_world in Ehn as Hw; subst w7.
  apply simpleField_world in Epr as Hw; subst w6.
  apply simpleField_world in Emo as Hw; subst w5.
  apply simpleField_world in Em as Hw; subst w4.
  assert (Hsp : w1 = w /\ (RequestSchema.searchParams config = None -> sp = VUndef)).
  { destruct (RequestSchema.searchParams config).
    - apply processSearchParams_world in Esp. by split.
    - injection Esp as <- <-. by split. }
  destruct Hsp as [-> Hsp].
  assert (Hho : w3 = w2 /\ (RequestSchema.headers config = None -> ho = VUndef)).
  { destruct (RequestSchema.headers config).
    - apply processHeaders_world in Eho. by split.
    - injection Eho as <- <-. by split. }
  destruct Hho as [-> Hho].
  exists urlObj, sp, br, ho, m, mo, pr, hn, pn.
  split; [done|]. split; [done|]. split.
  { destruct (RequestSchema.body config); [done|]. by injection Ebr as <- <-. }
  split; [done|].
  split. { intros Hn. rewrite Hn in Em. by eapply simpleField_None. }
  split. { intros Hn. rewrite Hn in Emo. by eapply simpleField_None. }
  split. { intros Hn. rewrite Hn in Epr. by eapply simpleField_None. }
  split. { intros Hn. rewrite Hn in Ehn. by eapply simpleField_None. }
  split. { intros Hn. rewrite Hn in Epn. by eapply simpleField_None. }
  done.
Qed.

(** Reading a field of the object literal the callback returns. *)
Ltac read_field :=
  unfold prop;
  repeat (rewrite lookup_insert_ne by done);
  rewrite ?lookup_insert_eq; cbn [default].

Lemma resultFields_keys (config : RequestSchema.SchemaConfig) :
  (RequestSchema.resultFields config).*1 = RequestSchema.resultKeys.
Proof. reflexivity. Qed.

Lemma resultKeys_NoDup : NoDup RequestSchema.resultKeys.
Proof. by_compute. Qed.

(** A successful validation: the callback's object, and the result
    schema applied to each of its fields. *)
Lemma requestSchema_inr_inv (config : RequestSchema.SchemaConfig)
    (r : Host.Request) (w w' : Host.World) (res : value) :
  requestSchema config (Host.IsRequest r) w = (inr res, w') ->
  exists input o,
    preprocess config (Host.IsRequest r) w = (inr (VObj input), w') /\
    res = VObj o /\
    (forall k, k ∈ RequestSchema.resultKeys -> is_Some (input !! k)) /\
    (forall k, k ∉ RequestSchema.resultKeys -> o !! k = None) /\
    (forall k t, (k, t) ∈ RequestSchema.resultFields config ->
       exists v, t (prop input k) = inr v /\ o !! k = Some v).
Proof.
  unfold RequestSchema.requestSchema. intros H.
  bind_inv_as H out w1 E. apply lift_inv in H as [H ->].
  unfold RequestSchema.buildResultSchema in H. symmetry in H.
  apply z_object_inr_inv in H as (input & o & -> & -> & Hfold).
  exists input, o. split; [done|]. split; [done|].
  assert (Hkeys : forall k, k ∈ RequestSchema.resultKeys -> is_Some (input !! k)).
  { apply preprocess_inr_inv in E
      as (urlObj & sp & br & ho & m & mo & pr & hn & pn & _ & _ & _ & _ & _ &
          _ & _ & _ & _ & [= ->]).
    intros k Hk. unfold RequestSchema.resultKeys in Hk.
    repeat (apply elem_of_cons in Hk as [->|Hk]; [read_field; by eexists|]).
    by apply elem_of_nil in Hk. }
  split; [done|].
  apply foldl_handle_inr in Hfold as [Hkeep Hset];
    [|by rewrite resultFields_keys].
  rewrite resultFields_keys in Hkeep, Hset. split.
  - intros k Hk. by rewrite Hkeep.
  - apply Hset, resultKeys_NoDup.
Qed.

(** C2 (amended): the object of a successful validation always has the
    eleven keys of the result, whatever was declared.  [url] holds the
    parsed URL.  Every field of a facet whose sub-validator was not
    supplied holds [undefined]: such a facet carries no validated data,
    though its key is present.  For a supplied body sub-validator [body]
    holds the stream or [null], and for a supplied headers
    sub-validator [headers] holds the request's headers. *)
Theorem result_shape (config : RequestSchema.SchemaConfig) (val : Host.input)
    (w w' : Host.World) (res : value) :
  requestSchema config val w = (inr res, w') ->
  exists r urlObj o,
    val = Host.IsRequest r /\
    URL_new (Host.url r) = inr urlObj /\
    res = VObj o /\
    (forall k, is_Some (o !! k) <-> k ∈ RequestSchema.resultKeys) /\
    o !! "url" = Some (VURL urlObj) /\
    (RequestSchema.searchParams config = None ->
     o !! "searchParamsObject" = Some VUndef) /\
    (RequestSchema.body config = None ->
     o !! "body" = Some VUndef /\ o !! "bodyObject" = Some VUndef) /\
    (RequestSchema.headers config = None ->
     o !! "headers" = Some VUndef /\ o !! "headersObj" = Some VUndef) /\
    (RequestSchema.method config = None -> o !! "method" = Some VUndef) /\
    (RequestSchema.mode config = None -> o !! "mode" = Some VUndef) /\
    (RequestSchema.protocol config = None -> o !! "protocol" = Some VUndef) /\
    (RequestSchema.hostname config = None -> o !! "hostname" = Some VUndef) /\
    (RequestSchema.pathname config = None -> o !! "pathname" = Some VUndef) /\
    (is_Some (RequestSchema.body config) ->
     exists b, o !! "body" = Some (Host.of_body b)) /\
    (is_Some (RequestSchema.headers config) ->
     o !! "headers" = Some (VHeaders (Host.headers r))).
Proof.
  intros H. destruct val as [r|v]; [|done].
  apply requestSchema_inr_inv in H as (input & o & E & -> & _ & Hnone & Hset).
  apply preprocess_inr_inv in E
    as (urlObj & sp & br & ho & m & mo & pr & hn & pn & Eurl & Hsp & Hbr & Hho &
        Hm & Hmo & Hpr & Hhn & Hpn & [= ->]).
  exists r, urlObj, o. split; [done|]. split; [done|]. split; [done|].
  unfold RequestSchema.resultFields in Hset.
  split.
  { intros k. split.
    - intros Hk. destruct (decide (k ∈ RequestSchema.resultKeys)); [done|].
      rewrite Hnone in Hk by done. by destruct Hk.
    - intros Hk. unfold RequestSchema.resultKeys in Hk.
      repeat (apply elem_of_cons in Hk as [->|Hk];
              [match goal with
               | |- is_Some (o !! ?k) =>
                   by destruct (Hset k _ ltac:(in_list)) as (v & _ & ->)
               end|]).
      by apply elem_of_nil in Hk. }
  split.
  { destruct (Hset "url" _ ltac:(in_list)) as (v & Hv & ->).
    revert Hv. read_field. by intros [= <-]. }
  split.
  { intros Hn. destruct (Hset "searchParamsObject" _ ltac:(in_list)) as (v & Hv & ->).
    revert Hv. read_field. rewrite Hn, (Hsp Hn). by intros [= <-]. }
  split.
  { intros Hn. rewrite Hn in Hbr. destruct Hbr as [-> _].
    destruct (Hset "body" _ ltac:(in_list)) as (v & Hv & ->).
    destruct (Hset "bodyObject" _ ltac:(in_list)) as (v' & Hv' & ->).
    revert Hv Hv'. read_field. rewrite Hn. by intros [= <-] [= <-]. }
  split.
  { intros Hn.
    destruct (Hset "headers" _ ltac:(in_list)) as (v & Hv & ->).
    destruct (Hset "headersObj" _ ltac:(in_list)) as (v' & Hv' & ->).
    revert Hv Hv'. read_field. rewrite Hn, (Hho Hn). by intros [= <-] [= <-]. }
  split.
  { intros Hn. destruct (Hset "method" _ ltac:(in_list)) as (v & Hv & ->).
    revert Hv. read_field. rewrite Hn, (Hm Hn). by intros [= <-]. }
  split.
  { intros Hn. destruct (Hset "mode" _ ltac:(in_list)) as (v & Hv & ->).
    revert Hv. read_field. rewrite Hn, (Hmo Hn). by intros [= <-]. }
  split.
  { intros Hn. destruct (Hset "protocol" _ ltac:(in_list)) as (v & Hv & ->).
    revert Hv. read_field. rewrite Hn, (Hpr Hn). by intros [= <-]. }
  split.
  { intros Hn. destruct (Hset "hostname" _ ltac:(in_list)) as (v & Hv & ->).
    revert Hv. read_field. rewrite Hn, (Hhn Hn). by intros [= <-]. }
  split.
  { intros Hn. destruct (Hset "pathname" _ ltac:(in_list)) as (v & Hv & ->).
    revert Hv. read_field. rewrite Hn, (Hpn Hn). by intros [= <-]. }
  split.
  { intros [b Hb]. rewrite Hb in Hbr.
    apply processBody_inr_inv in Hbr as (_ & _ & Hob).
    destruct (Hset "body" _ ltac:(in_list)) as (v & Hv & ->).
    revert Hv. read_field. rewrite Hb, Hob.
    exists (Host.body r w). by destruct (Host.body r w); injection Hv as <-. }
  intros [h Hh].
  destruct (Hset "headers" _ ltac:(in_list)) as (v & Hv & ->).
  revert Hv. read_field. rewrite Hh. by intros [= <-].
Qed.

(** C4: with a body sub-validator declared, the stream reference is
    read from the request in the state in which the sub-validator is
    then started, and a successful result carries exactly that
    reference in [body], whatever the sub-validator did to the request;
    [bodyObject] is the [body] property of what it returned. *)
Theorem body_captured_before_parse (config : RequestSchema.SchemaConfig)
    (b : Host.input -> Host.M value) (r : Host.Request)
    (w w' : Host.World) (res : value) :
  RequestSchema.body config = Some b ->
  requestSchema config (Host.IsRequest r) w = (inr res, w') ->
  exists o parsed bodyValue,
    res = VObj o /\
    b (Host.IsRequest r) w = (inr parsed, w') /\
    member parsed "body" = inr bodyValue /\
    RequestSchema.processBody b r w =
    (inr (RequestSchema.mkBodyResult parsed bodyValue
            (Host.of_body (Host.body r w))), w') /\
    o !! "body" = Some (Host.of_body (Host.body r w)) /\
    o !! "bodyObject" = Some bodyValue.
Proof.
  intros Hb H.
  apply requestSchema_inr_inv in H as (input & o & E & -> & _ & _ & Hset).
  apply preprocess_inr_inv in E
    as (urlObj & sp & br & ho & m & mo & pr & hn & pn & _ & _ & Hbr & _ &
        _ & _ & _ & _ & _ & [= ->]).
  rewrite Hb in Hbr. pose proof Hbr as Hpb.
  apply processBody_inr_inv in Hbr as (Hrun & Hmem & Hob).
  destruct br as [parsed bodyValue originalBody]. simpl in *. subst originalBody.
  exists o, parsed, bodyValue. split; [done|]. split; [done|]. split; [done|].
  split; [done|].
  unfold RequestSchema.resultFields in Hset.
  destruct (Hset "body" _ ltac:(in_list)) as (v & Hv & ->).
  destruct (Hset "bodyObject" _ ltac:(in_list)) as (v' & Hv' & ->).
  revert Hv Hv'. read_field. rewrite Hb. intros Hv [= <-]. split; [|done].
  by destruct (Host.body r w); injection Hv as <-.
Qed.

End Request.

Lemma result_shape_witness :
  exists o w',
    RequestSchema.requestSchema Sample.url_of Sample.no_params Sample.body_only
      (Host.IsRequest Sample.draining) Sample.nowhere = (inr (VObj o), w') /\
    (forall k, is_Some (o !! k) <-> k ∈ RequestSchema.resultKeys) /\
    o !! "body" = Some (VStream 7) /\
    o !! "headers" = Some VUndef /\
    o !! "method" = Some VUndef.
Proof.
  destruct (RequestSchema.requestSchema Sample.url_of Sample.no_params
              Sample.body_only (Host.IsRequest Sample.draining) Sample.nowhere)
    as [[e|res] w'] eqn:E; [vm_compute in E; discriminate E|].
  destruct (result_shape _ _ _ _ _ _ _ E)
    as (r & urlObj & o & Hval & _ & -> & Hkeys & _ & _ & _ & Hh & Hm & _).
  exists o, w'. split; [reflexivity|]. split; [exact Hkeys|].
  split; [|split; [exact (proj1 (Hh eq_refl)) | exact (Hm eq_refl)]].
  vm_compute in E. injection E as <- _. vm_compute. reflexivity.
Defined.

(** C2, as stated, fails on a validator built without any facet: the
    object of a successful validation still has the keys of every
    facet, each holding [undefined]. *)
Lemma unsupplied_facet_key_counterexample :
  exists returned o,
    RequestSchema.preprocess Sample.url_of Sample.no_params Sample.no_facets
      (Host.IsRequest Sample.xml_get) Sample.nowhere =
    (inr (VObj returned), Sample.nowhere) /\
    RequestSchema.requestSchema Sample.url_of Sample.no_params Sample.no_facets
      (Host.IsRequest Sample.xml_get) Sample.nowhere =
    (inr (VObj o), Sample.nowhere) /\
    RequestSchema.body Sample.no_facets = None /\
    RequestSchema.method Sample.no_facets = None /\
    has_key returned "body" = true /\
    has_key returned "method" = true /\
    has_key o "body" = true /\
    has_key o "bodyObject" = true /\
    has_key o "method" = true /\
    o !! "body" = Some VUndef /\
    size o = 11.
Proof.
  do 2 eexists. split; [vm_compute; reflexivity|].
  split; [vm_compute; reflexivity|].
  repeat split; vm_compute; reflexivity.
Qed.

Lemma body_captured_before_parse_witness :
  exists o w',
    RequestSchema.requestSchema Sample.url_of Sample.no_params Sample.body_only
      (Host.IsRequest Sample.draining) Sample.nowhere = (inr (VObj o), w') /\
    o !! "body" = Some (VStream 7) /\
    o !! "bodyObject" = Some (VObj {[ "name" := VStr "John" ]}) /\
    Host.body Sample.draining Sample.nowhere = Some 7 /\
    Host.body Sample.draining w' = None.
Proof.
  destruct (RequestSchema.requestSchema Sample.url_of Sample.no_params
              Sample.body_only (Host.IsRequest Sample.draining) Sample.nowhere)
    as [[e|res] w'] eqn:E; [vm_compute in E; discriminate E|].
  destruct (body_captured_before_parse Sample.url_of Sample.no_params
              Sample.body_only _ _ _ _ _ eq_refl E)
    as (o & parsed & bodyValue & -> & Hrun & Hmem & _ & Hbody & Hobj).
  exists o, w'. split; [reflexivity|]. split; [exact Hbody|].
  vm_compute in Hrun. injection Hrun as <- <-.
  vm_compute in Hmem. injection Hmem as <-.
  split; [|split; [reflexivity | vm_compute; reflexivity]].
  rewrite Hobj. vm_compute. reflexivity.
Defined.

(** * Further properties of the code *)

(** ** Extraction: keys and missing values *)

Lemma extractLoop_keys (params : Utils.Params) (keys : Utils.Shape)
    (obj obj' : gmap string value) :
  Utils.extractLoop params keys obj = inr obj' ->
  forall k, is_Some (obj' !! k) <->
            is_Some (obj !! k) \/ exists f, (k, Some f) ∈ keys.
Proof.
  revert obj. induction keys as [|[key [f|]] keys IH]; intros obj E k.
  - injection E as <-. split; [by left|].
    intros [H|[f Hf]]; [done|]. by apply elem_of_nil in Hf.
  - simpl in E. destruct (Utils.extractField params key f) as [e|v]; [done|].
    rewrite (IH _ E k). split.
    + intros [H|[g Hg]].
      * destruct (decide (k = key)) as [->|Hne].
        -- right. exists f. by left.
        -- left. by rewrite lookup_insert_ne in H.
      * right. exists g. by right.
    + intros [H|[g Hg]].
      * left. destruct (decide (k = key)) as [->|Hne].
        -- rewrite lookup_insert_eq. by eexists.
        -- by rewrite lookup_insert_ne.
      * apply elem_of_cons in Hg as [[= -> ->]|Hg].
        -- left. rewrite lookup_insert_eq. by eexists.
        -- right. by exists g.
  - simpl in E. rewrite (IH _ E k). split.
    + intros [H|[g Hg]]; [by left|]. right. exists g. by right.
    + intros [H|[g Hg]]; [by left|].
      apply elem_of_cons in Hg as [[=]|Hg]. right. by exists g.
Qed.

(** X1: a successful extraction has exactly the keys the shape
    declares with a rule: a key of the source that is not declared
    never reaches the result, and neither does a key declared with a
    falsy rule. *)
Theorem extraction_keeps_declared_keys_only (params : Utils.Params)
    (shape : Utils.Shape) (obj : gmap string value) :
  Utils.extractSearchParamsObject params shape = inr obj ->
  (forall k, is_Some (obj !! k) <-> exists f, (k, Some f) ∈ shape) /\
  (forall k, k ∉ shape.*1 -> obj !! k = None).
Proof.
  intros E. assert (Hk : forall k, is_Some (obj !! k) <-> exists f, (k, Some f) ∈ shape).
  { intros k. rewrite (extractLoop_keys _ _ _ _ E k). split.
    - intros [H|H]; [|done]. rewrite lookup_empty in H. by destruct H.
    - intros H. by right. }
  split; [done|]. intros k Hk'.
  destruct (obj !! k) eqn:Ek; [|done]. exfalso.
  destruct (proj1 (Hk k)) as [f Hf]; [by rewrite Ek|].
  apply Hk'. apply list_elem_of_fmap. by exists (k, Some f).
Qed.

Lemma extraction_keeps_declared_keys_only_witness :
  exists obj,
    Utils.extractSearchParamsObject Sample.tags Sample.shape_tags = inr obj /\
    Utils.allValuesOf Sample.tags "extra" = ["x"] /\
    obj !! "extra" = None.
Proof.
  destruct (Utils.extractSearchParamsObject Sample.tags Sample.shape_tags)
    as [e|obj] eqn:E; [vm_compute in E; discriminate E|].
  exists obj. split; [reflexivity|]. split; [reflexivity|].
  apply (proj2 (extraction_keeps_declared_keys_only _ _ _ E)).
  by_compute.
Defined.

Lemma extractHeadersObject_lookup (headers : Headers) (shape : Utils.Shape)
    (obj : gmap string value) (k : string) :
  foldl (fun obj kf =>
           <[kf.1 := match get headers kf.1 with
                     | Some value => VStr value
                     | None => VUndef
                     end]> obj) obj shape !! k =
  if bool_decide (k ∈ shape.*1)
  then Some (match get headers k with
             | Some value => VStr value
             | None => VUndef
             end)
  else obj !! k.
Proof.
  revert obj. induction shape as [|[key f] shape IH]; intros obj; [done|].
  cbn [foldl fst snd]. rewrite IH. rewrite fmap_cons. cbn [fst].
  destruct (decide (k ∈ shape.*1)) as [Hin|Hnin].
  - rewrite !bool_decide_eq_true_2; [done| by right | done].
  - rewrite (bool_decide_eq_false_2 _ Hnin).
    destruct (decide (k = key)) as [->|Hne].
    + rewrite bool_decide_eq_true_2 by by left. by rewrite lookup_insert_eq.
    + rewrite bool_decide_eq_false_2.
      * by rewrite lookup_insert_ne.
      * by intros [?|?]%elem_of_cons.
Qed.

Lemma extractHeadersLoop_answering (h : Headers) (keys : Utils.Shape)
    (obj : gmap string value) :
  HeaderAccess.extractHeadersLoop (HeaderAccess.answering h) keys obj =
  inr (foldl (fun obj kf =>
                <[kf.1 := match get h kf.1 with
                          | Some value => VStr value
                          | None => VUndef
                          end]> obj) obj keys).
Proof.
  revert obj. induction keys as [|[key f] keys IH]; intros obj; [done|].
  cbn [HeaderAccess.extractHeadersLoop HeaderAccess.answering
       HeaderAccess.get_or_throw foldl fst snd].
  rewrite IH. by destruct (get h key).
Qed.

Lemma extractHeadersLoop_ok (headers : HeaderAccess.ThrowingHeaders)
    (keys : Utils.Shape) (obj : gmap string value) :
  (forall k, k ∈ keys.*1 ->
             exists a, HeaderAccess.get_or_throw headers k = inr a) ->
  exists obj',
    HeaderAccess.extractHeadersLoop headers keys obj = inr obj' /\
    forall k a,
      HeaderAccess.get_or_throw headers k = inr a ->
      obj' !! k = if bool_decide (k ∈ keys.*1)
                  then Some (HeaderAccess.orUndefined a)
                  else obj !! k.
Proof.
  revert obj. induction keys as [|[key f] keys IH]; intros obj Hans.
  - exists obj. by split.
  - destruct (Hans key) as [a Ha]; [rewrite fmap_cons; by left|].
    destruct (IH (<[key := HeaderAccess.orUndefined a]> obj))
      as (obj' & E & Hlook).
    { intros k Hk. apply Hans. rewrite fmap_cons. by right. }
    exists obj'. cbn [HeaderAccess.extractHeadersLoop]. rewrite Ha.
    split; [done|]. intros k b Hb. rewrite (Hlook k b Hb).
    rewrite fmap_cons. cbn [fst].
    destruct (decide (k ∈ keys.*1)) as [Hin|Hnin].
    + rewrite !bool_decide_eq_true_2; [done| by right | done].
    + rewrite (bool_decide_eq_false_2 _ Hnin).
      destruct (decide (k = key)) as [->|Hne].
      * rewrite bool_decide_eq_true_2 by by left.
        rewrite lookup_insert_eq. congruence.
      * rewrite bool_decide_eq_false_2.
        -- by rewrite lookup_insert_ne.
        -- by intros [?|?]%elem_of_cons.
Qed.

Lemma extractHeadersLoop_keep (headers : HeaderAccess.ThrowingHeaders)
    (keys : Utils.Shape) (m obj : gmap string value) (k : string) :
  HeaderAccess.extractHeadersLoop headers keys m = inr obj ->
  k ∉ keys.*1 -> obj !! k = m !! k.
Proof.
  revert m. induction keys as [|[key f] keys IH]; intros m E Hk.
  - by injection E as <-.
  - cbn [HeaderAccess.extractHeadersLoop] in E.
    destruct (HeaderAccess.get_or_throw headers key); [done|].
    rewrite fmap_cons in Hk. apply not_elem_of_cons in Hk as [Hne Hk].
    rewrite (IH _ E Hk). by rewrite lookup_insert_ne.
Qed.

Lemma extractHeadersLoop_err (headers : HeaderAccess.ThrowingHeaders)
    (pre post : Utils.Shape) (key : string) (f : option Utils.FieldSchema)
    (e : exn) (obj : gmap string value) :
  (forall k, k ∈ pre.*1 ->
             exists a, HeaderAccess.get_or_throw headers k = inr a) ->
  HeaderAccess.get_or_throw headers key = inl e ->
  HeaderAccess.extractHeadersLoop headers (pre ++ (key, f) :: post)%list obj =
  inl e.
Proof.
  revert obj. induction pre as [|[k g] pre IH]; intros obj Hpre He.
  - cbn. by rewrite He.
  - destruct (Hpre k) as [a Ha]; [rewrite fmap_cons; by left|].
    cbn [app HeaderAccess.extractHeadersLoop]. rewrite Ha.
    apply IH; [|done]. intros k' Hk'. apply Hpre. rewrite fmap_cons. by right.
Qed.

(** X2: header extraction calls [get] for the keys of the shape in
    order, falsy rules included.  When [get] throws for a key (a native
    [Headers] does for a key that is not a valid header name) the
    extraction throws that error, at the first such key.  When [get]
    answers for every key the result has the keys of the shape and no
    other, each holding the string [get] answered, or [undefined] for
    [null]; on such a headers object it is the extraction used by the
    validators. *)
Theorem headers_extraction_exact (headers : HeaderAccess.ThrowingHeaders)
    (shape : Utils.Shape) :
  (forall pre key f post e,
     shape = (pre ++ (key, f) :: post)%list ->
     (forall k, k ∈ pre.*1 ->
                exists a, HeaderAccess.get_or_throw headers k = inr a) ->
     HeaderAccess.get_or_throw headers key = inl e ->
     HeaderAccess.extractHeadersObject headers shape = inl e) /\
  ((forall k, k ∈ shape.*1 ->
              exists a, HeaderAccess.get_or_throw headers k = inr a) ->
   exists obj,
     HeaderAccess.extractHeadersObject headers shape = inr obj /\
     (forall k, k ∉ shape.*1 -> obj !! k = None) /\
     (forall k a, k ∈ shape.*1 ->
        HeaderAccess.get_or_throw headers k = inr a ->
        obj !! k = Some (HeaderAccess.orUndefined a))) /\
  (forall h,
     HeaderAccess.extractHeadersObject (HeaderAccess.answering h) shape =
     inr (Utils.extractHeadersObject h shape) /\
     forall k,
       Utils.extractHeadersObject h shape !! k =
       if bool_decide (k ∈ shape.*1)
       then Some (HeaderAccess.orUndefined (get h k))
       else None).
Proof.
  unfold HeaderAccess.extractHeadersObject. split; [|split].
  - intros pre key f post e -> Hpre He. by apply extractHeadersLoop_err.
  - intros Hans.
    destruct (extractHeadersLoop_ok headers shape ∅ Hans) as (obj & E & Hlook).
    exists obj. split; [done|]. split.
    + intros k Hk. rewrite (extractHeadersLoop_keep _ _ _ _ k E Hk).
      apply lookup_empty.
    + intros k a Hk Ha. rewrite (Hlook k a Ha).
      by rewrite bool_decide_eq_true_2.
  - intros h. unfold Utils.extractHeadersObject.
    split; [apply extractHeadersLoop_answering|].
    intros k. rewrite extractHeadersObject_lookup. by destruct (get h k).
Qed.

Lemma extractLoop_missing (params : Utils.Params) (keys : Utils.Shape)
    (obj : gmap string value) :
  (forall key, key ∈ keys.*1 -> Utils.allValuesOf params key = []) ->
  exists obj',
    Utils.extractLoop params keys obj = inr obj' /\
    (forall k, obj' !! k = Some VUndef \/ obj' !! k = obj !! k) /\
    (forall k f, (k, Some f) ∈ keys -> obj' !! k = Some VUndef).
Proof.
  revert obj. induction keys as [|[key [f|]] keys IH]; intros obj Hno.
  - exists obj. split; [done|]. split; [by right|].
    intros k f Hin. by apply elem_of_nil in Hin.
  - assert (Ef : Utils.extractField params key f = inr VUndef).
    { unfold Utils.extractField. rewrite (Hno key) by by left.
      by destruct (Utils.isArraySchema (Some f)). }
    destruct (IH (<[key := VUndef]> obj)) as (obj' & E & Hany & Hset).
    { intros k Hk. apply Hno. by right. }
    assert (Hany' : forall k, obj' !! k = Some VUndef \/ obj' !! k = obj !! k).
    { intros k. destruct (Hany k) as [H|H]; [by left|].
      destruct (decide (k = key)) as [->|Hne].
      - left. by rewrite H, lookup_insert_eq.
      - right. by rewrite H, lookup_insert_ne. }
    exists obj'. simpl. rewrite Ef. split; [done|]. split; [done|].
    intros k g Hin. apply elem_of_cons in Hin as [[= -> ->]|Hin].
    + destruct (Hany key) as [H|H]; [done|]. by rewrite H, lookup_insert_eq.
    + by apply (Hset k g).
  - destruct (IH obj) as (obj' & E & Hany & Hset).
    { intros k Hk. apply Hno. by right. }
    exists obj'. split; [done|]. split; [done|].
    intros k g Hin. apply elem_of_cons in Hin as [[=]|Hin]. by apply (Hset k g).
Qed.

(** ** The search-params and headers sub-validators *)

Section SubValidatorFacts.

Variable URLSearchParams_new : string -> list (string * string).

Local Abbreviation spSchema :=
  (SubValidators.searchParamsSchema URLSearchParams_new).

(** X3: when the source holds no value for any declared key (an empty
    query string, for one), normalisation and extraction cannot fail:
    the declared schema is run on the object that maps every key
    declared with a rule to [undefined] and has no other key. *)
Theorem no_values_all_undefined (schema : Utils.ZodObject)
    (val : SubValidators.raw) (params : Utils.Params) :
  SubValidators.toParams URLSearchParams_new val = inr params ->
  (forall key, key ∈ (Utils.shape schema).*1 ->
               Utils.allValuesOf params key = []) ->
  exists obj,
    spSchema schema val = Utils.parseAsync schema (VObj obj) /\
    (forall k f, (k, Some f) ∈ Utils.shape schema -> obj !! k = Some VUndef) /\
    (forall k, (forall f, (k, Some f) ∉ Utils.shape schema) -> obj !! k = None).
Proof.
  intros Hp Hno.
  destruct (extractLoop_missing params (Utils.shape schema) ∅ Hno)
    as (obj & E & _ & Hset).
  exists obj. unfold SubValidators.searchParamsSchema.
  rewrite Hp. unfold Utils.extractSearchParamsObject. rewrite E.
  split; [done|]. split; [done|].
  intros k Hk. destruct (obj !! k) eqn:Ek; [|done]. exfalso.
  destruct (proj1 (extractLoop_keys _ _ _ _ E k)) as [H|[f Hf]].
  - by rewrite Ek.
  - rewrite lookup_empty in H. by destruct H.
  - by apply (Hk f).
Qed.

(** X4: the search-params validator rejects [null], [undefined],
    numbers, booleans, arrays and objects without a callable [get] with
    the plain error "Expected URLSearchParams or string", before the
    declared schema is consulted; every string, the empty one included,
    passes the normalisation. *)
Theorem searchParams_input_shape (schema : Utils.ZodObject) :
  (forall v,
     (forall s, v <> VStr s) -> (forall h, v <> VHeaders h) ->
     spSchema schema (SubValidators.RawValue v) =
     inl (Error "Expected URLSearchParams or string")) /\
  (forall s,
     SubValidators.toParams URLSearchParams_new (SubValidators.RawValue (VStr s)) =
     inr (Utils.URLSearchParams (URLSearchParams_new s))).
Proof.
  split; [|done]. intros v Hs Hh. unfold SubValidators.searchParamsSchema.
  destruct v; try done.
  - by destruct (Hs s).
  - by destruct (Hh h).
Qed.

(** X6: inside the composite validator a search-params validator built
    by [searchParamsSchema] behaves exactly as it does alone on the
    query string of the URL, and a headers validator built by
    [headersSchema] exactly as alone on the request's headers; neither
    touches the state of the request. *)
Theorem composite_agrees_with_sub_validators (schema : Utils.ZodObject)
    (urlObj : URL) (requestHeaders : Headers) (w : Host.World) :
  RequestSchema.processSearchParams URLSearchParams_new
    (SubValidators.pipe schema) urlObj w =
  (spSchema schema (SubValidators.RawValue (VStr (search urlObj))), w) /\
  RequestSchema.processHeaders (SubValidators.pipe schema) requestHeaders w =
  (SubValidators.headersSchema schema
     (SubValidators.RawValue (VHeaders requestHeaders)), w).
Proof.
  unfold RequestSchema.processSearchParams, RequestSchema.processHeaders,
    SubValidators.searchParamsSchema, SubValidators.headersSchema,
    Host.bind, Host.lift.
  cbn. unfold Utils.extractSearchParamsObject. split; [|done].
  by destruct (Utils.extractLoop _ _ _).
Qed.

End SubValidatorFacts.

(** X5: the headers validator rejects [null], [undefined], strings,
    numbers, booleans, arrays and objects without a callable [get] with
    the plain error "Expected Headers", before the declared schema is
    consulted. *)
Theorem headers_input_shape (schema : Utils.ZodObject) (v : value) :
  (forall h, v <> VHeaders h) ->
  SubValidators.headersSchema schema (SubValidators.RawValue v) =
  inl (Error "Expected Headers").
Proof.
  intros Hh. unfold SubValidators.headersSchema.
  destruct v; try done. by destruct (Hh h).
Qed.

Lemma no_values_all_undefined_witness :
  exists obj,
    SubValidators.searchParamsSchema More.query_of More.tags_schema
      (SubValidators.RawValue (VStr "")) = inr (VObj obj) /\
    obj !! "tag" = Some VUndef /\
    obj !! "other" = None.
Proof.
  destruct (no_values_all_undefined More.query_of More.tags_schema
              (SubValidators.RawValue (VStr ""))
              (Utils.URLSearchParams []) eq_refl)
    as (obj & E & Hset & Hnone).
  - intros key _. reflexivity.
  - exists obj. split; [exact E|]. split.
    + apply (Hset "tag" Sample.array). in_list.
    + apply Hnone. intros f Hin.
      repeat (apply elem_of_cons in Hin as [Hin|Hin]; [discriminate Hin|]).
      by apply elem_of_nil in Hin.
Defined.

Lemma searchParams_input_shape_witness :
  SubValidators.searchParamsSchema More.query_of More.tags_schema
    (SubValidators.RawValue (VNum 5)) =
  inl (Error "Expected URLSearchParams or string").
Proof.
  apply (proj1 (searchParams_input_shape More.query_of More.tags_schema));
    intros; discriminate.
Defined.

Lemma headers_input_shape_witness :
  SubValidators.headersSchema More.tags_schema
    (SubValidators.RawValue (VStr "authorization: x")) =
  inl (Error "Expected Headers").
Proof.
  apply headers_input_shape. intros; discriminate.
Defined.

(** ** The body dispatcher: edges and error propagation *)

Lemma assignFormData_lookup (formData : list (string * value))
    (obj : gmap string value) (k : string) :
  BodySchema.assignFormData formData obj !! k =
  match More.last_entry k formData with
  | Some e => Some (More.form_field e.2)
  | None => obj !! k
  end.
Proof.
  unfold BodySchema.assignFormData, More.last_entry.
  revert obj. induction formData as [|[key v] formData IH]; intros obj; [done|].
  cbn [foldl fst snd]. rewrite IH. rewrite filter_cons. cbn [fst].
  destruct (decide (key = k)) as [->|Hne].
  - destruct (filter _ formData) as [|e l] eqn:Ef.
    + cbn. rewrite lookup_insert_eq. by destruct v.
    + change (last ((k, v) :: e :: l)) with (last (e :: l)).
      destruct (last (e :: l)) eqn:El; [done|]. by apply last_None in El.
  - destruct (last (filter _ formData)); [done|]. by rewrite lookup_insert_ne.
Qed.

(** X7: the field map built from a decoded form holds, for each key
    other than [__proto__], the last entry decoded under that key: its
    string, or [undefined] when that entry is a file; a key without
    entry is absent.  The key [__proto__] is set aside: an assignment to
    it on a plain object reaches the setter of the prototype and
    creates no property. *)
Theorem form_fields_last_entry_wins (formData : list (string * value))
    (k : string) :
  k <> "__proto__" ->
  BodySchema.assignFormData formData ∅ !! k =
  match More.last_entry k formData with
  | Some (_, VStr s) => Some (VStr s)
  | Some _ => Some VUndef
  | None => None
  end.
Proof.
  intros _. rewrite assignFormData_lookup.
  destruct (More.last_entry k formData) as [[k' v]|]; [|done].
  by destruct v.
Qed.

Lemma form_fields_last_entry_wins_witness :
  BodySchema.assignFormData More.profile_form ∅ !! "name" = Some (VStr "Jane") /\
  BodySchema.assignFormData More.profile_form ∅ !! "photo" = Some VUndef /\
  BodySchema.assignFormData More.profile_form ∅ !! "age" = None.
Proof.
  split; [|split].
  - rewrite (form_fields_last_entry_wins More.profile_form "name");
      [reflexivity | discriminate].
  - rewrite (form_fields_last_entry_wins More.profile_form "photo");
      [reflexivity | discriminate].
  - rewrite (form_fields_last_entry_wins More.profile_form "age");
      [reflexivity | discriminate].
Defined.

Section BodyFacts.

Variable URLSearchParams_new : string -> list (string * string).
Variable Request_new :
  string -> string -> Headers -> option Ref -> Host.M Host.Request.

Local Abbreviation preprocess :=
  (BodySchema.preprocess URLSearchParams_new Request_new).
Local Abbreviation bodySchema :=
  (BodySchema.bodySchema URLSearchParams_new Request_new).
Local Abbreviation decodeMultipart := (BodySchema.decodeMultipart Request_new).

Lemma bodySchema_of_preprocess (schemas : BodySchema.Schemas)
    (val : Host.input) (w w' : Host.World) (v : value) :
  preprocess schemas val w = (inr (BodySchema.wrapper v), w') ->
  bodySchema schemas val w = (inr (VObj {[ "body" := v ]}), w').
Proof.
  intros E. unfold BodySchema.bodySchema. rewrite (bind_inr _ _ _ _ _ E).
  unfold Host.lift. by rewrite z_object_wrapper.
Qed.

(** X8: on a request without body, a body validator with any declared
    category always fails with a plain error whose message starts with
    "Request body is required", whatever the content type, and no
    decoding capability of the request is used. *)
Theorem missing_body_always_reported (schemas : BodySchema.Schemas)
    (val : Host.Request) (w : Host.World) :
  is_Some (BodySchema.s_json schemas) \/
  is_Some (BodySchema.s_formData schemas) \/
  is_Some (BodySchema.s_text schemas) ->
  Host.body val w = None ->
  exists msg,
    bodySchema schemas (Host.IsRequest val) w = (inl (Error msg), w) /\
    startsWith msg "Request body is required" = true.
Proof.
  intros Hany Hbody.
  pose proof (preprocess_runs_selected URLSearchParams_new Request_new
                schemas val w) as Hrun.
  assert (Hhb : Law.hasBodyIn val w = false).
  { unfold Law.hasBodyIn. rewrite Hbody. apply bool_decide_eq_false_2.
    intros H. by apply H. }
  unfold Law.runs in Hrun. rewrite Hhb in Hrun.
  destruct (Law.selected schemas (Law.contentTypeOf val)) eqn:Es.
  - destruct Hrun as (j & _ & Hrun). eexists.
    split; [apply bodySchema_inl; rewrite Hrun; reflexivity|done].
  - destruct Hrun as (f & _ & Hrun). eexists.
    split; [apply bodySchema_inl; rewrite Hrun; reflexivity|done].
  - destruct Hrun as (t & _ & Hrun). eexists.
    split; [apply bodySchema_inl; rewrite Hrun; reflexivity|done].
  - eexists. split; [apply bodySchema_inl; rewrite Hrun; reflexivity|done].
  - exfalso. unfold Law.selected in Es.
    assert (Hb : bool_decide (is_Some (BodySchema.s_json schemas)) ||
                 bool_decide (is_Some (BodySchema.s_formData schemas)) ||
                 bool_decide (is_Some (BodySchema.s_text schemas)) = true).
    { destruct Hany as [Hs|[Hs|Hs]]; rewrite (bool_decide_eq_true_2 _ Hs);
        by rewrite ?orb_true_r. }
    rewrite Hb in Es. by repeat case_match.
Qed.

(** X9: a text body is handed to the text schema exactly as the
    request's [text()] produced it.  With a text schema declared, no
    structured or form branch applying, a content type that is empty or
    starts with [text/] and a body present, the result is the schema's
    output on that very string; with [z.string()] it is the string
    itself. *)
Theorem text_body_round_trip (schemas : BodySchema.Schemas) (t : Zod.ZodType)
    (val : Host.Request) (w w1 : Host.World) (text : string) :
  let ct := Law.contentTypeOf val in
  BodySchema.s_text schemas = Some t ->
  BodySchema.jsonMatches schemas ct = None ->
  BodySchema.formDataMatches schemas ct = None ->
  startsWith ct "text/" || String.eqb ct "" = true ->
  Host.body val w <> None ->
  Host.text val w = (inr text, w1) ->
  (forall v, t (VStr text) = inr v ->
     bodySchema schemas (Host.IsRequest val) w =
     (inr (VObj {[ "body" := v ]}), w1)) /\
  (forall e, t (VStr text) = inl e ->
     bodySchema schemas (Host.IsRequest val) w = (inl e, w1)) /\
  (t = Zod.z_string ->
     bodySchema schemas (Host.IsRequest val) w =
     (inr (VObj {[ "body" := VStr text ]}), w1)).
Proof.
  intros ct Ht Ej Ef Hct Hbody Etext.
  pose proof (preprocess_runs_selected URLSearchParams_new Request_new
                schemas val w) as Hrun.
  fold ct in Hrun. unfold Law.selected in Hrun. rewrite Ej, Ef in Hrun.
  assert (Et : BodySchema.textMatches schemas ct = Some t)
    by by apply textMatches_Some.
  rewrite Et in Hrun. destruct Hrun as (t' & Ht' & Hrun).
  rewrite Ht in Ht'. injection Ht' as <-.
  unfold BodySchema.textBranch, Law.hasBodyIn in Hrun.
  rewrite bool_decide_eq_true_2 in Hrun by done. cbn [negb] in Hrun.
  rewrite (bind_inr _ _ _ _ _ Etext) in Hrun.
  assert (Hok : forall v, t (VStr text) = inr v ->
            bodySchema schemas (Host.IsRequest val) w =
            (inr (VObj {[ "body" := v ]}), w1)).
  { intros v Hv. apply bodySchema_of_preprocess. rewrite Hrun.
    unfold Host.bind, Host.lift, Host.ret. by rewrite Hv. }
  split; [done|]. split.
  - intros e He. apply bodySchema_inl. rewrite Hrun.
    unfold Host.bind, Host.lift. by rewrite He.
  - intros ->. by apply Hok.
Qed.

(** X10: in the structured branch every failure propagates unchanged,
    from the state the decoding left: a [json()] that throws surfaces
    its error and the schema is not run; a schema that rejects the
    decoded value surfaces its error; otherwise the result wraps the
    schema's output on the decoded value. *)
Theorem json_branch_outcomes (schemas : BodySchema.Schemas) (j : Zod.ZodType)
    (val : Host.Request) (w w1 : Host.World) :
  BodySchema.s_json schemas = Some j ->
  includes (Law.contentTypeOf val) "application/json" = true ->
  Host.body val w <> None ->
  (forall e, Host.json val w = (inl e, w1) ->
     bodySchema schemas (Host.IsRequest val) w = (inl e, w1)) /\
  (forall d e, Host.json val w = (inr d, w1) -> j d = inl e ->
     bodySchema schemas (Host.IsRequest val) w = (inl e, w1)) /\
  (forall d v, Host.json val w = (inr d, w1) -> j d = inr v ->
     bodySchema schemas (Host.IsRequest val) w =
     (inr (VObj {[ "body" := v ]}), w1)).
Proof.
  intros Hj Hct Hbody.
  pose proof (preprocess_runs_selected URLSearchParams_new Request_new
                schemas val w) as Hrun.
  assert (Ej : BodySchema.jsonMatches schemas (Law.contentTypeOf val) = Some j)
    by by apply jsonMatches_Some.
  unfold Law.selected in Hrun. rewrite Ej in Hrun.
  destruct Hrun as (j' & Hj' & Hrun). rewrite Hj in Hj'. injection Hj' as <-.
  unfold BodySchema.jsonBranch, Law.hasBodyIn in Hrun.
  rewrite bool_decide_eq_true_2 in Hrun by done. cbn [negb] in Hrun.
  split; [|split].
  - intros e E. apply bodySchema_inl. rewrite Hrun. by apply bind_inl.
  - intros d e E He. apply bodySchema_inl. rewrite Hrun.
    rewrite (bind_inr _ _ _ _ _ E). unfold Host.bind, Host.lift. by rewrite He.
  - intros d v E Hv. apply bodySchema_of_preprocess. rewrite Hrun.
    rewrite (bind_inr _ _ _ _ _ E). unfold Host.bind, Host.lift, Host.ret.
    by rewrite Hv.
Qed.

(** X11: the multipart decoding.  With a boundary in the content type
    (or no multipart content-type header at all) the request is decoded
    directly.  Without boundary the rebuilt clone is decoded first; when
    that fails the original request is decoded from the state the retry
    left, and when that fails too the error thrown is the one of this
    second decoding, not the one of the retry. *)
Theorem multipart_decoding (val : Host.Request) (obj : gmap string value)
    (w : Host.World) :
  (More.lacks_boundary val = false ->
   decodeMultipart val obj w =
   Host.bind (Host.formData val)
     (fun formData => Host.ret (BodySchema.assignFormData formData obj)) w) /\
  (forall formData w1,
     More.lacks_boundary val = true ->
     More.rebuilt_formData Request_new val w = (inr formData, w1) ->
     decodeMultipart val obj w =
     (inr (BodySchema.assignFormData formData obj), w1)) /\
  (forall cloneError w1 formData w2,
     More.lacks_boundary val = true ->
     More.rebuilt_formData Request_new val w = (inl cloneError, w1) ->
     Host.formData val w1 = (inr formData, w2) ->
     decodeMultipart val obj w =
     (inr (BodySchema.assignFormData formData obj), w2)) /\
  (forall cloneError w1 originalError w2,
     More.lacks_boundary val = true ->
     More.rebuilt_formData Request_new val w = (inl cloneError, w1) ->
     Host.formData val w1 = (inl originalError, w2) ->
     decodeMultipart val obj w = (inl originalError, w2)).
Proof.
  unfold BodySchema.decodeMultipart.
  change (match get (Host.headers val) "content-type" with
          | Some h => negb (String.eqb h "") &&
                      includes h "multipart/form-data" &&
                      negb (includes h "boundary=")
          | None => false
          end) with (More.lacks_boundary val).
  split; [|split; [|split]].
  - by intros ->.
  - intros formData w1 -> E.
    fold (More.rebuilt_formData Request_new val).
    unfold Host.bind at 1. unfold Host.try_catch. by rewrite E.
  - intros e1 w1 formData w2 -> E1 E2.
    fold (More.rebuilt_formData Request_new val).
    unfold Host.bind at 1. unfold Host.try_catch. by rewrite E1, E2.
  - intros e1 w1 e2 w2 -> E1 E2.
    fold (More.rebuilt_formData Request_new val).
    unfold Host.bind at 1. unfold Host.try_catch. by rewrite E1, E2.
Qed.

(** X12: a request without content type (header absent or empty) never
    takes the structured or the form branch: with a text schema
    declared it is read as text, otherwise any declared category makes
    it a content-type mismatch. *)
Theorem missing_content_type_is_text (schemas : BodySchema.Schemas)
    (val : Host.Request) (w : Host.World) :
  Law.contentTypeOf val = "" ->
  BodySchema.jsonMatches schemas "" = None /\
  BodySchema.formDataMatches schemas "" = None /\
  (forall t, BodySchema.s_text schemas = Some t ->
     preprocess schemas (Host.IsRequest val) w =
     BodySchema.textBranch t val (Law.hasBodyIn val w) w) /\
  (BodySchema.s_text schemas = None ->
   is_Some (BodySchema.s_json schemas) \/
   is_Some (BodySchema.s_formData schemas) ->
   preprocess schemas (Host.IsRequest val) w =
   BodySchema.mismatch schemas (Law.hasBodyIn val w) "" w).
Proof.
  intros Hct.
  assert (Ej : BodySchema.jsonMatches schemas "" = None).
  { unfold BodySchema.jsonMatches. by destruct (BodySchema.s_json schemas). }
  assert (Ef : BodySchema.formDataMatches schemas "" = None).
  { unfold BodySchema.formDataMatches.
    by destruct (BodySchema.s_formData schemas). }
  pose proof (preprocess_runs_selected URLSearchParams_new Request_new
                schemas val w) as Hrun.
  rewrite Hct in Hrun. unfold Law.selected in Hrun. rewrite Ej, Ef in Hrun.
  split; [done|]. split; [done|]. split.
  - intros t Ht.
    assert (Et : BodySchema.textMatches schemas "" = Some t)
      by by apply textMatches_Some.
    rewrite Et in Hrun. destruct Hrun as (t' & Ht' & ->). congruence.
  - intros Ht Hany.
    assert (Et : BodySchema.textMatches schemas "" = None).
    { unfold BodySchema.textMatches. by rewrite Ht. }
    rewrite Et in Hrun.
    assert (Hb : bool_decide (is_Some (BodySchema.s_json schemas)) ||
                 bool_decide (is_Some (BodySchema.s_formData schemas)) ||
                 bool_decide (is_Some (BodySchema.s_text schemas)) = true).
    { destruct Hany as [H|H]; rewrite (bool_decide_eq_true_2 _ H);
        by rewrite ?orb_true_r. }
    rewrite Hb in Hrun. unfold Law.runs in Hrun. by rewrite Hct in Hrun.
Qed.

(** X13: media types are matched as substrings of the content type, so
    parameters before or after the token do not matter: any content
    type that contains [application/json] selects the structured branch
    of a validator declaring it, and any that contains a form token
    selects the form branch when no structured schema is declared. *)
Theorem media_type_matched_as_substring (schemas : BodySchema.Schemas)
    (before after : string) :
  (is_Some (BodySchema.s_json schemas) ->
   Law.selected schemas (before ++ "application/json" ++ after) = Law.Json) /\
  (BodySchema.s_json schemas = None ->
   is_Some (BodySchema.s_formData schemas) ->
   Law.selected schemas (before ++ "multipart/form-data" ++ after) = Law.Form /\
   Law.selected schemas
     (before ++ "application/x-www-form-urlencoded" ++ after) = Law.Form).
Proof.
  split.
  - intros [j Hj]. unfold Law.selected.
    by rewrite (proj2 (jsonMatches_Some schemas _ j))
      by (split; [done | apply includes_app_r, includes_here]).
  - intros Hj [f Hf]. unfold Law.selected.
    assert (Ej : forall ct, BodySchema.jsonMatches schemas ct = None).
    { intros ct. unfold BodySchema.jsonMatches. by rewrite Hj. }
    rewrite !Ej. split.
    + rewrite (proj2 (formDataMatches_Some schemas _ f)); [done|].
      split; [done|]. apply orb_true_iff. left.
      apply includes_app_r, includes_here.
    + rewrite (proj2 (formDataMatches_Some schemas _ f)); [done|].
      split; [done|]. apply orb_true_iff. right.
      apply includes_app_r, includes_here.
Qed.

End BodyFacts.

(** ** The composite validator: order, failures and re-validation *)

(** Reading a field of the object literal the callback returns. *)
Ltac read_literal :=
  unfold prop;
  repeat (rewrite lookup_insert_ne by done);
  rewrite ?lookup_insert_eq; cbn [default].

Section RequestFacts.

Variable URL_new : string -> exn + URL.
Variable URLSearchParams_new : string -> list (string * string).

Local Abbreviation preprocess :=
  (RequestSchema.preprocess URL_new URLSearchParams_new).
Local Abbreviation requestSchema :=
  (RequestSchema.requestSchema URL_new URLSearchParams_new).
Local Abbreviation processSearchParams :=
  (RequestSchema.processSearchParams URLSearchParams_new).

(** Every step of a successful run of the callback. *)
Lemma preprocess_steps (config : RequestSchema.SchemaConfig)
    (r : Host.Request) (w w' : Host.World) (out : value) :
  preprocess config (Host.IsRequest r) w = (inr out, w') ->
  exists urlObj sp br ho m mo pr hn pn,
    URL_new (Host.url r) = inr urlObj /\
    match RequestSchema.searchParams config with
    | Some s => processSearchParams s urlObj w = (inr sp, w)
    | None => sp = VUndef
    end /\
    match RequestSchema.headers config with
    | Some h => RequestSchema.processHeaders h (Host.headers r) w' = (inr ho, w')
    | None => ho = VUndef
    end /\
    RequestSchema.simpleField (RequestSchema.method config) (Host.method r) w' =
      (inr m, w') /\
    RequestSchema.simpleField (RequestSchema.mode config) (Host.mode r) w' =
      (inr mo, w') /\
    RequestSchema.simpleField (RequestSchema.protocol config)
      (replace (Js.protocol urlObj) ":" "") w' = (inr pr, w') /\
    RequestSchema.simpleField (RequestSchema.hostname config)
      (Js.hostname urlObj) w' = (inr hn, w') /\
    RequestSchema.simpleField (RequestSchema.pathname config)
      (Js.pathname urlObj) w' = (inr pn, w') /\
    out = VObj
      (<["url" := VURL urlObj]>
      (<["searchParamsObject" := sp]>
      (<["body" := RequestSchema.originalBody br]>
      (<["bodyObject" := RequestSchema.bodyValue br]>
      (<["headers" := if RequestSchema.headers config is Some _
                      then VHeaders (Host.headers r) else VUndef]>
      (<["headersObj" := ho]>
      (<["method" := m]>
      (<["mode" := mo]>
      (<["protocol" := pr]>
      (<["hostname" := hn]>
      (<["pathname" := pn]> ∅))))))))))).
Proof.
  unfold RequestSchema.preprocess. intros H.
  bind_inv_as H urlObj w0 E. apply lift_inv in E as [E ->].
  bind_inv_as H sp w1 Esp.
  bind_inv_as H br w2 Ebr.
  bind_inv_as H ho w3 Eho.
  bind_inv_as H m w4 Em.
  bind_inv_as H mo w5 Emo.
  bind_inv_as H pr w6 Epr.
  bind_inv_as H hn w7 Ehn.
  bind_inv_as H pn w8 Epn.
  injection H as <- <-.
  apply simpleField_world in Epn as Hw; subst w8.
  apply simpleField_world in Ehn as Hw; subst w7.
  apply simpleField_world in Epr as Hw; subst w6.
  apply simpleField_world in Emo as Hw; subst w5.
  apply simpleField_world in Em as Hw; subst w4.
  assert (Hw1 : w1 = w).
  { destruct (RequestSchema.searchParams config).
    - by apply processSearchParams_world in Esp.
    - by injection Esp as _ <-. }
  subst w1.
  assert (Hw3 : w3 = w2).
  { destruct (RequestSchema.headers config).
    - by apply processHeaders_world in Eho.
    - by injection Eho as _ <-. }
  subst w3.
  exists urlObj, sp, br, ho, m, mo, pr, hn, pn.
  split; [done|]. split.
  { destruct (RequestSchema.searchParams config); [done|]. by injection Esp as <-. }
  split.
  { destruct (RequestSchema.headers config); [done|]. by injection Eho as <-. }
  done.
Qed.

Lemma simpleField_Some_inv (s : Zod.ZodType) (str : string)
    (w w' : Host.World) (v : value) :
  RequestSchema.simpleField (Some s) str w = (inr v, w') ->
  s (VStr str) = inr v.
Proof.
  unfold RequestSchema.simpleField, RequestSchema.processSimpleField, Host.lift.
  by intros [= ->].
Qed.

(** X14: each simple facet validates one string of the request, and the
    same schema is then run a second time on its own output: a
    successful result holds the output of the second run.  The strings
    are the request's method and mode, the URL's protocol without its
    first colon, its hostname and its pathname. *)
Theorem simple_facets_validated_twice (config : RequestSchema.SchemaConfig)
    (r : Host.Request) (w w' : Host.World) (o : gmap string value) :
  requestSchema config (Host.IsRequest r) w = (inr (VObj o), w') ->
  exists urlObj,
    URL_new (Host.url r) = inr urlObj /\
    (forall s, RequestSchema.method config = Some s ->
       exists v1 v2, s (VStr (Host.method r)) = inr v1 /\ s v1 = inr v2 /\
                     o !! "method" = Some v2) /\
    (forall s, RequestSchema.mode config = Some s ->
       exists v1 v2, s (VStr (Host.mode r)) = inr v1 /\ s v1 = inr v2 /\
                     o !! "mode" = Some v2) /\
    (forall s, RequestSchema.protocol config = Some s ->
       exists v1 v2,
         s (VStr (replace (Js.protocol urlObj) ":" "")) = inr v1 /\
         s v1 = inr v2 /\ o !! "protocol" = Some v2) /\
    (forall s, RequestSchema.hostname config = Some s ->
       exists v1 v2, s (VStr (Js.hostname urlObj)) = inr v1 /\ s v1 = inr v2 /\
                     o !! "hostname" = Some v2) /\
    (forall s, RequestSchema.pathname config = Some s ->
       exists v1 v2, s (VStr (Js.pathname urlObj)) = inr v1 /\ s v1 = inr v2 /\
                     o !! "pathname" = Some v2).
Proof.
  intros H.
  apply requestSchema_inr_inv in H as (input & o' & E & [= <-] & _ & _ & Hset).
  apply preprocess_steps in E
    as (urlObj & sp & br & ho & m & mo & pr & hn & pn & Eurl & _ & _ &
        Em & Emo & Epr & Ehn & Epn & [= ->]).
  exists urlObj. split; [done|].
  unfold RequestSchema.resultFields in Hset.
  split; [|split; [|split; [|split]]].
  - intros s Hs. rewrite Hs in Em.
    destruct (Hset "method" _ ltac:(in_list)) as (v & Hv & ->).
    revert Hv. read_literal. rewrite Hs. intros Hv.
    exists m, v. by rewrite (simpleField_Some_inv _ _ _ _ _ Em).
  - intros s Hs. rewrite Hs in Emo.
    destruct (Hset "mode" _ ltac:(in_list)) as (v & Hv & ->).
    revert Hv. read_literal. rewrite Hs. intros Hv.
    exists mo, v. by rewrite (simpleField_Some_inv _ _ _ _ _ Emo).
  - intros s Hs. rewrite Hs in Epr.
    destruct (Hset "protocol" _ ltac:(in_list)) as (v & Hv & ->).
    revert Hv. read_literal. rewrite Hs. intros Hv.
    exists pr, v. by rewrite (simpleField_Some_inv _ _ _ _ _ Epr).
  - intros s Hs. rewrite Hs in Ehn.
    destruct (Hset "hostname" _ ltac:(in_list)) as (v & Hv & ->).
    revert Hv. read_literal. rewrite Hs. intros Hv.
    exists hn, v. by rewrite (simpleField_Some_inv _ _ _ _ _ Ehn).
  - intros s Hs. rewrite Hs in Epn.
    destruct (Hset "pathname" _ ltac:(in_list)) as (v & Hv & ->).
    revert Hv. read_literal. rewrite Hs. intros Hv.
    exists pn, v. by rewrite (simpleField_Some_inv _ _ _ _ _ Epn).
Qed.

Lemma processSearchParams_inr_inv (sp : Utils.Preprocessed) (urlObj : URL)
    (w w' : Host.World) (v : value) :
  processSearchParams sp urlObj w = (inr v, w') ->
  exists base obj,
    Utils.extractBaseSchema sp = Some base /\
    Utils.extractSearchParamsObject
      (Utils.URLSearchParams (URLSearchParams_new (search urlObj)))
      (Utils.shape base) = inr obj /\
    Utils.parseAsync base (VObj obj) = inr v.
Proof.
  unfold RequestSchema.processSearchParams.
  destruct (Utils.extractBaseSchema sp) as [base|]; [|done].
  intros H. bind_inv_as H obj w1 E. apply lift_inv in E as [E _].
  apply lift_inv in H as [H _]. by exists base, obj.
Qed.

Lemma processHeaders_inr_inv (h : Utils.Preprocessed) (requestHeaders : Headers)
    (w w' : Host.World) (v : value) :
  RequestSchema.processHeaders h requestHeaders w = (inr v, w') ->
  exists base,
    Utils.extractBaseSchema h = Some base /\
    Utils.parseAsync base
      (VObj (Utils.extractHeadersObject requestHeaders (Utils.shape base))) =
    inr v.
Proof.
  unfold RequestSchema.processHeaders.
  destruct (Utils.extractBaseSchema h) as [base|]; [|done].
  intros H. apply lift_inv in H as [H _]. by exists base.
Qed.

(** X15: the validated maps are validated twice as well.  The base
    schema of a declared search-params (or headers) validator is run on
    the extracted object and then, in the result schema, once more on
    its own output; a successful result holds the second output. *)
Theorem map_facets_validated_twice (config : RequestSchema.SchemaConfig)
    (r : Host.Request) (w w' : Host.World) (o : gmap string value) :
  requestSchema config (Host.IsRequest r) w = (inr (VObj o), w') ->
  exists urlObj,
    URL_new (Host.url r) = inr urlObj /\
    (forall sp, RequestSchema.searchParams config = Some sp ->
       exists base obj v1 v2,
         Utils.extractBaseSchema sp = Some base /\
         Utils.extractSearchParamsObject
           (Utils.URLSearchParams (URLSearchParams_new (search urlObj)))
           (Utils.shape base) = inr obj /\
         Utils.parseAsync base (VObj obj) = inr v1 /\
         Utils.parseAsync base v1 = inr v2 /\
         o !! "searchParamsObject" = Some v2) /\
    (forall h, RequestSchema.headers config = Some h ->
       exists base v1 v2,
         Utils.extractBaseSchema h = Some base /\
         Utils.parseAsync base
           (VObj (Utils.extractHeadersObject (Host.headers r) (Utils.shape base))) =
         inr v1 /\
         Utils.parseAsync base v1 = inr v2 /\
         o !! "headersObj" = Some v2).
Proof.
  intros H.
  apply requestSchema_inr_inv in H as (input & o' & E & [= <-] & _ & _ & Hset).
  apply preprocess_steps in E
    as (urlObj & sp & br & ho & m & mo & pr & hn & pn & Eurl & Esp & Eho &
        _ & _ & _ & _ & _ & [= ->]).
  exists urlObj. split; [done|].
  unfold RequestSchema.resultFields in Hset. split.
  - intros s Hs. rewrite Hs in Esp.
    apply processSearchParams_inr_inv in Esp as (base & obj & Hb & Eo & Ev).
    destruct (Hset "searchParamsObject" _ ltac:(in_list)) as (v & Hv & ->).
    revert Hv. read_literal. rewrite Hs. unfold RequestSchema.baseOrUnknown.
    rewrite Hb. intros Hv. by exists base, obj, sp, v.
  - intros h Hh. rewrite Hh in Eho.
    apply processHeaders_inr_inv in Eho as (base & Hb & Ev).
    destruct (Hset "headersObj" _ ltac:(in_list)) as (v & Hv & ->).
    revert Hv. read_literal. rewrite Hh. unfold RequestSchema.baseOrUnknown.
    rewrite Hb. intros Hv. by exists base, ho, v.
Qed.

Lemma parse_literal_inr (lit : Zod.ZodLiteral) (v v' : value) :
  Zod.parse_literal lit v = inr v' ->
  v = VStr (Zod.literal_value lit) /\ v' = v.
Proof.
  unfold Zod.parse_literal. destruct v; try done.
  destruct (String.eqb_spec s (Zod.literal_value lit)); [|done].
  intros [= <-]. by subst.
Qed.

Lemma z_enum_inr (members : list string) (v v' : value) :
  Zod.z_enum members v = inr v' ->
  exists s, s ∈ members /\ v = VStr s /\ v' = v.
Proof.
  unfold Zod.z_enum. destruct v; try done.
  destruct (arr_includes members s) eqn:E; [|done].
  intros [= <-]. exists s. by apply arr_includes_elem_of in E.
Qed.

(** X16: what a successful validation tells about the request.  With a
    literal method schema the request's method is that literal; with the
    method enumeration it is one of the seven verbs; with a literal
    protocol schema the URL's protocol without its first colon is that
    literal. *)
Theorem literal_facets_pin_the_request (config : RequestSchema.SchemaConfig)
    (r : Host.Request) (w w' : Host.World) (o : gmap string value) :
  requestSchema config (Host.IsRequest r) w = (inr (VObj o), w') ->
  (forall lit,
     RequestSchema.method config = Some (Zod.parse_literal lit) ->
     Host.method r = Zod.literal_value lit /\
     o !! "method" = Some (VStr (Zod.literal_value lit))) /\
  (RequestSchema.method config = Some HttpMethod.httpMethodEnumSchema ->
   Host.method r ∈ HttpMethod.HTTP_METHODS /\
   o !! "method" = Some (VStr (Host.method r))) /\
  (forall lit,
     RequestSchema.protocol config = Some (Zod.parse_literal lit) ->
     exists urlObj,
       URL_new (Host.url r) = inr urlObj /\
       replace (Js.protocol urlObj) ":" "" = Zod.literal_value lit /\
       o !! "protocol" = Some (VStr (Zod.literal_value lit))).
Proof.
  intros H.
  apply requestSchema_inr_inv in H as (input & o' & E & [= <-] & _ & _ & Hset).
  apply preprocess_steps in E
    as (urlObj & sp & br & ho & m & mo & pr & hn & pn & Eurl & _ & _ &
        Em & _ & Epr & _ & _ & [= ->]).
  unfold RequestSchema.resultFields in Hset.
  split; [|split].
  - intros lit Hs. rewrite Hs in Em.
    apply simpleField_Some_inv in Em. apply parse_literal_inr in Em as [[= Hm] ->].
    destruct (Hset "method" _ ltac:(in_list)) as (v & Hv & ->).
    revert Hv. read_literal. rewrite Hs. cbn [RequestSchema.orUnknownOptional].
    intros Hv. apply parse_literal_inr in Hv as [_ ->]. by rewrite Hm.
  - intros Hs. rewrite Hs in Em.
    apply simpleField_Some_inv in Em.
    apply z_enum_inr in Em as (s & Hin & [= Hm] & ->).
    destruct (Hset "method" _ ltac:(in_list)) as (v & Hv & ->).
    revert Hv. read_literal. rewrite Hs. cbn [RequestSchema.orUnknownOptional].
    intros Hv. apply z_enum_inr in Hv as (s' & _ & _ & ->). by rewrite Hm.
  - intros lit Hs. rewrite Hs in Epr.
    apply simpleField_Some_inv in Epr.
    apply parse_literal_inr in Epr as [[= Hp] ->].
    destruct (Hset "protocol" _ ltac:(in_list)) as (v & Hv & ->).
    revert Hv. read_literal. rewrite Hs. cbn [RequestSchema.orUnknownOptional].
    intros Hv. apply parse_literal_inr in Hv as [_ ->].
    exists urlObj. by rewrite Hp.
Qed.

(** X17: the search-params facet fails first.  When its validator has
    no extractable base schema, when the extraction from the query
    string throws (several values for a scalar key), or when the base
    schema rejects the extracted object, the whole validation fails with
    that very error and the state of the request is the initial one: no
    body sub-validator was started. *)
Theorem search_params_fail_first (config : RequestSchema.SchemaConfig)
    (sp : Utils.Preprocessed) (r : Host.Request) (w : Host.World)
    (urlObj : URL) :
  RequestSchema.searchParams config = Some sp ->
  URL_new (Host.url r) = inr urlObj ->
  (Utils.extractBaseSchema sp = None ->
   requestSchema config (Host.IsRequest r) w =
   (inl (Error "Unable to extract base schema from preprocessed searchParams schema. This may be a Zod v4 compatibility issue."),
    w)) /\
  (forall base e,
     Utils.extractBaseSchema sp = Some base ->
     Utils.extractSearchParamsObject
       (Utils.URLSearchParams (URLSearchParams_new (search urlObj)))
       (Utils.shape base) = inl e ->
     requestSchema config (Host.IsRequest r) w = (inl e, w)) /\
  (forall base obj e,
     Utils.extractBaseSchema sp = Some base ->
     Utils.extractSearchParamsObject
       (Utils.URLSearchParams (URLSearchParams_new (search urlObj)))
       (Utils.shape base) = inr obj ->
     Utils.parseAsync base (VObj obj) = inl e ->
     requestSchema config (Host.IsRequest r) w = (inl e, w)).
Proof.
  intros Hsp Hurl.
  assert (Hfail : forall e,
            processSearchParams sp urlObj w = (inl e, w) ->
            requestSchema config (Host.IsRequest r) w = (inl e, w)).
  { intros e E. unfold RequestSchema.requestSchema. apply bind_inl.
    unfold RequestSchema.preprocess.
    rewrite (bind_inr _ _ w w urlObj) by (unfold Host.lift; by rewrite Hurl).
    rewrite Hsp. by apply bind_inl. }
  split; [|split].
  - intros Hb. apply Hfail. unfold RequestSchema.processSearchParams.
    by rewrite Hb.
  - intros base e Hb E. apply Hfail. unfold RequestSchema.processSearchParams.
    rewrite Hb. unfold Host.bind, Host.lift. by rewrite E.
  - intros base obj e Hb E He. apply Hfail.
    unfold RequestSchema.processSearchParams.
    rewrite Hb. unfold Host.bind, Host.lift. by rewrite E, He.
Qed.

(** X18: a failure of the body sub-validator is the failure of the
    whole validation, from the state the sub-validator left: once the
    URL is parsed and the search-params facet (if declared) has passed,
    the error of the body sub-validator is thrown unchanged and no later
    facet is evaluated. *)
Theorem body_failure_propagates (config : RequestSchema.SchemaConfig)
    (b : Host.input -> Host.M value) (r : Host.Request) (w w1 : Host.World)
    (urlObj : URL) (e : exn) :
  URL_new (Host.url r) = inr urlObj ->
  (forall sp, RequestSchema.searchParams config = Some sp ->
     exists v, processSearchParams sp urlObj w = (inr v, w)) ->
  RequestSchema.body config = Some b ->
  b (Host.IsRequest r) w = (inl e, w1) ->
  requestSchema config (Host.IsRequest r) w = (inl e, w1).
Proof.
  intros Hurl Hsp Hb E.
  unfold RequestSchema.requestSchema. apply bind_inl.
  unfold RequestSchema.preprocess.
  rewrite (bind_inr _ _ w w urlObj) by (unfold Host.lift; by rewrite Hurl).
  assert (Hs : exists v,
            match RequestSchema.searchParams config with
            | Some sp => processSearchParams sp urlObj
            | None => Host.ret VUndef
            end w = (inr v, w)).
  { destruct (RequestSchema.searchParams config) as [sp|]; [by apply Hsp|].
    by exists VUndef. }
  destruct Hs as [v Hs]. rewrite (bind_inr _ _ _ _ _ Hs).
  rewrite Hb. apply bind_inl. unfold RequestSchema.processBody.
  unfold Host.bind at 1. unfold Host.read. by apply bind_inl.
Qed.

End RequestFacts.

(** ** Enumerations *)

(** X19: the enumeration schemas accept exactly the strings of their
    closed sets, and agree with the literal builders: a builder succeeds
    on a value exactly when the enumeration accepts that string, and
    whatever the built literal accepts the enumeration accepts too. *)
Theorem enums_agree_with_literal_builders :
  let agree (members : list string) (enum : Zod.ZodType)
            (builder : string -> exn + Zod.ZodLiteral) :=
    (forall v, (exists v', enum v = inr v') <->
               exists s, s ∈ members /\ v = VStr s) /\
    (forall s, (exists lit, builder s = inr lit) <->
               enum (VStr s) = inr (VStr s)) /\
    (forall s lit v v', builder s = inr lit ->
       Zod.parse_literal lit v = inr v' -> enum v = inr v') in
  agree HttpMethod.HTTP_METHODS HttpMethod.httpMethodEnumSchema
        HttpMethod.httpMethodSchema /\
  agree Protocol.PROTOCOLS Protocol.protocolEnumSchema
        Protocol.protocolSchema /\
  agree RequestMode.REQUEST_MODES RequestMode.requestModeEnumSchema
        RequestMode.requestModeSchema.
Proof.
  assert (Hgen : forall what members builder,
            (forall value,
               builder value =
               if negb (arr_includes members value) then
                 inl (Error (what ++ dquote ++ value ++ dquote ++
                             ". Must be one of: " ++ join ", " members))
               else inr (Zod.z_literal value)) ->
            (forall v, (exists v', Zod.z_enum members v = inr v') <->
                       exists s, s ∈ members /\ v = VStr s) /\
            (forall s, (exists lit, builder s = inr lit) <->
                       Zod.z_enum members (VStr s) = inr (VStr s)) /\
            (forall s lit v v', builder s = inr lit ->
               Zod.parse_literal lit v = inr v' ->
               Zod.z_enum members v = inr v')).
  { intros what members builder Hb.
    assert (Hin : forall s, s ∈ members ->
                            Zod.z_enum members (VStr s) = inr (VStr s)).
    { intros s Hs. unfold Zod.z_enum.
      by rewrite (proj2 (arr_includes_elem_of members s) Hs). }
    split; [|split].
    - intros v. split.
      + intros [v' Hv]. apply z_enum_inr in Hv as (s & Hs & -> & _).
        by exists s.
      + intros (s & Hs & ->). exists (VStr s). by apply Hin.
    - intros s. rewrite Hb. split.
      + intros [lit Hl]. apply Hin. apply arr_includes_elem_of.
        by destruct (arr_includes members s).
      + intros Hs. apply z_enum_inr in Hs as (s' & Hs' & [= <-] & _).
        rewrite (proj2 (arr_includes_elem_of members s) Hs'). by eexists.
    - intros s lit v v' Hl Hv. rewrite Hb in Hl.
      destruct (arr_includes members s) eqn:Es; [|done].
      injection Hl as <-. apply parse_literal_inr in Hv as [-> ->].
      apply Hin. by apply arr_includes_elem_of. }
  intros agree. split; [|split]; by eapply Hgen.
Qed.

(** ** The further properties on sample requests *)

Lemma missing_body_always_reported_witness :
  BodySchema.bodySchema Sample.no_params Sample.no_request Sample.all_three
    (Host.IsRequest Sample.xml_get) Sample.nowhere =
  (inl (Error "Request body is required"), Sample.nowhere).
Proof.
  destruct (missing_body_always_reported Sample.no_params Sample.no_request
              Sample.all_three Sample.xml_get Sample.nowhere)
    as (msg & E & _).
  - left. by eexists.
  - reflexivity.
  - rewrite E. vm_compute in E. injection E as <-. reflexivity.
Defined.

Lemma text_body_round_trip_witness :
  BodySchema.bodySchema Sample.no_params Sample.no_request More.text_only
    (Host.IsRequest More.text_post) Sample.nowhere =
  (inr (VObj {[ "body" := VStr "  hello world  " ]}),
   Host.mkWorld ({[2]} ∪ Host.consumed Sample.nowhere)).
Proof.
  destruct (text_body_round_trip Sample.no_params Sample.no_request
              More.text_only Zod.z_string More.text_post Sample.nowhere
              (Host.mkWorld ({[2]} ∪ Host.consumed Sample.nowhere))
              "  hello world  " eq_refl eq_refl eq_refl eq_refl)
    as (_ & _ & H).
  - discriminate.
  - reflexivity.
  - exact (H eq_refl).
Defined.

Lemma json_branch_outcomes_witness :
  BodySchema.bodySchema Sample.no_params Sample.no_request Sample.json_only
    (Host.IsRequest Sample.ambiguous) Sample.nowhere =
  (inr (VObj {[ "body" := VObj {[ "name" := VStr "John" ]} ]}),
   Host.mkWorld ({[7]} ∪ Host.consumed Sample.nowhere)).
Proof.
  destruct (json_branch_outcomes Sample.no_params Sample.no_request
              Sample.json_only Sample.accept_all Sample.ambiguous
              Sample.nowhere
              (Host.mkWorld ({[7]} ∪ Host.consumed Sample.nowhere))
              eq_refl eq_refl)
    as (_ & _ & H).
  - discriminate.
  - exact (H (VObj {[ "name" := VStr "John" ]})
             (VObj {[ "name" := VStr "John" ]}) eq_refl eq_refl).
Defined.

Lemma multipart_decoding_witness :
  BodySchema.decodeMultipart Sample.no_request More.multipart_broken ∅
    Sample.nowhere =
  (inl (TypeError "Failed to parse body as FormData"),
   Host.mkWorld ({[4]} ∪ Host.consumed Sample.nowhere)).
Proof.
  destruct (multipart_decoding Sample.no_request More.multipart_broken ∅
              Sample.nowhere) as (_ & _ & _ & H).
  exact (H (TypeError "Request body is already used") Sample.nowhere
           (TypeError "Failed to parse body as FormData")
           (Host.mkWorld ({[4]} ∪ Host.consumed Sample.nowhere))
           eq_refl eq_refl eq_refl).
Defined.

Lemma missing_content_type_is_text_witness :
  BodySchema.preprocess Sample.no_params Sample.no_request More.text_only
    (Host.IsRequest More.bare_post) Sample.nowhere =
  BodySchema.textBranch Zod.z_string More.bare_post true Sample.nowhere.
Proof.
  destruct (missing_content_type_is_text Sample.no_params Sample.no_request
              More.text_only More.bare_post Sample.nowhere eq_refl)
    as (_ & _ & H & _).
  exact (H Zod.z_string eq_refl).
Defined.

Lemma media_type_matched_as_substring_witness :
  Law.selected Sample.json_only
    ("" ++ "application/json" ++ "; charset=utf-8") = Law.Json.
Proof.
  apply (proj1 (media_type_matched_as_substring Sample.json_only
                  "" "; charset=utf-8")).
  by eexists.
Defined.

Lemma simple_facets_validated_twice_witness :
  exists o w',
    RequestSchema.requestSchema (More.url_with "?tag=a&q=1") More.query_of
      More.pinned (Host.IsRequest Sample.xml_post) Sample.nowhere =
    (inr (VObj o), w') /\
    o !! "method" = Some (VStr "POST") /\
    o !! "protocol" = Some (VStr "https").
Proof.
  destruct (RequestSchema.requestSchema (More.url_with "?tag=a&q=1")
              More.query_of More.pinned (Host.IsRequest Sample.xml_post)
              Sample.nowhere)
    as [[e|[]] w'] eqn:E; try (vm_compute in E; discriminate E).
  destruct (simple_facets_validated_twice _ _ _ _ _ _ _ E)
    as (urlObj & Hurl & Hm & _ & Hp & _).
  injection Hurl as <-.
  destruct (Hm _ eq_refl) as (v1 & v2 & H1 & H2 & Ho).
  destruct (Hp _ eq_refl) as (p1 & p2 & P1 & P2 & Po).
  vm_compute in H1. injection H1 as <-. vm_compute in H2. injection H2 as <-.
  vm_compute in P1. injection P1 as <-. vm_compute in P2. injection P2 as <-.
  by exists o, w'.
Defined.

Lemma map_facets_validated_twice_witness :
  exists o w',
    RequestSchema.requestSchema (More.url_with "?tag=a&q=1") More.query_of
      More.pinned (Host.IsRequest Sample.xml_post) Sample.nowhere =
    (inr (VObj o), w') /\
    o !! "searchParamsObject" =
      Some (VObj {[ "tag" := VArr [VStr "a"]; "q" := VStr "1";
                    "page" := VUndef ]}) /\
    o !! "headersObj" =
      Some (VObj {[ "content-type" := VStr "application/xml" ]}).
Proof.
  destruct (RequestSchema.requestSchema (More.url_with "?tag=a&q=1")
              More.query_of More.pinned (Host.IsRequest Sample.xml_post)
              Sample.nowhere)
    as [[e|[]] w'] eqn:E; try (vm_compute in E; discriminate E).
  destruct (map_facets_validated_twice _ _ _ _ _ _ _ E)
    as (urlObj & Hurl & Hs & Hh).
  injection Hurl as <-.
  destruct (Hs _ eq_refl) as (base & obj & v1 & v2 & Hb & Eo & H1 & H2 & Ho).
  destruct (Hh _ eq_refl) as (hbase & h1 & h2 & Hhb & G1 & G2 & Hho).
  injection Hb as <-. injection Hhb as <-.
  vm_compute in Eo. injection Eo as <-.
  vm_compute in H1. injection H1 as <-. vm_compute in H2. injection H2 as <-.
  vm_compute in G1. injection G1 as <-. vm_compute in G2. injection G2 as <-.
  exists o, w'. split; [reflexivity|]. split.
  - rewrite Ho. vm_compute. reflexivity.
  - rewrite Hho. vm_compute. reflexivity.
Defined.

Lemma literal_facets_pin_the_request_witness :
  exists o w',
    RequestSchema.requestSchema (More.url_with "?tag=a&q=1") More.query_of
      More.pinned (Host.IsRequest Sample.xml_post) Sample.nowhere =
    (inr (VObj o), w') /\
    Host.method Sample.xml_post = "POST" /\
    o !! "method" = Some (VStr "POST").
Proof.
  destruct (RequestSchema.requestSchema (More.url_with "?tag=a&q=1")
              More.query_of More.pinned (Host.IsRequest Sample.xml_post)
              Sample.nowhere)
    as [[e|[]] w'] eqn:E; try (vm_compute in E; discriminate E).
  destruct (literal_facets_pin_the_request _ _ _ _ _ _ _ E) as (Hm & _).
  destruct (Hm (Zod.z_literal "POST") eq_refl) as [H1 H2].
  by exists o, w'.
Defined.

Lemma search_params_fail_first_witness :
  RequestSchema.requestSchema (More.url_with "?tag=a&q=1&q=2") More.query_of
    More.params_and_body (Host.IsRequest Sample.draining) Sample.nowhere =
  (inl (Utils.multipleValuesError "q"), Sample.nowhere).
Proof.
  destruct (search_params_fail_first (More.url_with "?tag=a&q=1&q=2")
              More.query_of More.params_and_body
              (SubValidators.pipe More.tags_schema) Sample.draining
              Sample.nowhere
              (mkURL "https://example.com/" "https:" "example.com" "/items"
                     "?tag=a&q=1&q=2")
              eq_refl eq_refl)
    as (_ & H & _).
  exact (H More.tags_schema (Utils.multipleValuesError "q") eq_refl eq_refl).
Defined.

Lemma body_failure_propagates_witness :
  RequestSchema.requestSchema Sample.url_of Sample.no_params Sample.body_only
    (Host.IsRequest Sample.xml_post) Sample.nowhere =
  (inl (Error "Content-Type mismatch. Expected one of: application/json, but got: application/xml"),
   Sample.nowhere).
Proof.
  apply (body_failure_propagates Sample.url_of Sample.no_params
           Sample.body_only
           (BodySchema.bodySchema Sample.no_params Sample.no_request
              Sample.json_only)
           Sample.xml_post Sample.nowhere Sample.nowhere
           (mkURL "https://example.com/" "https:" "example.com" "/" "")).
  - reflexivity.
  - intros sp Hsp. discriminate Hsp.
  - reflexivity.
  - reflexivity.
Defined.

Lemma enums_agree_with_literal_builders_witness :
  (exists lit, HttpMethod.httpMethodSchema "HEAD" = inr lit) /\
  HttpMethod.httpMethodEnumSchema (VStr "HEAD") = inr (VStr "HEAD").
Proof.
  destruct enums_agree_with_literal_builders as ((_ & H & _) & _).
  assert (Hl : exists lit, HttpMethod.httpMethodSchema "HEAD" = inr lit)
    by by eexists.
  split; [exact Hl | exact (proj1 (H "HEAD") Hl)].
Defined.

(** ** Success of a body-only validator *)

Lemma foldl_handle_ok (input : gmap string value)
    (fields : list (string * Zod.ZodType)) (out0 : gmap string value) :
  (forall k, k ∈ fields.*1 -> is_Some (input !! k)) ->
  (forall k t, (k, t) ∈ fields -> exists v, t (prop input k) = inr v) ->
  exists out,
    foldl (fun acc kt => Zod.handlePropertyResult input kt.1 kt.2 acc)
          (inr out0) fields = inr out.
Proof.
  revert out0. induction fields as [|[k t] fields IH]; intros out0 Hkeys Hok.
  - by exists out0.
  - destruct (Hok k t) as [v Hv]; [by left|].
    cbn [foldl fst snd].
    rewrite (handlePropertyResult_inr input out0 k t v);
      [|apply Hkeys; rewrite fmap_cons; by left|done].
    apply IH.
    + intros k' Hk'. apply Hkeys. rewrite fmap_cons. by right.
    + intros k' t' Hin. apply (Hok k' t'). by right.
Qed.

Section BodyOnly.

Variable URL_new : string -> exn + URL.
Variable URLSearchParams_new : string -> list (string * string).

(** X20: a composite validator that declares a body sub-validator and
    nothing else succeeds whenever the URL parses and the sub-validator
    returns an object: the result holds the parsed URL, the stream or
    [null] read before the sub-validator ran, the [body] property of
    what it returned, and [undefined] for every other facet; the final
    state is the one the sub-validator left. *)
Theorem body_only_validation_succeeds (b : Host.input -> Host.M value)
    (r : Host.Request) (w w1 : Host.World) (urlObj : URL)
    (parsed : gmap string value) :
  URL_new (Host.url r) = inr urlObj ->
  b (Host.IsRequest r) w = (inr (VObj parsed), w1) ->
  exists o,
    RequestSchema.requestSchema URL_new URLSearchParams_new
      (RequestSchema.mkConfig None (Some b) None None None None None None)
      (Host.IsRequest r) w = (inr (VObj o), w1) /\
    o !! "url" = Some (VURL urlObj) /\
    o !! "body" = Some (Host.of_body (Host.body r w)) /\
    o !! "bodyObject" = Some (prop parsed "body") /\
    (forall k, k ∈ ["searchParamsObject"; "headers"; "headersObj"; "method";
                     "mode"; "protocol"; "hostname"; "pathname"] ->
               o !! k = Some VUndef).
Proof.
  intros Hurl Hb.
  set (config := (RequestSchema.mkConfig None (Some b) None None None None
                    None None)).
  set (input :=
      (<["url" := VURL urlObj]>
      (<["searchParamsObject" := VUndef]>
      (<["body" := Host.of_body (Host.body r w)]>
      (<["bodyObject" := prop parsed "body"]>
      (<["headers" := VUndef]>
      (<["headersObj" := VUndef]>
      (<["method" := VUndef]>
      (<["mode" := VUndef]>
      (<["protocol" := VUndef]>
      (<["hostname" := VUndef]>
      (<["pathname" := VUndef]> (∅ : gmap string value))))))))))))).
  assert (Hpre : RequestSchema.preprocess URL_new URLSearchParams_new config
                   (Host.IsRequest r) w = (inr (VObj input), w1)).
  { unfold RequestSchema.preprocess, config.
    cbn [RequestSchema.searchParams RequestSchema.body RequestSchema.headers
         RequestSchema.method RequestSchema.mode RequestSchema.protocol
         RequestSchema.hostname RequestSchema.pathname
         RequestSchema.simpleField].
    rewrite (bind_inr _ _ w w urlObj) by (unfold Host.lift; by rewrite Hurl).
    rewrite (bind_inr _ _ w w VUndef) by done.
    rewrite (bind_inr _ _ w w1
               (RequestSchema.mkBodyResult (VObj parsed) (prop parsed "body")
                  (Host.of_body (Host.body r w)))).
    2:{ unfold RequestSchema.processBody.
        rewrite (bind_inr _ _ w w (Host.body r w)) by done.
        rewrite (bind_inr _ _ _ _ _ Hb). done. }
    done. }
  assert (Hkeys : forall k, k ∈ RequestSchema.resultKeys -> is_Some (input !! k)).
  { intros k Hk. unfold RequestSchema.resultKeys in Hk. unfold input.
    repeat (apply elem_of_cons in Hk as [->|Hk];
            [repeat (rewrite lookup_insert_ne by done);
             rewrite lookup_insert_eq; by eexists|]).
    by apply elem_of_nil in Hk. }
  assert (Hfields : forall k t, (k, t) ∈ RequestSchema.resultFields config ->
                      exists v, t (prop input k) = inr v).
  { intros k t Hin. unfold RequestSchema.resultFields, config in Hin.
    cbn [RequestSchema.searchParams RequestSchema.body RequestSchema.headers
         RequestSchema.method RequestSchema.mode RequestSchema.protocol
         RequestSchema.hostname RequestSchema.pathname
         RequestSchema.orUnknownOptional] in Hin.
    unfold input.
    repeat (apply elem_of_cons in Hin as [[= -> ->]|Hin];
            [read_literal; try (by eexists)|]).
    - destruct (Host.body r w); by eexists.
    - by apply elem_of_nil in Hin. }
  destruct (foldl_handle_ok input (RequestSchema.resultFields config) ∅)
    as [o Ho]; [by rewrite resultFields_keys|done|].
  exists o.
  apply foldl_handle_inr in Ho as Hinv; [|by rewrite resultFields_keys].
  destruct Hinv as [_ Hset]. rewrite resultFields_keys in Hset.
  specialize (Hset resultKeys_NoDup).
  split.
  { unfold RequestSchema.requestSchema. rewrite (bind_inr _ _ _ _ _ Hpre).
    unfold Host.lift, RequestSchema.buildResultSchema, Zod.z_object.
    by rewrite Ho. }
  unfold RequestSchema.resultFields, config in Hset.
  cbn [RequestSchema.searchParams RequestSchema.body RequestSchema.headers
       RequestSchema.method RequestSchema.mode RequestSchema.protocol
       RequestSchema.hostname RequestSchema.pathname
       RequestSchema.orUnknownOptional] in Hset.
  split.
  { destruct (Hset "url" _ ltac:(in_list)) as (v & Hv & ->).
    revert Hv. unfold input. read_literal. by intros [= <-]. }
  split.
  { destruct (Hset "body" _ ltac:(in_list)) as (v & Hv & ->).
    revert Hv. unfold input. read_literal.
    by destruct (Host.body r w); intros [= <-]. }
  split.
  { destruct (Hset "bodyObject" _ ltac:(in_list)) as (v & Hv & ->).
    revert Hv. unfold input. read_literal. by intros [= <-]. }
  intros k Hk.
  repeat (apply elem_of_cons in Hk as [->|Hk];
          [match goal with
           | |- o !! ?key = _ =>
               destruct (Hset key _ ltac:(in_list)) as (v & Hv & ->);
               revert Hv; unfold input; read_literal; by intros [= <-]
           end|]).
  by apply elem_of_nil in Hk.
Qed.

End BodyOnly.

Lemma body_only_validation_succeeds_witness :
  exists o,
    RequestSchema.requestSchema Sample.url_of Sample.no_params
      (RequestSchema.mkConfig None
         (Some (BodySchema.bodySchema Sample.no_params Sample.no_request
                  Sample.json_only))
         None None None None None None)
      (Host.IsRequest Sample.draining) Sample.nowhere =
    (inr (VObj o), Host.mkWorld ({[7]} ∪ Host.consumed Sample.nowhere)) /\
    o !! "body" = Some (VStream 7) /\
    o !! "bodyObject" = Some (VObj {[ "name" := VStr "John" ]}).
Proof.
  destruct (body_only_validation_succeeds Sample.url_of Sample.no_params
              (BodySchema.bodySchema Sample.no_params Sample.no_request
                 Sample.json_only)
              Sample.draining Sample.nowhere
              (Host.mkWorld ({[7]} ∪ Host.consumed Sample.nowhere))
              (mkURL "https://example.com/" "https:" "example.com" "/" "")
              {[ "body" := VObj {[ "name" := VStr "John" ]} ]}
              eq_refl)
    as (o & E & _ & Hbody & Hobj & _).
  - vm_compute. reflexivity.
  - exists o. split; [exact E|]. split; [exact Hbody|].
    rewrite Hobj. vm_compute. reflexivity.
Defined.

Lemma headers_extraction_exact_witness :
  HeaderAccess.extractHeadersObject More.strict_headers
    [("content-type", Some Sample.scalar); ("bad key", Some Sample.scalar);
     ("accept", None)] =
  inl (TypeError "Invalid header name") /\
  exists obj,
    HeaderAccess.extractHeadersObject More.strict_headers
      [("Content-Type", Some Sample.scalar); ("accept", None)] = inr obj /\
    obj !! "Content-Type" = Some (VStr "text/plain") /\
    obj !! "accept" = Some VUndef /\
    obj !! "cookie" = None.
Proof.
  split.
  - apply (proj1 (headers_extraction_exact More.strict_headers _)
             [("content-type", Some Sample.scalar)] "bad key"
             (Some Sample.scalar) [("accept", None)]).
    + reflexivity.
    + intros k Hk. apply elem_of_cons in Hk as [->|Hk]; [by eexists|].
      by apply elem_of_nil in Hk.
    + reflexivity.
  - destruct (proj1 (proj2 (headers_extraction_exact More.strict_headers
                [("Content-Type", Some Sample.scalar); ("accept", None)])))
      as (obj & E & Hnone & Hsome).
    + intros k Hk.
      repeat (apply elem_of_cons in Hk as [->|Hk]; [by eexists|]).
      by apply elem_of_nil in Hk.
    + exists obj. split; [exact E|]. split; [|split].
      * apply (Hsome "Content-Type" (Some "text/plain")); [by_compute|reflexivity].
      * apply (Hsome "accept" None); [by_compute|reflexivity].
      * apply Hnone. by_compute.
Defined.
